(** * DevTrack backend: access policy, mutation handlers and event relay

    A shallow embedding of the route handlers of the project/ticket
    tracker, of the ticket schema and of the socket handlers.

    Sources and the modules that embed them.
    - routes/projects.js: [ProjectsV1] is its first version
      (src/unnamed/part_002), [ProjectsV2] the version with [@route]
      documentation (second file of src/unnamed/part_001), called the
      documented version below.
    - routes/tickets.js: [TicketsV1] is src/routes/tickets.js, [TicketsV2]
      the second file of src/unnamed/part_003, [TicketsV3] the documented
      version (first file of src/unnamed/part_003).
    - models/Ticket.js: [Ticket_new], [Ticket_spread], [Ticket_assign],
      [Ticket_valid], [Ticket_save].
    - server.js (both versions register the same socket handlers):
      [Relay].
    - The routes that the statements of the design do not name:
      [ProjectAdminV1], [ProjectAdminV2] (create, list and update of
      routes/projects.js), [TicketListV2], [TicketListV3]
      ([GET /api/tickets]), [AssignV1], [AssignV2]
      ([PUT /api/tickets/:id/assign]), [Auth] (routes/auth.js, first file
      of src/unnamed/part_001) and [Cors] (the allowed origins of
      server.js, src/unnamed/part_000).

    Conventions of the embedding.
    - Identifiers ([ObjectId]s, [req.user.id], [req.params.*]) are strings;
      a reference field holds the identifier it stores and [toString] of a
      reference is that identifier.  The empty string is the only string
      that is not an identifier.  A reference that [populate] has replaced
      is a document ([UserSummary]), no longer an identifier: its
      [toString] is the printed document ([printed]).
    - A string is the sequence of the bytes of its UTF-8 encoding.
    - A request body field is an [option string]: [None] when the key is
      missing, [Some v] otherwise; JavaScript truthiness of a string is
      non-emptiness.
    - A handler is a function from the store (and the request) to a reply
      and the store after the request.  An early [return res.status(..)]
      is [Respond]; a thrown exception is [Raise] and is turned into the
      reply of the handler's own [catch] block.
    - [Date.now()] / [new Date()] is an explicit argument [now]. *)

From Stdlib Require Import ZArith Lia Bool Ascii String Sorted.
From stdpp Require Import base strings list gmap fin_maps.

Local Open Scope string_scope.
Local Open Scope Z_scope.
Local Open Scope list_scope.

(** ** Documents *)

Module User.
Record t := mk { _id : string; name : string; email : string }.
End User.

Module Project.
Record t := mk {
  title : string;
  createdBy : string;
  teamMembers : list string
}.
End Project.

Module Comment.
(** An embedded comment of models/Ticket.js; [author] and [text] are
    required by the schema and therefore optional in a candidate. *)
Record t := mk {
  author : option string;
  text : option string;
  timestamp : Z
}.
End Comment.

Module Ticket.
(** A ticket document as the schema of models/Ticket.js shapes it.
    Paths that the schema marks [required] may still be missing in a
    document that has not been validated yet. *)
Record t := mk {
  title : option string;
  description : option string;
  priority : string;
  status : string;
  type : string;
  tags : list string;
  assignee : option string;
  reporter : option string;
  projectId : option string;
  createdBy : option string;
  comments : list Comment.t;
  createdAt : Z;
  updatedAt : Z
}.
End Ticket.

(** The document store: three collections.  Users are kept in natural
    order because [findOne] returns the first match. *)
Record Store := mkStore {
  users : list User.t;
  projects : gmap string Project.t;
  tickets : gmap string Ticket.t
}.

(** ** Replies *)

(** What [populate(path, 'name email')] leaves of a user. *)
Record UserSummary := mkSummary {
  s_id : string;
  s_name : string;
  s_email : string
}.

Record CommentView := mkCommentView {
  cv_author : option UserSummary;
  cv_text : option string;
  cv_timestamp : Z
}.

Inductive Body :=
  | BMessage (message : string)
  | BProject (p : Project.t)
  | BTicket (t : Ticket.t)
  | BTickets (ts : list Ticket.t)
  | BComment (c : option CommentView).

Record Response := mkResponse { status : Z; body : Body }.

Definition json (code : Z) (b : Body) : Response := mkResponse code b.

(** ** Control flow of a handler *)

Inductive Outcome (A : Type) :=
  | Return (a : A)
  | Respond (r : Response)
  | Raise (message : string).
Arguments Return {A} a.
Arguments Respond {A} r.
Arguments Raise {A} message.

Definition bind {A B} (m : Outcome A) (k : A -> Outcome B) : Outcome B :=
  match m with
  | Return a => k a
  | Respond r => Respond r
  | Raise e => Raise e
  end.

Declare Scope handler_scope.
Delimit Scope handler_scope with handler.
Notation "x <- m ;; k" := (bind m (fun x => k))
  (at level 100, m at next level, right associativity) : handler_scope.
Notation "m ;;; k" := (bind m (fun _ => k))
  (at level 100, right associativity) : handler_scope.
Local Open Scope handler_scope.

(** [if (cond) return res.status(code).json({ message })]. *)
Definition reject_if (cond : bool) (code : Z) (message : string) : Outcome unit :=
  if cond then Respond (json code (BMessage message)) else Return tt.

(** Reading a property of [o]: a [TypeError] when [o] is [null]. *)
Definition deref {A} (o : option A) : Outcome A :=
  match o with
  | Some a => Return a
  | None => Raise "Cannot read properties of null"
  end.

(** [if (!o) return res.status(404).json({ message })]. *)
Definition found {A} (o : option A) (message : string) : Outcome A :=
  match o with
  | Some a => Return a
  | None => Respond (json 404 (BMessage message))
  end.

(** The [try { .. } catch (err) { res.status(code).json(..) }] frame: the
    store is written only by a handler that runs to its end. *)
Definition handle (code : Z) (generic : option string) (s : Store)
    (m : Outcome (Response * Store)) : Response * Store :=
  match m with
  | Return rs => rs
  | Respond r => (r, s)
  | Raise e => (json code (BMessage (default e generic)), s)
  end.

(** ** Queries *)

Definition includes (l : list string) (x : string) : bool :=
  existsb (String.eqb x) l.

Definition truthy (v : option string) : bool :=
  match v with
  | Some x => negb (String.eqb x "")
  | None => false
  end.

Definition User_findById (s : Store) (uid : string) : option User.t :=
  find (fun u => String.eqb (User._id u) uid) (users s).

Definition User_findOne_email (s : Store) (e : option string) : option User.t :=
  match e with
  | Some a => find (fun u => String.eqb (User.email u) a) (users s)
  | None => None
  end.

Definition Project_findById (s : Store) (pid : option string) : option Project.t :=
  match pid with
  | Some i => projects s !! i
  | None => None
  end.

Definition Ticket_findById (s : Store) (tid : string) : option Ticket.t :=
  tickets s !! tid.

Definition populate (s : Store) (ref : option string) : option UserSummary :=
  match ref with
  | Some uid =>
      match User_findById s uid with
      | Some u => Some (mkSummary (User._id u) (User.name u) (User.email u))
      | None => None
      end
  | None => None
  end.

(** [doc.toString()] of a populated user, which is also what [==] compares
    with a string: the printed document.  The runtime decides its exact
    text; it opens with a brace, which no identifier does. *)
Definition printed (m : UserSummary) : string :=
  "{ _id: " ++ s_id m ++ ", name: '" ++ s_name m ++ "', email: '" ++ s_email m
  ++ "' }".

Definition is_printed (x : string) : bool :=
  match x with
  | String "{" _ => true
  | _ => false
  end.

(** ** Access policy

    The inline checks of the handlers, named as section 4.1 of the design
    names them. *)

Definition isCreator (actor : string) (p : Project.t) : bool :=
  String.eqb (Project.createdBy p) actor.

Definition isTeamMember (actor : string) (p : Project.t) : bool :=
  includes (Project.teamMembers p) actor.

Definition isTicketCreator (actor : string) (t : Ticket.t) : bool :=
  match Ticket.createdBy t with
  | Some c => String.eqb c actor
  | None => false
  end.

(** [!isCreator && !isTeamMember] is the denial. *)
Definition canAccessProject (actor : string) (p : Project.t) : bool :=
  negb (negb (isCreator actor p) && negb (isTeamMember actor p)).

(** [!isProjectCreator && !isProjectTeamMember && !isTicketCreator] is the
    denial of the documented [PUT /api/tickets/:id]. *)
Definition canMutateTicket (actor : string) (p : Project.t) (t : Ticket.t) : bool :=
  negb (negb (isCreator actor p) && negb (isTeamMember actor p)
        && negb (isTicketCreator actor t)).

(** [!isProjectCreator && !isTicketCreator] is the denial of
    [DELETE /api/tickets/:id]. *)
Definition canDeleteTicket (actor : string) (p : Project.t) (t : Ticket.t) : bool :=
  negb (negb (isCreator actor p) && negb (isTicketCreator actor t)).

(** [!teamMembers.includes(id) && createdBy.toString() !== id] guards a
    principal named in a ticket. *)
Definition isValidProjectPrincipal (uid : string) (p : Project.t) : bool :=
  negb (negb (includes (Project.teamMembers p) uid)
        && negb (String.eqb (Project.createdBy p) uid)).

(** ** Project routes *)

Definition set_teamMembers (p : Project.t) (l : list string) : Project.t :=
  Project.mk (Project.title p) (Project.createdBy p) l.

(** [project.save()].  The project schema is not among the sources: a
    project loaded from the store and changed in [teamMembers] only is
    written back as it is. *)
Definition Project_save (s : Store) (pid : string) (p : Project.t) : Store :=
  mkStore (users s) (<[pid := p]> (projects s)) (tickets s).

Definition Project_deleteOne (s : Store) (pid : string) : Store :=
  mkStore (users s) (delete pid (projects s)) (tickets s).

(** The first version of routes/projects.js. *)
Module ProjectsV1.

(** [GET /api/projects/:id].  Both paths are populated before the test,
    so the test reads documents: [teamMembers.includes(id)] compares the
    identifier with each populated member, and [createdBy.toString()] is
    the printed creator, or a [TypeError] when the creator is gone and
    [populate] has left [null].  The second operand of [&&] is read only
    when the first holds. *)
Definition getProject (s : Store) (actor pid : string) : Response * Store :=
  handle 500 None s (
    project <- found (projects s !! pid) "Project not found" ;;
    let members :=
      omap (fun m => populate s (Some m)) (Project.teamMembers project) in
    let creator := populate s (Some (Project.createdBy project)) in
    denied <-
      (if negb (existsb (fun m => String.eqb actor (printed m)) members) then
         c <- deref creator ;;
         Return (negb (String.eqb (printed c) actor))
       else Return false) ;;
    reject_if denied 403 "Access denied" ;;;
    Return (json 200 (BProject project), s)).

(** [DELETE /api/projects/:id]. *)
Definition deleteProject (s : Store) (actor pid : string) : Response * Store :=
  handle 500 None s (
    project <- found (projects s !! pid) "Project not found" ;;
    reject_if (negb (String.eqb (Project.createdBy project) actor))
              403 "Only project creator can delete project" ;;;
    Return (json 200 (BMessage "Project deleted"), Project_deleteOne s pid)).

(** [POST /api/projects/:id/members]. *)
Definition addMember (s : Store) (actor pid : string) (email : option string)
    : Response * Store :=
  handle 400 None s (
    project <- found (projects s !! pid) "Project not found" ;;
    reject_if (negb (String.eqb (Project.createdBy project) actor))
              403 "Only project creator can add members" ;;;
    user <- found (User_findOne_email s email) "User not found" ;;
    reject_if (includes (Project.teamMembers project) (User._id user))
              400 "User is already a team member" ;;;
    let project' :=
      set_teamMembers project (Project.teamMembers project ++ [User._id user]) in
    Return (json 200 (BProject project'), Project_save s pid project')).

(** [DELETE /api/projects/:id/members/:userId]. *)
Definition removeMember (s : Store) (actor pid userId : string) : Response * Store :=
  handle 400 None s (
    project <- found (projects s !! pid) "Project not found" ;;
    reject_if (negb (String.eqb (Project.createdBy project) actor))
              403 "Only project creator can remove members" ;;;
    reject_if (String.eqb userId (Project.createdBy project))
              400 "Cannot remove project creator" ;;;
    let project' :=
      set_teamMembers project
        (filter (fun member => negb (String.eqb member userId))
                (Project.teamMembers project)) in
    Return (json 200 (BProject project'), Project_save s pid project')).

End ProjectsV1.

(** The documented version of routes/projects.js. *)
Module ProjectsV2.

(** [GET /api/projects/:id]: the checks read [_id] of the populated
    creator and of the populated members; [populate] leaves [null] for a
    creator that is gone and drops the members that are gone. *)
Definition getProject (s : Store) (actor pid : string) : Response * Store :=
  handle 500 (Some "Server error. Could not fetch project details.") s (
    project <- found (projects s !! pid) "Project not found." ;;
    creator <- deref (populate s (Some (Project.createdBy project))) ;;
    let members :=
      omap (fun m => populate s (Some m)) (Project.teamMembers project) in
    let isCreator := String.eqb (s_id creator) actor in
    let isTeamMember := existsb (fun m => String.eqb (s_id m) actor) members in
    reject_if (negb isCreator && negb isTeamMember)
              403 "Access denied: You are not authorized to view this project." ;;;
    Return (json 200 (BProject project), s)).

Definition deleteProject (s : Store) (actor pid : string) : Response * Store :=
  handle 500 (Some "Server error. Could not delete project.") s (
    project <- found (projects s !! pid) "Project not found." ;;
    reject_if (negb (String.eqb (Project.createdBy project) actor))
              403 "Access denied: Only the project creator can delete this project." ;;;
    Return (json 200 (BMessage "Project deleted successfully."),
            Project_deleteOne s pid)).

Definition addMember (s : Store) (actor pid : string) (email : option string)
    : Response * Store :=
  handle 400 None s (
    project <- found (projects s !! pid) "Project not found." ;;
    reject_if (negb (String.eqb (Project.createdBy project) actor))
              403 "Access denied: Only the project creator can add members." ;;;
    user <- found (User_findOne_email s email) "User not found with this email." ;;
    reject_if (includes (Project.teamMembers project) (User._id user))
              400 "User is already a team member of this project." ;;;
    let project' :=
      set_teamMembers project (Project.teamMembers project ++ [User._id user]) in
    Return (json 200 (BProject project'), Project_save s pid project')).

Definition removeMember (s : Store) (actor pid userId : string) : Response * Store :=
  handle 400 None s (
    project <- found (projects s !! pid) "Project not found." ;;
    reject_if (negb (String.eqb (Project.createdBy project) actor))
              403 "Access denied: Only the project creator can remove members." ;;;
    reject_if (String.eqb userId (Project.createdBy project))
              400 "Cannot remove the project creator from the team." ;;;
    let project' :=
      set_teamMembers project
        (filter (fun member => negb (String.eqb member userId))
                (Project.teamMembers project)) in
    Return (json 200 (BProject project'), Project_save s pid project')).

End ProjectsV2.

(** ** The ticket schema (models/Ticket.js) *)

(** [String.prototype.trim] strips the white space and the line
    terminators of ECMAScript from both ends.  In UTF-8 these are the
    one-byte characters U+0009 to U+000D and U+0020 ([is_space]), the
    two-byte U+00A0 ([is_space2]) and the three-byte U+1680, U+2000 to
    U+200A, U+2028, U+2029, U+202F, U+205F, U+3000 and U+FEFF
    ([is_space3]). *)
Definition is_space (c : ascii) : bool :=
  let n := nat_of_ascii c in
  (Nat.eqb n 32 || Nat.eqb n 9 || Nat.eqb n 10 || Nat.eqb n 11
   || Nat.eqb n 12 || Nat.eqb n 13)%bool.

Definition is_space2 (c1 c2 : ascii) : bool :=
  (Nat.eqb (nat_of_ascii c1) 194 && Nat.eqb (nat_of_ascii c2) 160)%bool.

Definition is_space3 (c1 c2 c3 : ascii) : bool :=
  let n1 := nat_of_ascii c1 in
  let n2 := nat_of_ascii c2 in
  let n3 := nat_of_ascii c3 in
  ((Nat.eqb n1 225 && Nat.eqb n2 154 && Nat.eqb n3 128)
   || (Nat.eqb n1 226 && Nat.eqb n2 128
       && ((Nat.leb 128 n3 && Nat.leb n3 138)
           || Nat.eqb n3 168 || Nat.eqb n3 169 || Nat.eqb n3 175))
   || (Nat.eqb n1 226 && Nat.eqb n2 129 && Nat.eqb n3 159)
   || (Nat.eqb n1 227 && Nat.eqb n2 128 && Nat.eqb n3 128)
   || (Nat.eqb n1 239 && Nat.eqb n2 187 && Nat.eqb n3 191))%bool.

Fixpoint trim_left (x : string) : string :=
  match x with
  | String c1 r1 =>
      if is_space c1 then trim_left r1
      else
        match r1 with
        | String c2 r2 =>
            if is_space2 c1 c2 then trim_left r2
            else
              match r2 with
              | String c3 r3 => if is_space3 c1 c2 c3 then trim_left r3 else x
              | EmptyString => x
              end
        | EmptyString => x
        end
  | EmptyString => EmptyString
  end.

(** A string of white space only. *)
Definition blank (x : string) : bool :=
  match trim_left x with
  | EmptyString => true
  | String _ _ => false
  end.

(** The longest suffix of white space is the first suffix that is
    [blank]. *)
Fixpoint trim_right (x : string) : string :=
  match x with
  | String c r => if blank x then EmptyString else String c (trim_right r)
  | EmptyString => EmptyString
  end.

Definition trim (x : string) : string := trim_right (trim_left x).

Definition priorities : list string := ["Low"; "Medium"; "High"].
Definition statuses : list string := ["To Do"; "In Progress"; "Done"].
Definition types : list string := ["Bug"; "Feature"; "Task"].

(** A comment as a request body may carry it under the key [comments]. *)
Record CommentBody := mkCommentBody {
  cb_author : option string;
  cb_text : option string;
  cb_timestamp : option Z
}.

(** A request body for the ticket routes: one key for each path of the
    schema.  A key that is not a path of the schema, as [dueDate], is
    dropped by the document, whether it is built or assigned. *)
Record TicketBody := mkPayload {
  b_projectId : option string;
  b_title : option string;
  b_description : option string;
  b_priority : option string;
  b_status : option string;
  b_type : option string;
  b_tags : option (list string);
  b_assignee : option string;
  b_reporter : option string;
  b_createdBy : option string;
  b_comments : option (list CommentBody);
  b_createdAt : option Z;
  b_updatedAt : option Z
}.

(** A body without the keys [comments], [createdAt] and [updatedAt]. *)
Definition mkBody (projectId title description priority status type : option string)
    (tags : option (list string)) (assignee reporter createdBy : option string)
    : TicketBody :=
  mkPayload projectId title description priority status type tags assignee
    reporter createdBy None None None.

(** A comment of a body becomes an embedded document: [timestamp]
    defaults to [Date.now]. *)
Definition Comment_of_body (now : Z) (c : CommentBody) : Comment.t :=
  Comment.mk (cb_author c) (cb_text c) (default now (cb_timestamp c)).

(** [new Ticket({ title, description, .., createdBy })]: the ten keys that
    the handler lists, through the setters ([trim]) and with the defaults
    of the schema. *)
Definition Ticket_new (b : TicketBody) (now : Z) : Ticket.t :=
  Ticket.mk
    (trim <$> b_title b)
    (b_description b)
    (default "Medium" (b_priority b))
    (default "To Do" (b_status b))
    (default "Task" (b_type b))
    (map trim (default [] (b_tags b)))
    (b_assignee b)
    (b_reporter b)
    (b_projectId b)
    (b_createdBy b)
    []
    now
    now.

(** [new Ticket({ ...req.body, createdBy })]: every key of the body, then
    [createdBy]. *)
Definition Ticket_spread (b : TicketBody) (creator : string) (now : Z) : Ticket.t :=
  Ticket.mk
    (trim <$> b_title b)
    (b_description b)
    (default "Medium" (b_priority b))
    (default "To Do" (b_status b))
    (default "Task" (b_type b))
    (map trim (default [] (b_tags b)))
    (b_assignee b)
    (b_reporter b)
    (b_projectId b)
    (Some creator)
    (map (Comment_of_body now) (default [] (b_comments b)))
    (default now (b_createdAt b))
    (default now (b_updatedAt b)).

(** [Object.assign(ticket, req.body)]: every key of the body is written
    through the setter of its path. *)
Definition Ticket_assign (t : Ticket.t) (b : TicketBody) (now : Z) : Ticket.t :=
  let over {A} (new : option A) (old : A) : A := default old new in
  let over_opt {A} (new : option A) (old : option A) : option A :=
    match new with Some v => Some v | None => old end in
  Ticket.mk
    (over_opt (trim <$> b_title b) (Ticket.title t))
    (over_opt (b_description b) (Ticket.description t))
    (over (b_priority b) (Ticket.priority t))
    (over (b_status b) (Ticket.status t))
    (over (b_type b) (Ticket.type t))
    (over (map trim <$> b_tags b) (Ticket.tags t))
    (over_opt (b_assignee b) (Ticket.assignee t))
    (over_opt (b_reporter b) (Ticket.reporter t))
    (over_opt (b_projectId b) (Ticket.projectId t))
    (over_opt (b_createdBy b) (Ticket.createdBy t))
    (over (map (Comment_of_body now) <$> b_comments b) (Ticket.comments t))
    (over (b_createdAt b) (Ticket.createdAt t))
    (over (b_updatedAt b) (Ticket.updatedAt t)).

(** Validators.  [required] on a string path refuses the empty string; an
    identifier path refuses the empty string as well (it is not an
    identifier). *)
Definition required (v : option string) : bool := truthy v.

Definition castable (v : option string) : bool :=
  match v with
  | Some x => negb (String.eqb x "")
  | None => true
  end.

Definition Comment_valid (c : Comment.t) : bool :=
  required (Comment.author c) && required (Comment.text c).

Definition Ticket_valid (t : Ticket.t) : bool :=
  required (Ticket.title t)
  && required (Ticket.description t)
  && includes priorities (Ticket.priority t)
  && includes statuses (Ticket.status t)
  && includes types (Ticket.type t)
  && castable (Ticket.assignee t)
  && required (Ticket.reporter t)
  && required (Ticket.projectId t)
  && required (Ticket.createdBy t)
  && forallb Comment_valid (Ticket.comments t).

Definition set_updatedAt (t : Ticket.t) (now : Z) : Ticket.t :=
  Ticket.mk (Ticket.title t) (Ticket.description t) (Ticket.priority t)
    (Ticket.status t) (Ticket.type t) (Ticket.tags t) (Ticket.assignee t)
    (Ticket.reporter t) (Ticket.projectId t) (Ticket.createdBy t)
    (Ticket.comments t) (Ticket.createdAt t) now.

Definition set_comments (t : Ticket.t) (cs : list Comment.t) : Ticket.t :=
  Ticket.mk (Ticket.title t) (Ticket.description t) (Ticket.priority t)
    (Ticket.status t) (Ticket.type t) (Ticket.tags t) (Ticket.assignee t)
    (Ticket.reporter t) (Ticket.projectId t) (Ticket.createdBy t)
    cs (Ticket.createdAt t) (Ticket.updatedAt t).

(** [ticket.save()]: validation, then the [pre('save')] hook that
    refreshes [updatedAt], then the write. *)
Definition Ticket_save (s : Store) (tid : string) (t : Ticket.t) (now : Z)
    : Outcome (Ticket.t * Store) :=
  if Ticket_valid t then
    let t' := set_updatedAt t now in
    Return (t', mkStore (users s) (projects s) (<[tid := t']> (tickets s)))
  else Raise "Ticket validation failed".

Definition Ticket_deleteOne (s : Store) (tid : string) : Store :=
  mkStore (users s) (projects s) (delete tid (tickets s)).

(** The guard on a principal named in a ticket:
    [User.findById] then the membership test. *)
Definition checkPrincipal (s : Store) (p : Project.t) (uid : string)
    (missing notMember : string) : Outcome unit :=
  _ <- found (User_findById s uid) missing ;;
  reject_if (negb (includes (Project.teamMembers p) uid)
             && negb (String.eqb (Project.createdBy p) uid))
            400 notMember.

(** [if (v) { .. }]: the guard runs for a truthy value only. *)
Definition checkIfGiven (s : Store) (p : Project.t) (v : option string)
    (missing notMember : string) : Outcome unit :=
  match v with
  | Some uid =>
      if negb (String.eqb uid "") then checkPrincipal s p uid missing notMember
      else Return tt
  | None => Return tt
  end.

(** [a || b] on identifiers. *)
Definition or_else (v : option string) (d : string) : string :=
  match v with
  | Some x => if String.eqb x "" then d else x
  | None => d
  end.

(** [a || null]. *)
Definition or_null (v : option string) : option string :=
  match v with
  | Some x => if String.eqb x "" then None else Some x
  | None => None
  end.

Definition view (s : Store) (c : Comment.t) : CommentView :=
  mkCommentView (populate s (Comment.author c)) (Comment.text c)
    (Comment.timestamp c).

(** ** Ticket routes *)

Definition Ticket_find_project (s : Store) (pid : string) : list Ticket.t :=
  List.filter
    (fun t => match Ticket.projectId t with
              | Some i => String.eqb i pid
              | None => false
              end)
    (snd <$> map_to_list (tickets s)).

(** The object literal that the guarded create routes pass to
    [new Ticket]: the listed keys of the body, with the principals that the
    route has settled. *)
Definition with_principals (b : TicketBody) (assigneeId reporterId creator : option string)
    : TicketBody :=
  mkBody (b_projectId b) (b_title b) (b_description b) (b_priority b)
    (b_status b) (b_type b) (b_tags b) assigneeId reporterId creator.

(** The documented version of routes/tickets.js. *)
Module TicketsV3.

(** [POST /api/tickets]; [newId] is the identifier the driver gives the
    new document. *)
Definition createTicket (s : Store) (actor newId : string) (b : TicketBody)
    (now : Z) : Response * Store :=
  handle 400 None s (
    project <- found (Project_findById s (b_projectId b))
                     "Project not found for this ticket." ;;
    let isCreator := String.eqb (Project.createdBy project) actor in
    let isTeamMember := includes (Project.teamMembers project) actor in
    reject_if (negb isCreator && negb isTeamMember) 403
      "Access denied: You are not authorized to create tickets in this project." ;;;
    let reporterId := or_else (b_reporter b) actor in
    let assigneeId := or_null (b_assignee b) in
    checkIfGiven s project assigneeId "Assignee user not found."
      "Assignee must be a member of the project team." ;;;
    checkPrincipal s project reporterId "Reporter user not found."
      "Reporter must be a member of the project team." ;;;
    let ticket :=
      Ticket_new (with_principals b assigneeId (Some reporterId) (Some actor)) now in
    r <- Ticket_save s newId ticket now ;;
    Return (json 201 (BTicket (fst r)), snd r)).

(** [GET /api/tickets/project/:projectId]. *)
Definition getProjectTickets (s : Store) (actor pid : string) : Response * Store :=
  handle 500 (Some "Server error. Could not fetch project tickets.") s (
    project <- found (projects s !! pid) "Project not found." ;;
    let isCreator := String.eqb (Project.createdBy project) actor in
    let isTeamMember := includes (Project.teamMembers project) actor in
    reject_if (negb isCreator && negb isTeamMember) 403
      "Access denied: You are not authorized to view tickets in this project." ;;;
    Return (json 200 (BTickets (Ticket_find_project s pid)), s)).

(** [GET /api/tickets/:id]: the project is read without a test for
    [null]. *)
Definition getTicket (s : Store) (actor tid : string) : Response * Store :=
  handle 500 (Some "Server error. Could not fetch ticket details.") s (
    ticket <- found (Ticket_findById s tid) "Ticket not found." ;;
    project <- deref (Project_findById s (Ticket.projectId ticket)) ;;
    let isCreator := String.eqb (Project.createdBy project) actor in
    let isTeamMember := includes (Project.teamMembers project) actor in
    reject_if (negb isCreator && negb isTeamMember) 403
      "Access denied: You are not authorized to view this ticket." ;;;
    Return (json 200 (BTicket ticket), s)).

(** [PUT /api/tickets/:id]. *)
Definition updateTicket (s : Store) (actor tid : string) (b : TicketBody)
    (now : Z) : Response * Store :=
  handle 400 None s (
    ticket <- found (Ticket_findById s tid) "Ticket not found." ;;
    project <- found (Project_findById s (Ticket.projectId ticket))
                     "Associated project not found for this ticket." ;;
    let isProjectCreator := String.eqb (Project.createdBy project) actor in
    let isProjectTeamMember := includes (Project.teamMembers project) actor in
    creator <- deref (Ticket.createdBy ticket) ;;
    let isTicketCreator := String.eqb creator actor in
    reject_if (negb isProjectCreator && negb isProjectTeamMember
               && negb isTicketCreator) 403
      "Access denied: You are not authorized to update this ticket." ;;;
    checkIfGiven s project (b_assignee b) "Assignee user not found."
      "Assignee must be a member of the project team." ;;;
    checkIfGiven s project (b_reporter b) "Reporter user not found."
      "Reporter must be a member of the project team." ;;;
    r <- Ticket_save s tid (Ticket_assign ticket b now) now ;;
    Return (json 200 (BTicket (fst r)), snd r)).

(** [DELETE /api/tickets/:id]. *)
Definition deleteTicket (s : Store) (actor tid : string) : Response * Store :=
  handle 500 (Some "Server error. Could not delete ticket.") s (
    ticket <- found (Ticket_findById s tid) "Ticket not found." ;;
    project <- found (Project_findById s (Ticket.projectId ticket))
                     "Associated project not found for this ticket." ;;
    let isProjectCreator := String.eqb (Project.createdBy project) actor in
    creator <- deref (Ticket.createdBy ticket) ;;
    let isTicketCreator := String.eqb creator actor in
    reject_if (negb isProjectCreator && negb isTicketCreator) 403
      "Access denied: You must be the project creator or ticket creator to delete this ticket." ;;;
    Return (json 200 (BMessage "Ticket deleted successfully."),
            Ticket_deleteOne s tid)).

(** [POST /api/tickets/:id/comments]. *)
Definition addComment (s : Store) (actor tid : string) (text : option string)
    (now : Z) : Response * Store :=
  handle 400 None s (
    ticket <- found (Ticket_findById s tid) "Ticket not found." ;;
    project <- found (Project_findById s (Ticket.projectId ticket))
                     "Associated project not found for this ticket." ;;
    let isProjectCreator := String.eqb (Project.createdBy project) actor in
    let isProjectTeamMember := includes (Project.teamMembers project) actor in
    reject_if (negb isProjectCreator && negb isProjectTeamMember) 403
      "Access denied: You are not authorized to comment on this ticket." ;;;
    let newComment := Comment.mk (Some actor) text now in
    r <- Ticket_save s tid
           (set_comments ticket (Ticket.comments ticket ++ [newComment])) now ;;
    populatedTicket <- deref (Ticket_findById (snd r) tid) ;;
    let latestComment := view (snd r) <$> last (Ticket.comments populatedTicket) in
    Return (json 201 (BComment latestComment), snd r)).

End TicketsV3.

(** The version before it (the second routes/tickets.js of the history):
    the project of a ticket is read without a test for [null]. *)
Module TicketsV2.

Definition createTicket (s : Store) (actor newId : string) (b : TicketBody)
    (now : Z) : Response * Store :=
  handle 400 None s (
    project <- found (Project_findById s (b_projectId b)) "Project not found" ;;
    reject_if (negb (includes (Project.teamMembers project) actor)
               && negb (String.eqb (Project.createdBy project) actor)) 403
      "Access denied: Not a member of this project." ;;;
    let reporterId := or_else (b_reporter b) actor in
    let assigneeId := or_null (b_assignee b) in
    checkIfGiven s project assigneeId "Assignee user not found."
      "Assignee must be a member of the project team." ;;;
    checkPrincipal s project reporterId "Reporter user not found."
      "Reporter must be a member of the project team." ;;;
    let ticket :=
      Ticket_new (with_principals b assigneeId (Some reporterId) (Some actor)) now in
    r <- Ticket_save s newId ticket now ;;
    Return (json 201 (BTicket (fst r)), snd r)).

Definition getProjectTickets (s : Store) (actor pid : string) : Response * Store :=
  handle 500 None s (
    project <- found (projects s !! pid) "Project not found" ;;
    reject_if (negb (includes (Project.teamMembers project) actor)
               && negb (String.eqb (Project.createdBy project) actor)) 403
      "Access denied: Not a member of this project." ;;;
    Return (json 200 (BTickets (Ticket_find_project s pid)), s)).

Definition getTicket (s : Store) (actor tid : string) : Response * Store :=
  handle 500 None s (
    ticket <- found (Ticket_findById s tid) "Ticket not found" ;;
    project <- deref (Project_findById s (Ticket.projectId ticket)) ;;
    reject_if (negb (includes (Project.teamMembers project) actor)
               && negb (String.eqb (Project.createdBy project) actor)) 403
      "Access denied: Not a member of this project." ;;;
    Return (json 200 (BTicket ticket), s)).

Definition updateTicket (s : Store) (actor tid : string) (b : TicketBody)
    (now : Z) : Response * Store :=
  handle 400 None s (
    ticket <- found (Ticket_findById s tid) "Ticket not found" ;;
    project <- deref (Project_findById s (Ticket.projectId ticket)) ;;
    reject_if (negb (includes (Project.teamMembers project) actor)
               && negb (String.eqb (Project.createdBy project) actor)) 403
      "Access denied: Not a member of this project." ;;;
    checkIfGiven s project (b_assignee b) "Assignee user not found."
      "Assignee must be a member of the project team." ;;;
    checkIfGiven s project (b_reporter b) "Reporter user not found."
      "Reporter must be a member of the project team." ;;;
    r <- Ticket_save s tid (Ticket_assign ticket b now) now ;;
    Return (json 200 (BTicket (fst r)), snd r)).

(** The test is [a !== id && b !== id]: the ticket's creator is read
    only when the actor is not the project's creator. *)
Definition deleteTicket (s : Store) (actor tid : string) : Response * Store :=
  handle 500 None s (
    ticket <- found (Ticket_findById s tid) "Ticket not found" ;;
    project <- deref (Project_findById s (Ticket.projectId ticket)) ;;
    denied <-
      (if negb (String.eqb (Project.createdBy project) actor) then
         creator <- deref (Ticket.createdBy ticket) ;;
         Return (negb (String.eqb creator actor))
       else Return false) ;;
    reject_if denied 403
      "Access denied: You must be the project creator or ticket creator to delete this ticket." ;;;
    Return (json 200 (BMessage "Ticket deleted successfully"),
            Ticket_deleteOne s tid)).

Definition addComment (s : Store) (actor tid : string) (text : option string)
    (now : Z) : Response * Store :=
  handle 400 None s (
    ticket <- found (Ticket_findById s tid) "Ticket not found" ;;
    project <- deref (Project_findById s (Ticket.projectId ticket)) ;;
    reject_if (negb (includes (Project.teamMembers project) actor)
               && negb (String.eqb (Project.createdBy project) actor)) 403
      "Access denied: Not a member of this project." ;;;
    let newComment := Comment.mk (Some actor) text now in
    r <- Ticket_save s tid
           (set_comments ticket (Ticket.comments ticket ++ [newComment])) now ;;
    populatedTicket <- deref (Ticket_findById (snd r) tid) ;;
    let latestComment := view (snd r) <$> last (Ticket.comments populatedTicket) in
    Return (json 201 (BComment latestComment), snd r)).

End TicketsV2.

(** The first version, src/routes/tickets.js. *)
Module TicketsV1.

(** [new Ticket({ ...req.body, createdBy: req.user.id })]. *)
Definition createTicket (s : Store) (actor newId : string) (b : TicketBody)
    (now : Z) : Response * Store :=
  handle 400 None s (
    project <- found (Project_findById s (b_projectId b)) "Project not found" ;;
    reject_if (negb (includes (Project.teamMembers project) actor)
               && negb (String.eqb (Project.createdBy project) actor)) 403
      "Access denied" ;;;
    let ticket := Ticket_spread b actor now in
    r <- Ticket_save s newId ticket now ;;
    Return (json 201 (BTicket (fst r)), snd r)).

Definition getProjectTickets (s : Store) (actor pid : string) : Response * Store :=
  handle 500 None s (
    project <- found (projects s !! pid) "Project not found" ;;
    reject_if (negb (includes (Project.teamMembers project) actor)
               && negb (String.eqb (Project.createdBy project) actor)) 403
      "Access denied" ;;;
    Return (json 200 (BTickets (Ticket_find_project s pid)), s)).

Definition getTicket (s : Store) (actor tid : string) : Response * Store :=
  handle 500 None s (
    ticket <- found (Ticket_findById s tid) "Ticket not found" ;;
    project <- deref (Project_findById s (Ticket.projectId ticket)) ;;
    reject_if (negb (includes (Project.teamMembers project) actor)
               && negb (String.eqb (Project.createdBy project) actor)) 403
      "Access denied" ;;;
    Return (json 200 (BTicket ticket), s)).

Definition updateTicket (s : Store) (actor tid : string) (b : TicketBody)
    (now : Z) : Response * Store :=
  handle 400 None s (
    ticket <- found (Ticket_findById s tid) "Ticket not found" ;;
    project <- deref (Project_findById s (Ticket.projectId ticket)) ;;
    reject_if (negb (includes (Project.teamMembers project) actor)
               && negb (String.eqb (Project.createdBy project) actor)) 403
      "Access denied" ;;;
    r <- Ticket_save s tid (Ticket_assign ticket b now) now ;;
    Return (json 200 (BTicket (fst r)), snd r)).

Definition deleteTicket (s : Store) (actor tid : string) : Response * Store :=
  handle 500 None s (
    ticket <- found (Ticket_findById s tid) "Ticket not found" ;;
    project <- deref (Project_findById s (Ticket.projectId ticket)) ;;
    denied <-
      (if negb (String.eqb (Project.createdBy project) actor) then
         creator <- deref (Ticket.createdBy ticket) ;;
         Return (negb (String.eqb creator actor))
       else Return false) ;;
    reject_if denied 403 "Access denied" ;;;
    Return (json 200 (BMessage "Ticket deleted"), Ticket_deleteOne s tid)).

End TicketsV1.

(** ** Event relay (server.js) *)

Module Relay.

(** The payload of [send_message]. *)
Record Message := mkMessage { projectId : string; message : string }.

(** Modelled from the spec: the room registry of the socket library is
    not among the sources.  Section 4.3 of the design gives its contract:
    a room is the set of channels currently joined to a project
    identifier, [join] adds the channel to the room, a disconnect removes
    the channel from every room, and a broadcast reaches the channels
    that are in the room when it is made. *)
Record State := mkState {
  connected : gset string;
  rooms : gmap string (gset string);
  outbox : list (string * Message)
}.

Definition init : State := mkState ∅ ∅ [].

Definition members (st : State) (room : string) : gset string :=
  default ∅ (rooms st !! room).

(** Modelled from the spec: [socket.join(room)] of the socket library adds
    the channel to the room. *)
Definition join (st : State) (c room : string) : State :=
  mkState (connected st)
          (<[room := {[c]} ∪ members st room]> (rooms st))
          (outbox st).

(** Modelled from the spec: [io.to(room).emit("receive_message", data)] of
    the socket library makes one delivery of [data] for each channel that
    is in the room. *)
Definition emit_to (st : State) (room : string) (data : Message)
    : list (string * Message) :=
  (fun c => (c, data)) <$> elements (members st room).

(** Modelled from the spec: the socket library takes a channel that
    disconnects out of every room. *)
Definition leave_all (st : State) (c : string) : State :=
  mkState (connected st ∖ {[c]})
          ((fun r => r ∖ {[c]}) <$> rooms st)
          (outbox st).

(** The signals of the transport, and what the handlers that
    [io.on("connection", ..)] registers on a channel do with them:
    [join_project] joins the room named by the project identifier without
    any test, [send_message] broadcasts to the room named by
    [data.projectId], and the [disconnect] handler only logs.  A channel
    that is not connected sends nothing. *)
Inductive Event :=
  | Connection (c : string)
  | JoinProject (c projectId : string)
  | SendMessage (c : string) (data : Message)
  | Disconnect (c : string).

Definition step (st : State) (e : Event) : State :=
  match e with
  | Connection c => mkState ({[c]} ∪ connected st) (rooms st) (outbox st)
  | JoinProject c pid =>
      if bool_decide (c ∈ connected st) then join st c pid else st
  | SendMessage c data =>
      if bool_decide (c ∈ connected st) then
        mkState (connected st) (rooms st)
                (outbox st ++ emit_to st (projectId data) data)
      else st
  | Disconnect c => leave_all st c
  end.

Fixpoint run (st : State) (evs : list Event) : State :=
  match evs with
  | [] => st
  | e :: rest => run (step st e) rest
  end.

End Relay.

(** ** Further routes *)

(** The body of [POST /api/projects] and of [PUT /api/projects/:id].  A
    project that is created carries a title; the keys [createdBy] and
    [teamMembers] may be sent as well. *)
Record NewProjectBody := mkNewProject {
  np_title : string;
  np_createdBy : option string;
  np_teamMembers : option (list string)
}.

Record ProjectBody := mkProjectBody {
  pb_title : option string;
  pb_createdBy : option string;
  pb_teamMembers : option (list string)
}.

(** [project.save()] after the document was built or assigned from a
    body.  The project schema is not among the sources: its validators are
    the parameter [accepts]. *)
Definition Project_validated_save (accepts : Project.t -> bool) (s : Store)
    (pid : string) (p : Project.t) : Outcome Store :=
  if accepts p then Return (Project_save s pid p)
  else Raise "Project validation failed".

(** [Object.assign(project, req.body)]. *)
Definition Project_assign (p : Project.t) (b : ProjectBody) : Project.t :=
  Project.mk (default (Project.title p) (pb_title b))
             (default (Project.createdBy p) (pb_createdBy b))
             (default (Project.teamMembers p) (pb_teamMembers b)).

(** [Project.find({ $or: [{ createdBy: id }, { teamMembers: id }] })],
    with the identifier of each project. *)
Definition Project_find_accessible (s : Store) (actor : string)
    : list (string * Project.t) :=
  List.filter
    (fun kp => String.eqb (Project.createdBy (snd kp)) actor
               || includes (Project.teamMembers (snd kp)) actor)
    (map_to_list (projects s)).

(** [Ticket.find({ projectId: { $in: projectIds } })]. *)
Definition Ticket_find_in (s : Store) (projectIds : list string) : list Ticket.t :=
  List.filter
    (fun t => match Ticket.projectId t with
              | Some i => includes projectIds i
              | None => false
              end)
    (snd <$> map_to_list (tickets s)).

Module ProjectAdminV1.

(** [POST /api/projects]: [{ ...req.body, createdBy, teamMembers }]. *)
Definition createProject (accepts : Project.t -> bool) (s : Store)
    (actor newId : string) (b : NewProjectBody) : Response * Store :=
  handle 400 None s (
    let project := Project.mk (np_title b) actor [actor] in
    s' <- Project_validated_save accepts s newId project ;;
    Return (json 201 (BProject project), s')).

(** [GET /api/projects]: the status and the projects found. *)
Definition listProjects (s : Store) (actor : string) : Z * list (string * Project.t) :=
  (200, Project_find_accessible s actor).

(** [PUT /api/projects/:id]. *)
Definition updateProject (accepts : Project.t -> bool) (s : Store)
    (actor pid : string) (b : ProjectBody) : Response * Store :=
  handle 400 None s (
    project <- found (projects s !! pid) "Project not found" ;;
    reject_if (negb (String.eqb (Project.createdBy project) actor))
              403 "Only project creator can update project details" ;;;
    let project' := Project_assign project b in
    s' <- Project_validated_save accepts s pid project' ;;
    Return (json 200 (BProject project'), s')).

End ProjectAdminV1.

Module ProjectAdminV2.

Definition createProject (accepts : Project.t -> bool) (s : Store)
    (actor newId : string) (b : NewProjectBody) : Response * Store :=
  handle 400 None s (
    let project := Project.mk (np_title b) actor [actor] in
    s' <- Project_validated_save accepts s newId project ;;
    Return (json 201 (BProject project), s')).

Definition listProjects (s : Store) (actor : string) : Z * list (string * Project.t) :=
  (200, Project_find_accessible s actor).

Definition updateProject (accepts : Project.t -> bool) (s : Store)
    (actor pid : string) (b : ProjectBody) : Response * Store :=
  handle 400 None s (
    project <- found (projects s !! pid) "Project not found." ;;
    reject_if (negb (String.eqb (Project.createdBy project) actor))
              403 "Access denied: Only the project creator can update project details." ;;;
    let project' := Project_assign project b in
    s' <- Project_validated_save accepts s pid project' ;;
    Return (json 200 (BProject project'), s')).

End ProjectAdminV2.

(** [GET /api/tickets] of the documented version and of the version
    before it: the tickets of the projects the actor created or belongs
    to. *)
Module TicketListV3.

Definition listTickets (s : Store) (actor : string) : Response * Store :=
  handle 500 (Some "Server error. Could not fetch tickets.") s (
    let projectIds := fst <$> Project_find_accessible s actor in
    Return (json 200 (BTickets (Ticket_find_in s projectIds)), s)).

End TicketListV3.

Module TicketListV2.

Definition listTickets (s : Store) (actor : string) : Response * Store :=
  handle 500 None s (
    let projectIds := fst <$> Project_find_accessible s actor in
    Return (json 200 (BTickets (Ticket_find_in s projectIds)), s)).

End TicketListV2.

Definition set_assignee (t : Ticket.t) (a : option string) : Ticket.t :=
  Ticket.mk (Ticket.title t) (Ticket.description t) (Ticket.priority t)
    (Ticket.status t) (Ticket.type t) (Ticket.tags t) a
    (Ticket.reporter t) (Ticket.projectId t) (Ticket.createdBy t)
    (Ticket.comments t) (Ticket.createdAt t) (Ticket.updatedAt t).

(** [PUT /api/tickets/:id/assign] of the second version: the assignee is
    a team member or the project's creator.  A body without [assigneeId]
    passes [undefined], which is neither. *)
Module AssignV2.

Definition assignTicket (s : Store) (actor tid : string)
    (assigneeId : option string) (now : Z) : Response * Store :=
  handle 400 None s (
    ticket <- found (Ticket_findById s tid) "Ticket not found" ;;
    project <- deref (Project_findById s (Ticket.projectId ticket)) ;;
    reject_if (negb (includes (Project.teamMembers project) actor)
               && negb (String.eqb (Project.createdBy project) actor)) 403
      "Access denied: Not a member of this project." ;;;
    reject_if (match assigneeId with
               | Some a => negb (includes (Project.teamMembers project) a)
                           && negb (String.eqb (Project.createdBy project) a)
               | None => true
               end) 400 "Assignee must be a project member." ;;;
    r <- Ticket_save s tid (set_assignee ticket assigneeId) now ;;
    Return (json 200 (BTicket (fst r)), snd r)).

End AssignV2.

(** The same route in src/routes/tickets.js: the assignee is a team
    member. *)
Module AssignV1.

Definition assignTicket (s : Store) (actor tid : string)
    (assigneeId : option string) (now : Z) : Response * Store :=
  handle 400 None s (
    ticket <- found (Ticket_findById s tid) "Ticket not found" ;;
    project <- deref (Project_findById s (Ticket.projectId ticket)) ;;
    reject_if (negb (includes (Project.teamMembers project) actor)
               && negb (String.eqb (Project.createdBy project) actor)) 403
      "Access denied" ;;;
    reject_if (match assigneeId with
               | Some a => negb (includes (Project.teamMembers project) a)
               | None => true
               end) 400 "Assignee must be a project member" ;;;
    r <- Ticket_save s tid (set_assignee ticket assigneeId) now ;;
    Return (json 200 (BTicket (fst r)), snd r)).

End AssignV1.

(** ** Accounts (routes/auth.js) *)

Module Auth.

(** A user document with the two paths that only the account routes
    read; [password] is what the store holds. *)
Record Account := mkAccount {
  user : User.t;
  role : string;
  password : string
}.

(** The body of [POST /api/auth/register]. *)
Record Registration := mkRegistration {
  r_name : string;
  r_email : string;
  r_password : string;
  r_role : option string
}.

Inductive Reply :=
  | Session (code : Z) (token : string) (id name email role : string)
  | Message (code : Z) (message : string)
  | Profile (code : Z) (u : User.t) (role : string)
  | Directory (code : Z) (us : list (User.t * string)).

Definition code_of (r : Reply) : Z :=
  match r with
  | Session c _ _ _ _ _ | Message c _ | Profile c _ _ | Directory c _ => c
  end.

Definition findOne_email (accounts : list Account) (e : string) : option Account :=
  find (fun a => String.eqb (User.email (user a)) e) accounts.

Definition findById (accounts : list Account) (uid : string) : option Account :=
  find (fun a => String.eqb (User._id (user a)) uid) accounts.

Section Routes.

(** The user model and the token library are not among the sources.
    [save name email password role] stands for [new User({..}).save()]:
    the document as stored (identifier, setters, hashed password), or
    [None] when the call throws.  [comparePassword] is the method of the
    model, [sign id email] is [jwt.sign({ id, email }, secret, ..)]. *)
Variable save : string -> string -> string -> string -> option Account.
Variable comparePassword : Account -> string -> bool.
Variable sign : string -> string -> string.

Definition session (code : Z) (a : Account) : Reply :=
  Session code (sign (User._id (user a)) (User.email (user a)))
    (User._id (user a)) (User.name (user a)) (User.email (user a)) (role a).

(** [POST /api/auth/register]. *)
Definition register (accounts : list Account) (r : Registration)
    : Reply * list Account :=
  match findOne_email accounts (r_email r) with
  | Some _ => (Message 400 "User already exists with this email.", accounts)
  | None =>
      match save (r_name r) (r_email r) (r_password r)
                 (or_else (r_role r) "Team Member") with
      | Some a => (session 201 a, accounts ++ [a])
      | None =>
          (Message 500 "Server error during registration. Please try again later.",
           accounts)
      end
  end.

(** [POST /api/auth/login]. *)
Definition login (accounts : list Account) (email password : string) : Reply :=
  match findOne_email accounts email with
  | None =>
      Message 401 "Invalid credentials. Please check your email and password."
  | Some a =>
      if comparePassword a password then session 200 a
      else Message 401 "Invalid credentials. Please check your email and password."
  end.

(** [GET /api/auth/me]: [select('-password')]. *)
Definition me (accounts : list Account) (uid : string) : Reply :=
  match findById accounts uid with
  | Some a => Profile 200 (user a) (role a)
  | None => Message 404 "User not found."
  end.

(** [GET /api/auth/users]: [select('_id name email role')]. *)
Definition users (accounts : list Account) : Reply :=
  Directory 200 ((fun a => (user a, role a)) <$> accounts).

End Routes.

End Auth.

(** ** A small instance used by the examples *)

Definition alice : User.t := User.mk "u1" "Alice" "alice@devtrack.io".
Definition bob : User.t := User.mk "u2" "Bob" "bob@devtrack.io".
Definition carol : User.t := User.mk "u3" "Carol" "carol@devtrack.io".

Definition sprint : Project.t := Project.mk "Sprint" "u1" ["u1"; "u2"].

(** A ticket of [sprint] filed by Carol, who is no longer on the team. *)
Definition login_bug : Ticket.t :=
  Ticket.mk (Some "Login fails") (Some "Stack trace attached") "High" "To Do"
    "Bug" [] (Some "u2") (Some "u1") (Some "p1") (Some "u3") [] 100 100.

Definition demo : Store :=
  mkStore [alice; bob; carol] {[ "p1" := sprint ]} {[ "t1" := login_bug ]}.

(** A payload without keys, and one that names another creator and
    another project. *)
Definition empty_body : TicketBody :=
  mkBody None None None None None None None None None None.

Definition takeover_body : TicketBody :=
  mkBody (Some "p2") None None None None None None None None (Some "u2").

(** The store after [t] has been written under [tid]. *)
Definition written (s : Store) (tid : string) (t : Ticket.t) : Store :=
  mkStore (users s) (projects s) (<[tid := t]> (tickets s)).

(** A bug report for [sprint] with the given assignee and reporter, and a
    payload that names principals only. *)
Definition report_body (assignee reporter : option string) : TicketBody :=
  mkBody (Some "p1") (Some " Crash on save ") (Some "Steps inside")
    None None None (Some ["ui "; "editor"]) assignee reporter None.

Definition principals_body (assignee reporter : option string) : TicketBody :=
  mkBody None None None None None None None assignee reporter None.

(** A relay session: [a] joins the room of project [P1], [b] broadcasts to
    it twice, the second time after [a] has left, and [c] joins late. *)
Definition ticket_updated : Relay.Message :=
  Relay.mkMessage "P1" "ticket_updated T1".

Definition session : list Relay.Event :=
  [ Relay.Connection "a"; Relay.Connection "b";
    Relay.JoinProject "a" "P1";
    Relay.SendMessage "b" ticket_updated;
    Relay.Disconnect "a";
    Relay.SendMessage "b" ticket_updated;
    Relay.Connection "c"; Relay.JoinProject "c" "P1" ].

(** Validators of a project schema that asks for a title. *)
Definition titled (p : Project.t) : bool :=
  negb (String.eqb (Project.title p) "").

(** A user model for the examples: identifiers are taken from the e-mail
    address, the stored password is the plain one with a prefix, and a
    registration without a name is refused. *)
Definition toy_save (name email password role : string) : option Auth.Account :=
  if String.eqb name "" then None
  else Some (Auth.mkAccount (User.mk ("id:" ++ email)%string name email) role
               ("hash:" ++ password)%string).

Definition toy_compare (a : Auth.Account) (password : string) : bool :=
  String.eqb (Auth.password a) ("hash:" ++ password)%string.

Definition toy_sign (uid email : string) : string :=
  ("token:" ++ uid)%string.

Definition staff : list Auth.Account :=
  [ Auth.mkAccount alice "Admin" "hash:wonderland" ].

(** ** Statements of the design that are compared with the handlers *)

Definition update_handler : Type :=
  Store -> string -> string -> TicketBody -> Z -> Response * Store.

(** Section 4.1, [canMutateTicket]: an update is let through exactly for
    the project's creator, a team member or the ticket's creator. *)
Definition mutate_rule_of_design (update : update_handler) : Prop :=
  forall s actor tid b now t pid p,
    tickets s !! tid = Some t ->
    Ticket.projectId t = Some pid ->
    projects s !! pid = Some p ->
    (status (fst (update s actor tid b now)) <> 403
     <-> actor = Project.createdBy p
         \/ actor ∈ Project.teamMembers p
         \/ Ticket.createdBy t = Some actor).

(** Section 4.2, update ticket: [projectId] and [createdBy] of the stored
    ticket survive every update. *)
Definition immutable_rule_of_design (update : update_handler) : Prop :=
  forall s actor tid b now t t',
    tickets s !! tid = Some t ->
    tickets (snd (update s actor tid b now)) !! tid = Some t' ->
    Ticket.projectId t' = Ticket.projectId t
    /\ Ticket.createdBy t' = Ticket.createdBy t.

Definition delete_handler : Type :=
  Store -> string -> string -> Response * Store.

(** Section 4.1, [canDeleteTicket] is strictly narrower than mutate: on a
    stored ticket of a stored project, an actor whom the delete route does
    not refuse is not refused by the update route either, and some actor
    is let through by the update route and refused by the delete route. *)
Definition delete_narrower_than_mutate (delete : delete_handler)
    (update : update_handler) : Prop :=
  (forall s actor tid b now t pid p,
     tickets s !! tid = Some t ->
     Ticket.projectId t = Some pid ->
     projects s !! pid = Some p ->
     status (fst (delete s actor tid)) <> 403 ->
     status (fst (update s actor tid b now)) <> 403)
  /\ (exists s actor tid b now,
        is_Some (tickets s !! tid)
        /\ status (fst (update s actor tid b now)) <> 403
        /\ status (fst (delete s actor tid)) = 403).

(** What the handlers do instead: a 200 means that the payload has been
    assigned and written, any other answer that nothing was written. *)
Definition writes_payload (update : update_handler) : Prop :=
  forall s actor tid b now t,
    tickets s !! tid = Some t ->
    let reply := update s actor tid b now in
    (status (fst reply) = 200 ->
     snd reply = written s tid (set_updatedAt (Ticket_assign t b now) now))
    /\ (status (fst reply) <> 200 -> snd reply = s).

(** Section 4.2, create and update ticket: the fault of a principal named
    in a ticket, NotFound for a user that does not exist and
    InvalidOperation for a user who is neither creator nor member of the
    project.  Of two named principals the assignee is looked at first. *)
Definition principal_fault (s : Store) (p : Project.t) (uid : string) : option Z :=
  match User_findById s uid with
  | None => Some 404
  | Some _ => if isValidProjectPrincipal uid p then None else Some 400
  end.

Definition optional_fault (s : Store) (p : Project.t) (v : option string)
    : option Z :=
  match v with
  | Some uid => principal_fault s p uid
  | None => None
  end.

Definition first_fault (s : Store) (p : Project.t) (assignee reporter : option string)
    : option Z :=
  match optional_fault s p assignee with
  | Some code => Some code
  | None => optional_fault s p reporter
  end.

(** A sequence of comment requests on one ticket, served one after the
    other by the documented [POST /api/tickets/:id/comments]. *)
Record CommentRequest := mkRequest {
  r_actor : string;
  r_text : string;
  r_now : Z
}.

Definition to_comment (r : CommentRequest) : Comment.t :=
  Comment.mk (Some (r_actor r)) (Some (r_text r)) (r_now r).

Definition post_comments (s : Store) (tid : string) (reqs : list CommentRequest)
    : Store :=
  foldl (fun st r =>
           snd (TicketsV3.addComment st (r_actor r) tid (Some (r_text r)) (r_now r)))
        s reqs.

Definition standup : list CommentRequest :=
  [ mkRequest "u1" "Reproduced on staging" 210;
    mkRequest "u2" "Fix is in review" 210;
    mkRequest "u1" "Deployed" 250 ].

(** White space at the two ends of a string.  [space_width x] is the
    number of bytes of the white-space character that [x] starts with, 0
    when it starts with none. *)
Definition space_width (x : string) : nat :=
  match x with
  | String c1 r1 =>
      if is_space c1 then 1%nat
      else
        match r1 with
        | String c2 r2 =>
            if is_space2 c1 c2 then 2%nat
            else
              match r2 with
              | String c3 _ => if is_space3 c1 c2 c3 then 3%nat else 0%nat
              | EmptyString => 0%nat
              end
        | EmptyString => 0%nat
        end
  | EmptyString => 0%nat
  end.

Fixpoint skip (n : nat) (x : string) : string :=
  match n, x with
  | S m, String _ r => skip m r
  | _, _ => x
  end.

Definition starts_space (x : string) : bool :=
  negb (Nat.eqb (space_width x) 0).

(** Some suffix of [x] that is not empty is white space only. *)
Fixpoint ends_space (x : string) : bool :=
  match x with
  | EmptyString => false
  | String _ r => blank x || ends_space r
  end.

(** U+00A0 and U+FEFF. *)
Definition nbsp : string := String "194" (String "160" EmptyString).
Definition bom : string :=
  String "239" (String "187" (String "191" EmptyString)).

(** ** Allowed origins (server.js) *)

Module Cors.

(** [x.split(',')]. *)
Fixpoint split_comma (x : string) : list string :=
  match x with
  | EmptyString => [EmptyString]
  | String c r =>
      if Ascii.eqb c "," then EmptyString :: split_comma r
      else match split_comma r with
           | h :: tl => String c h :: tl
           | [] => [String c EmptyString]
           end
  end.

(** [x.replace(/\/$/, '')]: one slash at the end of the string goes. *)
Fixpoint strip_slash (x : string) : string :=
  match x with
  | EmptyString => EmptyString
  | String c EmptyString => if Ascii.eqb c "/" then EmptyString else x
  | String c r => String c (strip_slash r)
  end.

Definition defaults : list string :=
  ["http://localhost:3000"; "https://dev-track-five.vercel.app"].

(** [allowedOrigins] of the latest server.js; [env] is
    [process.env.FRONTEND_URL], which counts as unset when it is empty. *)
Definition allowedOrigins (env : option string) : list string :=
  match env with
  | Some v =>
      if String.eqb v "" then defaults
      else map (fun url => strip_slash (trim url)) (split_comma v)
  | None => defaults
  end.

(** [allowedOrigins] of the version before it, which only trims. *)
Definition allowedOrigins_trimmed (env : option string) : list string :=
  match env with
  | Some v => if String.eqb v "" then defaults else map trim (split_comma v)
  | None => defaults
  end.

(** The [origin] callback of that version: [true] is
    [callback(null, true)], [false] the error [Not allowed by CORS]. *)
Definition originAllowed (allowed : list string) (origin : option string) : bool :=
  match origin with
  | Some o => if String.eqb o "" then true else includes allowed o
  | None => true
  end.

(** A way to write a list of origins into [FRONTEND_URL]: each one with a
    slash at its end, a comma and a blank between two. *)
Fixpoint spell (os : list string) : string :=
  match os with
  | [] => EmptyString
  | [o] => (o ++ "/")%string
  | o :: rest => (o ++ "/, " ++ spell rest)%string
  end.

Fixpoint no_comma (x : string) : bool :=
  match x with
  | EmptyString => true
  | String c r => negb (Ascii.eqb c ",") && no_comma r
  end.

(** An origin that [spell] can carry: no comma in it and no white space
    in front. *)
Definition plain (o : string) : bool := no_comma o && negb (starts_space o).

End Cors.

(** ** What a ticket route may do to the store *)

(** Every stored ticket passes the validators of the schema. *)
Definition store_valid (s : Store) : Prop :=
  forall tid t, tickets s !! tid = Some t -> Ticket_valid t = true.

(** The effects of a ticket route: none, one validated ticket written, or
    one ticket deleted. *)
Inductive TicketEffect (s : Store) : Store -> Prop :=
  | effect_none : TicketEffect s s
  | effect_write (tid : string) (t : Ticket.t) :
      Ticket_valid t = true -> TicketEffect s (written s tid t)
  | effect_delete (tid : string) : TicketEffect s (Ticket_deleteOne s tid).

Definition may_effect (s : Store) (m : Outcome (Response * Store)) : Prop :=
  match m with
  | Return rs => TicketEffect s (snd rs)
  | _ => True
  end.


(** * Properties *)

(** ** Auxiliary facts *)

Lemma includes_true (l : list string) (x : string) :
  includes l x = true <-> x ∈ l.
Proof.
  unfold includes. rewrite existsb_exists. split.
  - intros (y & Hy & Heq). apply String.eqb_eq in Heq. subst y.
    by apply list_elem_of_In.
  - intros Hx. exists x. split; [by apply list_elem_of_In | apply String.eqb_refl].
Qed.

Lemma includes_false (l : list string) (x : string) :
  includes l x = false <-> x ∉ l.
Proof.
  rewrite <- includes_true. destruct (includes l x); split; congruence.
Qed.

Lemma eqb_true_sym (a b : string) : String.eqb a b = true <-> b = a.
Proof. rewrite String.eqb_eq. split; congruence. Qed.

Lemma canAccessProject_spec (actor : string) (p : Project.t) :
  canAccessProject actor p = true
  <-> actor = Project.createdBy p \/ actor ∈ Project.teamMembers p.
Proof.
  unfold canAccessProject, isCreator, isTeamMember.
  rewrite negb_true_iff, andb_false_iff, !negb_false_iff.
  by rewrite eqb_true_sym, includes_true.
Qed.

Lemma access_guard (actor : string) (p : Project.t) :
  negb (includes (Project.teamMembers p) actor)
  && negb (String.eqb (Project.createdBy p) actor)
  = negb (canAccessProject actor p).
Proof.
  unfold canAccessProject, isCreator, isTeamMember.
  destruct (includes _ _), (String.eqb _ _); reflexivity.
Qed.

Lemma access_guard' (actor : string) (p : Project.t) :
  negb (String.eqb (Project.createdBy p) actor)
  && negb (includes (Project.teamMembers p) actor)
  = negb (canAccessProject actor p).
Proof.
  unfold canAccessProject, isCreator, isTeamMember.
  destruct (includes _ _), (String.eqb _ _); reflexivity.
Qed.

Ltac run_handler :=
  unfold handle, bind, found, deref, reject_if; simpl.

(** ** Project access *)

Lemma findById_id (s : Store) (uid : string) (u : User.t) :
  User_findById s uid = Some u -> User._id u = uid.
Proof.
  unfold User_findById. intros H. apply find_some in H as [_ H].
  by apply String.eqb_eq.
Qed.

(** The members that [populate] keeps are those whose user exists. *)
Lemma populated_member (s : Store) (actor : string) (l : list string) :
  existsb (fun m => String.eqb (s_id m) actor)
          (omap (fun m => populate s (Some m)) l) = true
  <-> actor ∈ l /\ is_Some (User_findById s actor).
Proof.
  induction l as [| m l IH].
  - simpl. split; [discriminate | intros [H _]; by apply elem_of_nil in H].
  - cbn [omap list_omap]. unfold populate at 1.
    destruct (User_findById s m) as [u |] eqn:Hu.
    + cbn [existsb s_id]. rewrite orb_true_iff, IH, String.eqb_eq.
      rewrite (findById_id _ _ _ Hu), elem_of_cons. split.
      * intros [-> | [Hin Hex]]; [| by auto]. split; [by left | by rewrite Hu].
      * intros [[-> | Hin] Hex]; auto.
    + rewrite IH, elem_of_cons. split; [intros [Hin Hex]; auto |].
      intros [[-> | Hin] Hex]; [| by auto]. rewrite Hu in Hex.
      by destruct Hex.
Qed.

(** The documented [GET /api/projects/:id] decides on the populated
    references: it agrees with [canAccessProject] when the creator's user
    exists and the actor's user exists. *)
Lemma getProject_populated (s : Store) (actor pid : string) (p : Project.t) :
  projects s !! pid = Some p ->
  is_Some (User_findById s (Project.createdBy p)) ->
  is_Some (User_findById s actor) ->
  ProjectsV2.getProject s actor pid
  = (if canAccessProject actor p then json 200 (BProject p)
     else json 403 (BMessage
            "Access denied: You are not authorized to view this project."), s).
Proof.
  intros Hp [u Hu] Hactor. unfold ProjectsV2.getProject.
  rewrite Hp. cbn [found bind]. unfold populate at 1. rewrite Hu.
  cbn [deref bind s_id]. rewrite (findById_id _ _ _ Hu).
  assert (Hmem : existsb (fun m => String.eqb (s_id m) actor)
                   (omap (fun m => populate s (Some m)) (Project.teamMembers p))
                 = isTeamMember actor p).
  { apply eq_true_iff_eq. unfold isTeamMember.
    rewrite populated_member, includes_true. tauto. }
  rewrite Hmem. unfold canAccessProject, isCreator.
  by destruct (String.eqb _ _), (isTeamMember actor p).
Qed.

(** A printed document is no identifier, so a populated reference never
    matches the actor. *)
Lemma printed_neq (actor : string) (m : UserSummary) :
  is_printed actor = false ->
  String.eqb actor (printed m) = false /\ String.eqb (printed m) actor = false.
Proof.
  intros Hid. rewrite (String.eqb_sym (printed m) actor).
  assert (Hne : String.eqb actor (printed m) = false); [| by rewrite Hne].
  apply String.eqb_neq. intros ->. discriminate Hid.
Qed.

Lemma populated_includes (actor : string) (l : list UserSummary) :
  is_printed actor = false ->
  existsb (fun m => String.eqb actor (printed m)) l = false.
Proof.
  intros Hid. induction l as [| m l IH]; [reflexivity |].
  cbn [existsb]. by rewrite (proj1 (printed_neq actor m Hid)), IH.
Qed.

(** The first [GET /api/projects/:id] lets nobody through. *)
Lemma getProject_first (s : Store) (actor pid : string) (p : Project.t) :
  projects s !! pid = Some p ->
  is_printed actor = false ->
  ProjectsV1.getProject s actor pid
  = (match User_findById s (Project.createdBy p) with
     | Some _ => json 403 (BMessage "Access denied")
     | None => json 500 (BMessage "Cannot read properties of null")
     end, s).
Proof.
  intros Hp Hid. unfold ProjectsV1.getProject. rewrite Hp. cbn [found bind].
  rewrite (populated_includes _ _ Hid). cbn [negb]. unfold populate.
  destruct (User_findById s (Project.createdBy p)) as [u |]; [| reflexivity].
  cbn [deref bind]. by rewrite (proj2 (printed_neq actor _ Hid)).
Qed.

(** C1.  For a stored project, [canAccessProject] holds exactly for the
    creator and the team members; the three versions of
    [GET /api/tickets/project/:projectId] answer such an actor with the
    data, answer every other actor with 403 and a bare message, and leave
    the store as it is, and so does the documented [GET /api/projects/:id]
    on the populated references of users that exist.  The first version of
    [GET /api/projects/:id] does not: it compares the populated references
    with the actor's identifier and answers every actor with 403, the
    creator and the team members as well (with 500 when the creator's user
    is gone). *)
Theorem project_access_iff (s : Store) (actor pid : string) (p : Project.t)
    (Hp : projects s !! pid = Some p) :
  (canAccessProject actor p = true
   <-> actor = Project.createdBy p \/ actor ∈ Project.teamMembers p)
  /\ (canAccessProject actor p = true ->
      TicketsV3.getProjectTickets s actor pid
      = (json 200 (BTickets (Ticket_find_project s pid)), s)
      /\ TicketsV2.getProjectTickets s actor pid
         = (json 200 (BTickets (Ticket_find_project s pid)), s)
      /\ TicketsV1.getProjectTickets s actor pid
         = (json 200 (BTickets (Ticket_find_project s pid)), s))
  /\ (canAccessProject actor p = false ->
      TicketsV3.getProjectTickets s actor pid
      = (json 403 (BMessage
          "Access denied: You are not authorized to view tickets in this project."), s)
      /\ TicketsV2.getProjectTickets s actor pid
         = (json 403 (BMessage "Access denied: Not a member of this project."), s)
      /\ TicketsV1.getProjectTickets s actor pid
         = (json 403 (BMessage "Access denied"), s))
  /\ (is_Some (User_findById s (Project.createdBy p)) ->
      is_Some (User_findById s actor) ->
      ProjectsV2.getProject s actor pid
      = (if canAccessProject actor p then json 200 (BProject p)
         else json 403 (BMessage
                "Access denied: You are not authorized to view this project."),
         s))
  /\ (is_printed actor = false ->
      ProjectsV1.getProject s actor pid
      = (match User_findById s (Project.createdBy p) with
         | Some _ => json 403 (BMessage "Access denied")
         | None => json 500 (BMessage "Cannot read properties of null")
         end, s)).
Proof.
  split; [apply canAccessProject_spec |].
  split; [| split; [| split; [by apply getProject_populated
                             | by apply getProject_first]]];
    unfold TicketsV3.getProjectTickets,
      TicketsV2.getProjectTickets, TicketsV1.getProjectTickets;
    rewrite Hp; run_handler; rewrite access_guard, access_guard';
    intros ->; simpl; auto.
Qed.

Lemma project_access_iff_witness :
  canAccessProject "u1" sprint = true
  /\ ProjectsV1.getProject demo "u1" "p1"
     = (json 403 (BMessage "Access denied"), demo)
  /\ ProjectsV2.getProject demo "u1" "p1" = (json 200 (BProject sprint), demo)
  /\ TicketsV3.getProjectTickets demo "u1" "p1"
     = (json 200 (BTickets [login_bug]), demo).
Proof.
  destruct (project_access_iff demo "u1" "p1" sprint)
    as (_ & Hlist & _ & Hdoc & Hfirst).
  - reflexivity.
  - split; [reflexivity |]. split; [exact (Hfirst eq_refl) |].
    split; [apply Hdoc; by eexists |].
    destruct (Hlist eq_refl) as (-> & _). reflexivity.
Defined.

(** ** Team membership *)

Lemma Project_save_same (s : Store) (pid : string) (p : Project.t) :
  projects s !! pid = Some p -> Project_save s pid p = s.
Proof.
  intros Hp. destruct s as [us ps ts]. unfold Project_save. simpl in *.
  by rewrite insert_id.
Qed.

Lemma remove_absent (l : list string) (x : string) :
  x ∉ l -> filter (fun member => negb (String.eqb member x)) l = l.
Proof.
  induction l as [| y l IH]; intros Hx; [reflexivity |].
  apply not_elem_of_cons in Hx as [Hne Hx].
  rewrite filter_cons_True.
  - by rewrite IH.
  - apply negb_prop_intro. rewrite Is_true_true, String.eqb_eq. congruence.
Qed.

Lemma remove_elem_of (l : list string) (x m : string) :
  m ∈ filter (fun member => negb (String.eqb member x)) l <-> m ≠ x /\ m ∈ l.
Proof.
  rewrite list_elem_of_filter, negb_True, Is_true_true, String.eqb_eq.
  reflexivity.
Qed.

(** C5.  Removing the project's creator is refused whoever asks: the
    creator gets 400, any other actor 403, and the project is not written.
    For any other target the creator's request succeeds: the project is
    stored with the target filtered out of [teamMembers] and the other
    members in place, every other project is as before, and when the
    target was not a member the store is unchanged. *)
Theorem remove_member_policy (s : Store) (actor pid target : string)
    (p : Project.t) (Hp : projects s !! pid = Some p) :
  let p' := set_teamMembers p
              (filter (fun member => negb (String.eqb member target))
                      (Project.teamMembers p)) in
  (target = Project.createdBy p ->
     snd (ProjectsV1.removeMember s actor pid target) = s
     /\ snd (ProjectsV2.removeMember s actor pid target) = s
     /\ status (fst (ProjectsV1.removeMember s actor pid target))
        = (if String.eqb actor (Project.createdBy p) then 400 else 403)
     /\ status (fst (ProjectsV2.removeMember s actor pid target))
        = (if String.eqb actor (Project.createdBy p) then 400 else 403))
  /\ (actor = Project.createdBy p -> target ≠ Project.createdBy p ->
     ProjectsV1.removeMember s actor pid target
     = (json 200 (BProject p'), Project_save s pid p')
     /\ ProjectsV2.removeMember s actor pid target
        = (json 200 (BProject p'), Project_save s pid p')
     /\ projects (snd (ProjectsV1.removeMember s actor pid target)) !! pid
        = Some p'
     /\ projects (snd (ProjectsV2.removeMember s actor pid target)) !! pid
        = Some p'
     /\ (forall q, q ≠ pid ->
           projects (snd (ProjectsV1.removeMember s actor pid target)) !! q
           = projects s !! q
           /\ projects (snd (ProjectsV2.removeMember s actor pid target)) !! q
              = projects s !! q)
     /\ (target ∉ Project.teamMembers p')
     /\ (forall m, m ∈ Project.teamMembers p'
                   <-> m ≠ target /\ m ∈ Project.teamMembers p)
     /\ (target ∉ Project.teamMembers p -> p' = p /\ Project_save s pid p' = s)).
Proof.
  intros p'. unfold ProjectsV1.removeMember, ProjectsV2.removeMember.
  rewrite Hp. run_handler. split.
  - intros ->. rewrite (String.eqb_sym (Project.createdBy p) actor).
    destruct (String.eqb actor (Project.createdBy p)); simpl;
      [rewrite String.eqb_refl |]; auto.
  - intros -> Hne. rewrite String.eqb_refl. simpl.
    apply String.eqb_neq in Hne. rewrite Hne. simpl.
    subst p'. unfold set_teamMembers. cbn [Project.teamMembers].
    split; [reflexivity |]. split; [reflexivity |].
    split; [apply lookup_insert_eq |]. split; [apply lookup_insert_eq |].
    split; [intros q Hq; split; by apply lookup_insert_ne |].
    split; [rewrite remove_elem_of; tauto |].
    split; [intros m; apply remove_elem_of |].
    intros Hnin. rewrite (remove_absent _ _ Hnin).
    assert (Hsame : Project.mk (Project.title p) (Project.createdBy p)
                      (Project.teamMembers p) = p) by (by destruct p).
    rewrite Hsame. split; [reflexivity | by apply Project_save_same].
Qed.

Lemma remove_member_policy_witness :
  snd (ProjectsV2.removeMember demo "u1" "p1" "u1") = demo
  /\ status (fst (ProjectsV2.removeMember demo "u1" "p1" "u1")) = 400
  /\ projects (snd (ProjectsV1.removeMember demo "u1" "p1" "u2")) !! "p1"
     = Some (Project.mk "Sprint" "u1" ["u1"])
  /\ projects (snd (ProjectsV2.removeMember demo "u1" "p1" "u2")) !! "p1"
     = Some (Project.mk "Sprint" "u1" ["u1"])
  /\ ProjectsV2.removeMember demo "u1" "p1" "u3"
     = (json 200 (BProject sprint), demo).
Proof.
  destruct (remove_member_policy demo "u1" "p1" "u1" sprint eq_refl)
    as [Howner _].
  destruct (Howner eq_refl) as (_ & Hs & _ & Hc).
  destruct (remove_member_policy demo "u1" "p1" "u2" sprint eq_refl)
    as [_ Hmember].
  destruct (Hmember eq_refl) as (_ & _ & Hm1 & Hm2 & _); [discriminate |].
  destruct (remove_member_policy demo "u1" "p1" "u3" sprint eq_refl)
    as [_ Hother].
  destruct (Hother eq_refl) as (_ & Hr & _ & _ & _ & _ & _ & Hid).
  - discriminate.
  - split; [exact Hs |]. split; [exact Hc |].
    split; [exact Hm1 |]. split; [exact Hm2 |].
    rewrite Hr. destruct Hid as [-> ->]; [| reflexivity].
    rewrite <- includes_false. reflexivity.
Defined.

Lemma findOne_email_Some (s : Store) (e : option string) (u : User.t) :
  User_findOne_email s e = Some u -> e = Some (User.email u) /\ u ∈ users s.
Proof.
  destruct e as [a |]; simpl; [| discriminate].
  intros H. apply find_some in H as [Hin Heq].
  apply String.eqb_eq in Heq. subst a.
  split; [reflexivity | by apply list_elem_of_In].
Qed.

Lemma findOne_email_None (s : Store) (a : string) :
  User_findOne_email s (Some a) = None
  <-> forall u, u ∈ users s -> User.email u ≠ a.
Proof.
  simpl. split.
  - intros H u Hu. apply list_elem_of_In in Hu.
    by apply String.eqb_neq, (find_none _ _ H).
  - intros H. induction (users s) as [| u l IH]; [reflexivity |].
    simpl. destruct (String.eqb_spec (User.email u) a) as [Heq | _].
    + exfalso. apply (H u); [left | done].
    + apply IH. intros v Hv. apply H. by right.
Qed.

(** C6.  For the project's creator, adding a member looks the user up by
    the e-mail address of the request: no user with that address gives 404,
    a user who is already in [teamMembers] gives 400, and in both cases the
    store is not written; otherwise the user's identifier is appended to
    [teamMembers]. *)
Theorem add_member_policy (s : Store) (actor pid : string) (email : option string)
    (p : Project.t) (Hp : projects s !! pid = Some p)
    (Howner : actor = Project.createdBy p) :
  (forall a, email = Some a -> (forall u, u ∈ users s -> User.email u ≠ a) ->
     ProjectsV1.addMember s actor pid email
     = (json 404 (BMessage "User not found"), s)
     /\ ProjectsV2.addMember s actor pid email
        = (json 404 (BMessage "User not found with this email."), s))
  /\ (forall u, User_findOne_email s email = Some u ->
        email = Some (User.email u)
        /\ (User._id u ∈ Project.teamMembers p ->
              ProjectsV1.addMember s actor pid email
              = (json 400 (BMessage "User is already a team member"), s)
              /\ ProjectsV2.addMember s actor pid email
                 = (json 400 (BMessage
                      "User is already a team member of this project."), s))
        /\ (User._id u ∉ Project.teamMembers p ->
              let p' := set_teamMembers p (Project.teamMembers p ++ [User._id u]) in
              ProjectsV1.addMember s actor pid email
              = (json 200 (BProject p'), Project_save s pid p')
              /\ ProjectsV2.addMember s actor pid email
                 = (json 200 (BProject p'), Project_save s pid p')
              /\ projects (Project_save s pid p') !! pid = Some p'
              /\ length (Project.teamMembers p')
                 = S (length (Project.teamMembers p)))).
Proof.
  subst actor. unfold ProjectsV1.addMember, ProjectsV2.addMember.
  rewrite Hp. run_handler. rewrite String.eqb_refl. simpl. split.
  - intros a -> Hnone. apply findOne_email_None in Hnone.
    simpl in Hnone. simpl. by rewrite Hnone.
  - intros u Hu. split; [exact (proj1 (findOne_email_Some _ _ _ Hu)) |].
    rewrite Hu. split.
    + intros Hin. apply includes_true in Hin. by rewrite Hin.
    + intros Hnin. apply includes_false in Hnin. rewrite Hnin. cbv zeta. simpl.
      split; [reflexivity |]. split; [reflexivity |].
      split; [apply lookup_insert_eq |].
      rewrite length_app. simpl. lia.
Qed.

Lemma add_member_policy_witness :
  ProjectsV2.addMember demo "u1" "p1" (Some "bob@devtrack.io")
  = (json 400 (BMessage "User is already a team member of this project."), demo)
  /\ ProjectsV2.addMember demo "u1" "p1" (Some "nobody@devtrack.io")
     = (json 404 (BMessage "User not found with this email."), demo).
Proof.
  destruct (add_member_policy demo "u1" "p1" (Some "bob@devtrack.io") sprint
              eq_refl eq_refl) as [_ Hsome].
  destruct (Hsome bob eq_refl) as (_ & Hdup & _).
  destruct (add_member_policy demo "u1" "p1" (Some "nobody@devtrack.io") sprint
              eq_refl eq_refl) as [Hnone _].
  split.
  - apply Hdup. apply includes_true. reflexivity.
  - apply (Hnone _ eq_refl). apply findOne_email_None. reflexivity.
Defined.

(** ** Ticket permissions *)

Lemma canMutateTicket_spec (actor : string) (p : Project.t) (t : Ticket.t) :
  canMutateTicket actor p t = true
  <-> actor = Project.createdBy p
      \/ actor ∈ Project.teamMembers p
      \/ Ticket.createdBy t = Some actor.
Proof.
  unfold canMutateTicket, isCreator, isTeamMember, isTicketCreator.
  rewrite negb_true_iff, !andb_false_iff, !negb_false_iff.
  rewrite eqb_true_sym, includes_true.
  destruct (Ticket.createdBy t) as [c |].
  - rewrite String.eqb_eq. split.
    + intros [[H | H] | H]; auto. right; right; congruence.
    + intros [H | [H | H]]; auto. right; congruence.
  - split.
    + intros [[H | H] | H]; auto. discriminate.
    + intros [H | [H | H]]; auto. discriminate.
Qed.

Lemma canDeleteTicket_spec (actor : string) (p : Project.t) (t : Ticket.t) :
  canDeleteTicket actor p t = true
  <-> actor = Project.createdBy p \/ Ticket.createdBy t = Some actor.
Proof.
  unfold canDeleteTicket, isCreator, isTicketCreator.
  rewrite negb_true_iff, !andb_false_iff, !negb_false_iff.
  rewrite eqb_true_sym.
  destruct (Ticket.createdBy t) as [c |].
  - rewrite String.eqb_eq. split; intros [H | H]; auto; right; congruence.
  - split; intros [H | H]; auto; discriminate.
Qed.

Lemma mutate_guard (actor c : string) (p : Project.t) (t : Ticket.t) :
  Ticket.createdBy t = Some c ->
  negb (String.eqb (Project.createdBy p) actor)
  && negb (includes (Project.teamMembers p) actor)
  && negb (String.eqb c actor)
  = negb (canMutateTicket actor p t).
Proof.
  intros Hc. unfold canMutateTicket, isCreator, isTeamMember, isTicketCreator.
  rewrite Hc. by rewrite negb_involutive.
Qed.

Lemma delete_guard (actor c : string) (p : Project.t) (t : Ticket.t) :
  Ticket.createdBy t = Some c ->
  negb (String.eqb (Project.createdBy p) actor) && negb (String.eqb c actor)
  = negb (canDeleteTicket actor p t).
Proof.
  intros Hc. unfold canDeleteTicket, isCreator, isTicketCreator.
  rewrite Hc. by rewrite negb_involutive.
Qed.

Lemma checkPrincipal_cases (s : Store) (p : Project.t) (uid m1 m2 : string) :
  checkPrincipal s p uid m1 m2 = Return tt
  \/ checkPrincipal s p uid m1 m2 = Respond (json 404 (BMessage m1))
  \/ checkPrincipal s p uid m1 m2 = Respond (json 400 (BMessage m2)).
Proof.
  unfold checkPrincipal. run_handler.
  destruct (User_findById s uid); simpl; auto.
  destruct (_ && _); auto.
Qed.

Lemma checkIfGiven_cases (s : Store) (p : Project.t) (v : option string)
    (m1 m2 : string) :
  checkIfGiven s p v m1 m2 = Return tt
  \/ checkIfGiven s p v m1 m2 = Respond (json 404 (BMessage m1))
  \/ checkIfGiven s p v m1 m2 = Respond (json 400 (BMessage m2)).
Proof.
  unfold checkIfGiven. destruct v as [uid |]; auto.
  destruct (negb _); auto. apply checkPrincipal_cases.
Qed.

Lemma Ticket_save_cases (s : Store) (tid : string) (t : Ticket.t) (now : Z) :
  (Ticket_valid t = true
   /\ Ticket_save s tid t now
      = Return (set_updatedAt t now,
                mkStore (users s) (projects s)
                        (<[tid := set_updatedAt t now]> (tickets s))))
  \/ (Ticket_valid t = false
      /\ Ticket_save s tid t now = Raise "Ticket validation failed").
Proof. unfold Ticket_save. destruct (Ticket_valid t); auto. Qed.

(** The replies of an update that passed the permission test. *)
Lemma update_tail_status (s : Store) (p : Project.t) (t : Ticket.t)
    (tid : string) (b : TicketBody) (now : Z) (a1 a2 r1 r2 : string) :
  let reply :=
    handle 400 None s (
      checkIfGiven s p (b_assignee b) a1 a2 ;;;
      checkIfGiven s p (b_reporter b) r1 r2 ;;;
      r <- Ticket_save s tid (Ticket_assign t b now) now ;;
      Return (json 200 (BTicket (fst r)), snd r)) in
  status (fst reply) <> 403.
Proof.
  intros reply. subst reply.
  destruct (checkIfGiven_cases s p (b_assignee b) a1 a2) as [-> | [-> | ->]];
    simpl; try discriminate.
  destruct (checkIfGiven_cases s p (b_reporter b) r1 r2) as [-> | [-> | ->]];
    simpl; try discriminate.
  destruct (Ticket_save_cases s tid (Ticket_assign t b now) now)
    as [[_ ->] | [_ ->]]; simpl; discriminate.
Qed.

Lemma save_tail_status (s : Store) (t : Ticket.t) (tid : string) (now : Z) :
  status (fst (handle 400 None s (
    r <- Ticket_save s tid t now ;;
    Return (json 200 (BTicket (fst r)), snd r)))) <> 403.
Proof.
  destruct (Ticket_save_cases s tid t now) as [[_ ->] | [_ ->]];
    simpl; discriminate.
Qed.

(** When an update is answered with 403. *)
Lemma update_refused (s : Store) (actor tid : string) (b : TicketBody)
    (now : Z) (t : Ticket.t) (pid c : string) (p : Project.t) :
  tickets s !! tid = Some t ->
  Ticket.projectId t = Some pid ->
  projects s !! pid = Some p ->
  Ticket.createdBy t = Some c ->
  (status (fst (TicketsV3.updateTicket s actor tid b now)) = 403
   <-> canMutateTicket actor p t = false)
  /\ (status (fst (TicketsV2.updateTicket s actor tid b now)) = 403
      <-> canAccessProject actor p = false)
  /\ (status (fst (TicketsV1.updateTicket s actor tid b now)) = 403
      <-> canAccessProject actor p = false).
Proof.
  intros Ht Htp Hp Hc.
  unfold TicketsV3.updateTicket, TicketsV2.updateTicket, TicketsV1.updateTicket,
    Ticket_findById.
  rewrite Ht. cbn [found bind]. rewrite Htp. cbn [Project_findById].
  rewrite Hp, Hc. cbn [found deref bind].
  rewrite (mutate_guard _ _ _ _ Hc), access_guard.
  pose proof (update_tail_status s p t tid b now
    "Assignee user not found." "Assignee must be a member of the project team."
    "Reporter user not found." "Reporter must be a member of the project team.")
    as Htail.
  pose proof (save_tail_status s (Ticket_assign t b now) tid now) as Hsave.
  cbv zeta in Htail.
  destruct (canMutateTicket actor p t), (canAccessProject actor p);
    cbn [negb reject_if bind]; simpl handle at 1;
    repeat split; intros; try reflexivity; try discriminate; try contradiction.
Qed.

(** The status of the answer to a delete request. *)
Lemma delete_status (s : Store) (actor tid : string) (t : Ticket.t)
    (pid c : string) (p : Project.t) :
  tickets s !! tid = Some t ->
  Ticket.projectId t = Some pid ->
  projects s !! pid = Some p ->
  Ticket.createdBy t = Some c ->
  let code := if canDeleteTicket actor p t then 200 else 403 in
  status (fst (TicketsV3.deleteTicket s actor tid)) = code
  /\ status (fst (TicketsV2.deleteTicket s actor tid)) = code
  /\ status (fst (TicketsV1.deleteTicket s actor tid)) = code.
Proof.
  intros Ht Htp Hp Hc.
  unfold TicketsV3.deleteTicket, TicketsV2.deleteTicket, TicketsV1.deleteTicket,
    Ticket_findById.
  rewrite Ht. cbn [found bind]. rewrite Htp. cbn [Project_findById].
  rewrite Hp, Hc. cbn [found deref bind].
  rewrite (delete_guard _ _ _ _ Hc).
  unfold canDeleteTicket, isCreator, isTicketCreator. rewrite Hc.
  destruct (String.eqb (Project.createdBy p) actor), (String.eqb c actor);
    simpl; auto.
Qed.

(** C2, as the handlers have it.  The documented [PUT /api/tickets/:id]
    lets the project's creator, the team members and the ticket's creator
    through; the two earlier versions let only the project's creator and
    the team members through.  Whoever is refused gets 403 and the store is
    not written. *)
Theorem update_permission (s : Store) (actor tid : string) (b : TicketBody)
    (now : Z) (t : Ticket.t) (pid c : string) (p : Project.t)
    (Ht : tickets s !! tid = Some t)
    (Htp : Ticket.projectId t = Some pid)
    (Hp : projects s !! pid = Some p)
    (Hc : Ticket.createdBy t = Some c) :
  (canMutateTicket actor p t = true
   <-> actor = Project.createdBy p \/ actor ∈ Project.teamMembers p \/ actor = c)
  /\ (status (fst (TicketsV3.updateTicket s actor tid b now)) = 403
      <-> canMutateTicket actor p t = false)
  /\ (status (fst (TicketsV2.updateTicket s actor tid b now)) = 403
      <-> canAccessProject actor p = false)
  /\ (status (fst (TicketsV1.updateTicket s actor tid b now)) = 403
      <-> canAccessProject actor p = false)
  /\ (canMutateTicket actor p t = false ->
      snd (TicketsV3.updateTicket s actor tid b now) = s)
  /\ (canAccessProject actor p = false ->
      snd (TicketsV2.updateTicket s actor tid b now) = s
      /\ snd (TicketsV1.updateTicket s actor tid b now) = s).
Proof.
  split.
  { rewrite canMutateTicket_spec, Hc. split; intros [H | [H | H]]; auto;
      right; right; congruence. }
  unfold TicketsV3.updateTicket, TicketsV2.updateTicket, TicketsV1.updateTicket,
    Ticket_findById.
  rewrite Ht. cbn [found bind]. rewrite Htp. cbn [Project_findById].
  rewrite Hp, Hc. cbn [found deref bind].
  rewrite (mutate_guard _ _ _ _ Hc), access_guard.
  pose proof (update_tail_status s p t tid b now
    "Assignee user not found." "Assignee must be a member of the project team."
    "Reporter user not found." "Reporter must be a member of the project team.")
    as Htail.
  pose proof (save_tail_status s (Ticket_assign t b now) tid now) as Hsave.
  cbv zeta in Htail.
  destruct (canMutateTicket actor p t), (canAccessProject actor p);
    cbn [negb reject_if bind]; simpl handle at 1;
    repeat split; intros; try reflexivity; try discriminate; try contradiction.
Qed.

Lemma update_permission_witness :
  canMutateTicket "u3" sprint login_bug = true
  /\ status (fst (TicketsV3.updateTicket demo "u3" "t1" empty_body 200)) <> 403
  /\ status (fst (TicketsV1.updateTicket demo "u3" "t1" empty_body 200)) = 403.
Proof.
  destruct (update_permission demo "u3" "t1" empty_body 200 login_bug "p1" "u3"
              sprint eq_refl eq_refl eq_refl eq_refl)
    as (Hrule & Hv3 & _ & Hv1 & _).
  split; [apply Hrule; auto |].
  split.
  - intros H403. apply Hv3 in H403. discriminate.
  - apply Hv1. reflexivity.
Defined.

(** The rule of the design fails on the two earlier versions: Carol filed
    the ticket but is neither creator nor member of its project, and her
    update is answered with 403. *)
Lemma update_permission_counterexample :
  ~ mutate_rule_of_design TicketsV1.updateTicket
  /\ ~ mutate_rule_of_design TicketsV2.updateTicket.
Proof.
  split; intros H;
    destruct (H demo "u3" "t1" empty_body 200 login_bug "p1" sprint
                eq_refl eq_refl eq_refl) as [_ Hback];
    apply Hback; [auto | reflexivity | auto | reflexivity].
Qed.

(** In the documented version whoever is let through by the delete route
    is let through by the update route. *)
Lemma delete_within_update (s : Store) (actor tid : string) (b : TicketBody)
    (now : Z) (t : Ticket.t) (pid : string) (p : Project.t) :
  tickets s !! tid = Some t ->
  Ticket.projectId t = Some pid ->
  projects s !! pid = Some p ->
  status (fst (TicketsV3.deleteTicket s actor tid)) <> 403 ->
  status (fst (TicketsV3.updateTicket s actor tid b now)) <> 403.
Proof.
  intros Ht Htp Hp Hlet.
  destruct (Ticket.createdBy t) as [c |] eqn:Hc.
  - destruct (update_refused s actor tid b now t pid c p Ht Htp Hp Hc)
      as (Hu3 & _).
    destruct (delete_status s actor tid t pid c p Ht Htp Hp Hc) as (Hd3 & _).
    intros Hrefused. apply Hu3 in Hrefused. apply Hlet. rewrite Hd3.
    assert (Hcan : canDeleteTicket actor p t = false); [| by rewrite Hcan].
    apply not_true_is_false. intros Hcan.
    apply canDeleteTicket_spec in Hcan.
    assert (canMutateTicket actor p t = true)
      by (apply canMutateTicket_spec; tauto).
    congruence.
  - unfold TicketsV3.updateTicket, Ticket_findById.
    rewrite Ht. cbn [found bind]. rewrite Htp. cbn [Project_findById].
    rewrite Hp, Hc. simpl. discriminate.
Qed.

(** C3, as the handlers have it.  Deleting a ticket is let through
    exactly for the project's creator and the ticket's creator, in every
    version of the route; any other actor gets 403 and the ticket stays.
    In the documented version whoever may delete may update, and a team
    member who created neither the project nor the ticket may update but
    not delete.  In the two earlier versions the permission to delete is
    not within the permission to update: the ticket's creator outside the
    project may delete the ticket and is refused its update. *)
Theorem delete_permission (s : Store) (actor tid : string) (t : Ticket.t)
    (pid c : string) (p : Project.t)
    (Ht : tickets s !! tid = Some t)
    (Htp : Ticket.projectId t = Some pid)
    (Hp : projects s !! pid = Some p)
    (Hc : Ticket.createdBy t = Some c) :
  (canDeleteTicket actor p t = true
   <-> actor = Project.createdBy p \/ actor = c)
  /\ (canDeleteTicket actor p t = true ->
      TicketsV3.deleteTicket s actor tid
      = (json 200 (BMessage "Ticket deleted successfully."), Ticket_deleteOne s tid)
      /\ TicketsV2.deleteTicket s actor tid
         = (json 200 (BMessage "Ticket deleted successfully"), Ticket_deleteOne s tid)
      /\ TicketsV1.deleteTicket s actor tid
         = (json 200 (BMessage "Ticket deleted"), Ticket_deleteOne s tid)
      /\ tickets (Ticket_deleteOne s tid) !! tid = None)
  /\ (canDeleteTicket actor p t = false ->
      TicketsV3.deleteTicket s actor tid
      = (json 403 (BMessage
          "Access denied: You must be the project creator or ticket creator to delete this ticket."), s)
      /\ TicketsV2.deleteTicket s actor tid
         = (json 403 (BMessage
             "Access denied: You must be the project creator or ticket creator to delete this ticket."), s)
      /\ TicketsV1.deleteTicket s actor tid
         = (json 403 (BMessage "Access denied"), s))
  /\ (forall b now,
        status (fst (TicketsV3.deleteTicket s actor tid)) <> 403 ->
        status (fst (TicketsV3.updateTicket s actor tid b now)) <> 403)
  /\ (forall b now,
        actor ∈ Project.teamMembers p -> actor ≠ Project.createdBy p ->
        actor ≠ c ->
        (status (fst (TicketsV3.updateTicket s actor tid b now)) <> 403
         /\ status (fst (TicketsV3.deleteTicket s actor tid)) = 403)
        /\ (status (fst (TicketsV2.updateTicket s actor tid b now)) <> 403
            /\ status (fst (TicketsV2.deleteTicket s actor tid)) = 403)
        /\ (status (fst (TicketsV1.updateTicket s actor tid b now)) <> 403
            /\ status (fst (TicketsV1.deleteTicket s actor tid)) = 403))
  /\ (forall b now,
        actor = c -> actor ≠ Project.createdBy p ->
        actor ∉ Project.teamMembers p ->
        (status (fst (TicketsV2.deleteTicket s actor tid)) = 200
         /\ status (fst (TicketsV2.updateTicket s actor tid b now)) = 403)
        /\ (status (fst (TicketsV1.deleteTicket s actor tid)) = 200
            /\ status (fst (TicketsV1.updateTicket s actor tid b now)) = 403))
  /\ delete_narrower_than_mutate TicketsV3.deleteTicket TicketsV3.updateTicket.
Proof.
  split.
  { rewrite canDeleteTicket_spec, Hc. split; intros [H | H]; auto; right;
      congruence. }
  assert (Hdel : canDeleteTicket actor p t = true
                 <-> actor = Project.createdBy p \/ actor = c).
  { rewrite canDeleteTicket_spec, Hc. split; intros [H | H]; auto; right;
      congruence. }
  assert (Hmut : canMutateTicket actor p t = true
                 <-> actor = Project.createdBy p
                     \/ actor ∈ Project.teamMembers p \/ actor = c).
  { rewrite canMutateTicket_spec, Hc. split; intros [H | [H | H]]; auto;
      right; right; congruence. }
  pose proof (delete_status s actor tid t pid c p Ht Htp Hp Hc) as Hstatus.
  cbv zeta in Hstatus. destruct Hstatus as (Hd3 & Hd2 & Hd1).
  split; [| split; [| split; [| split; [| split]]]].
  - unfold TicketsV3.deleteTicket, TicketsV2.deleteTicket,
      TicketsV1.deleteTicket, Ticket_findById.
    rewrite Ht. cbn [found bind]. rewrite Htp. cbn [Project_findById].
    rewrite Hp, Hc. cbn [found deref bind].
    rewrite (delete_guard _ _ _ _ Hc).
    intros Hallow. rewrite Hallow.
    unfold canDeleteTicket, isCreator, isTicketCreator in Hallow.
    rewrite Hc in Hallow.
    destruct (String.eqb (Project.createdBy p) actor), (String.eqb c actor);
      try discriminate; simpl; repeat split; apply lookup_delete_eq.
  - unfold TicketsV3.deleteTicket, TicketsV2.deleteTicket,
      TicketsV1.deleteTicket, Ticket_findById.
    rewrite Ht. cbn [found bind]. rewrite Htp. cbn [Project_findById].
    rewrite Hp, Hc. cbn [found deref bind].
    rewrite (delete_guard _ _ _ _ Hc).
    intros Hdeny. rewrite Hdeny.
    unfold canDeleteTicket, isCreator, isTicketCreator in Hdeny.
    rewrite Hc in Hdeny.
    destruct (String.eqb (Project.createdBy p) actor), (String.eqb c actor);
      try discriminate; simpl; auto.
  - intros b now. by apply (delete_within_update s actor tid b now t pid p).
  - intros b now Hmember Hnc Hntc.
    destruct (update_refused s actor tid b now t pid c p Ht Htp Hp Hc)
      as (Hu3 & Hu2 & Hu1).
    assert (Hcan : canDeleteTicket actor p t = false).
    { apply not_true_is_false. intros Hcan. apply Hdel in Hcan. tauto. }
    assert (Hm : canMutateTicket actor p t = true) by (apply Hmut; tauto).
    assert (Ha : canAccessProject actor p = true)
      by (apply canAccessProject_spec; tauto).
    rewrite Hd3, Hd2, Hd1, Hcan.
    repeat split; try reflexivity; intros H403;
      [apply Hu3 in H403 | apply Hu2 in H403 | apply Hu1 in H403]; congruence.
  - intros b now Hcreator Hnc Hnm.
    destruct (update_refused s actor tid b now t pid c p Ht Htp Hp Hc)
      as (_ & Hu2 & Hu1).
    assert (Hcan : canDeleteTicket actor p t = true) by (apply Hdel; tauto).
    assert (Ha : canAccessProject actor p = false).
    { apply not_true_is_false. intros Ha.
      apply canAccessProject_spec in Ha. tauto. }
    rewrite Hd2, Hd1, Hcan.
    repeat split; try reflexivity; [by apply Hu2 | by apply Hu1].
  - split; [intros; by eapply delete_within_update |].
    exists demo, "u2", "t1", empty_body, 200.
    split; [by eexists |]. split; [discriminate | reflexivity].
Qed.

Lemma delete_permission_witness :
  TicketsV3.deleteTicket demo "u2" "t1"
  = (json 403 (BMessage
      "Access denied: You must be the project creator or ticket creator to delete this ticket."),
     demo)
  /\ status (fst (TicketsV3.updateTicket demo "u2" "t1" empty_body 200)) <> 403
  /\ tickets (snd (TicketsV1.deleteTicket demo "u3" "t1")) !! "t1" = None
  /\ status (fst (TicketsV1.updateTicket demo "u3" "t1" empty_body 200)) = 403.
Proof.
  destruct (delete_permission demo "u2" "t1" login_bug "p1" "u3" sprint
              eq_refl eq_refl eq_refl eq_refl)
    as (_ & _ & Hdeny & _ & Hmember & _).
  destruct (delete_permission demo "u3" "t1" login_bug "p1" "u3" sprint
              eq_refl eq_refl eq_refl eq_refl)
    as (_ & Hallow & _ & _ & _ & Hcreator & _).
  destruct (Hmember empty_body 200) as ((Hupdate & _) & _).
  { apply includes_true. reflexivity. }
  { discriminate. }
  { discriminate. }
  destruct (Hcreator empty_body 200) as (_ & _ & Hrefused).
  { reflexivity. }
  { discriminate. }
  { apply includes_false. reflexivity. }
  split; [apply Hdeny; reflexivity |].
  split; [exact Hupdate |].
  split; [| exact Hrefused].
  destruct (Hallow eq_refl) as (_ & _ & -> & Hgone). exact Hgone.
Defined.

(** The rule of the design fails on the two earlier versions: Carol filed
    the ticket but is neither creator nor member of its project; her
    delete request is carried out and her update is answered with 403. *)
Lemma delete_permission_counterexample :
  ~ delete_narrower_than_mutate TicketsV1.deleteTicket TicketsV1.updateTicket
  /\ ~ delete_narrower_than_mutate TicketsV2.deleteTicket TicketsV2.updateTicket.
Proof.
  split; intros [H _];
    apply (H demo "u3" "t1" empty_body 200 login_bug "p1" sprint
             eq_refl eq_refl eq_refl); [discriminate | reflexivity
                                       | discriminate | reflexivity].
Qed.

(** ** Tickets whose project is gone *)

(** C10.  Deleting a project leaves its tickets in the store.  Fetching a
    ticket whose project is not in the store reads a property of [null]:
    every version of [GET /api/tickets/:id] answers 500 and never 404 or
    the ticket.  When the project is there, the answer is the ticket or
    403. *)
Theorem get_ticket_orphan (s : Store) (actor tid : string) (t : Ticket.t)
    (pid : string) (Ht : tickets s !! tid = Some t)
    (Htp : Ticket.projectId t = Some pid) :
  (projects s !! pid = None ->
     TicketsV3.getTicket s actor tid
     = (json 500 (BMessage "Server error. Could not fetch ticket details."), s)
     /\ TicketsV2.getTicket s actor tid
        = (json 500 (BMessage "Cannot read properties of null"), s)
     /\ TicketsV1.getTicket s actor tid
        = (json 500 (BMessage "Cannot read properties of null"), s))
  /\ (forall p, projects s !! pid = Some p ->
        let expected :=
          if canAccessProject actor p then json 200 (BTicket t)
          else json 403 (BMessage
                 "Access denied: You are not authorized to view this ticket.") in
        TicketsV3.getTicket s actor tid = (expected, s)
        /\ status (fst (TicketsV2.getTicket s actor tid)) <> 500
        /\ status (fst (TicketsV1.getTicket s actor tid)) <> 500)
  /\ (forall p owner, projects s !! pid = Some p -> Project.createdBy p = owner ->
        let s' := snd (ProjectsV2.deleteProject s owner pid) in
        s' = snd (ProjectsV1.deleteProject s owner pid)
        /\ projects s' !! pid = None
        /\ tickets s' = tickets s
        /\ status (fst (TicketsV3.getTicket s' actor tid)) = 500
        /\ status (fst (TicketsV2.getTicket s' actor tid)) = 500
        /\ status (fst (TicketsV1.getTicket s' actor tid)) = 500).
Proof.
  unfold TicketsV3.getTicket, TicketsV2.getTicket, TicketsV1.getTicket,
    Ticket_findById.
  split; [| split].
  - intros Hnone. rewrite Ht. cbn [found bind]. rewrite Htp.
    cbn [Project_findById]. rewrite Hnone. auto.
  - intros p Hp. rewrite Ht. cbn [found bind].
    rewrite Htp. cbn [Project_findById]. rewrite Hp. cbn [deref bind].
    rewrite access_guard, access_guard'.
    destruct (canAccessProject actor p); simpl; repeat split; discriminate.
  - intros p owner Hp <-. cbv zeta.
    unfold ProjectsV2.deleteProject, ProjectsV1.deleteProject.
    rewrite Hp. cbn [found bind]. rewrite String.eqb_refl. simpl.
    rewrite Ht. cbn [found bind]. rewrite Htp.
    cbn [Project_findById projects Project_deleteOne].
    rewrite !lookup_delete_eq. simpl. auto 10.
Qed.

Lemma get_ticket_orphan_witness :
  status (fst (TicketsV3.getTicket
                 (snd (ProjectsV2.deleteProject demo "u1" "p1")) "u2" "t1")) = 500
  /\ status (fst (TicketsV3.getTicket demo "u2" "t1")) = 200.
Proof.
  destruct (get_ticket_orphan demo "u2" "t1" login_bug "p1" eq_refl eq_refl)
    as (_ & Hthere & Hgone).
  destruct (Hgone sprint "u1" eq_refl eq_refl) as (_ & _ & _ & H500 & _).
  destruct (Hthere sprint eq_refl) as (Hok & _).
  split; [exact H500 | rewrite Hok; reflexivity].
Defined.

(** ** What an update writes *)

Lemma update_tail_store (s : Store) (p : Project.t) (t : Ticket.t)
    (tid : string) (b : TicketBody) (now : Z) (a1 a2 r1 r2 : string) :
  let reply :=
    handle 400 None s (
      checkIfGiven s p (b_assignee b) a1 a2 ;;;
      checkIfGiven s p (b_reporter b) r1 r2 ;;;
      r <- Ticket_save s tid (Ticket_assign t b now) now ;;
      Return (json 200 (BTicket (fst r)), snd r)) in
  (status (fst reply) = 200 ->
   snd reply = written s tid (set_updatedAt (Ticket_assign t b now) now))
  /\ (status (fst reply) <> 200 -> snd reply = s).
Proof.
  intros reply. subst reply.
  destruct (checkIfGiven_cases s p (b_assignee b) a1 a2) as [-> | [-> | ->]];
    simpl; try (split; [discriminate | reflexivity]).
  destruct (checkIfGiven_cases s p (b_reporter b) r1 r2) as [-> | [-> | ->]];
    simpl; try (split; [discriminate | reflexivity]).
  destruct (Ticket_save_cases s tid (Ticket_assign t b now) now)
    as [[_ ->] | [_ ->]]; simpl; split; try reflexivity; try discriminate.
  intros H. by destruct H.
Qed.

Lemma save_tail_store (s : Store) (t : Ticket.t) (tid : string) (now : Z) :
  let reply :=
    handle 400 None s (
      r <- Ticket_save s tid t now ;;
      Return (json 200 (BTicket (fst r)), snd r)) in
  (status (fst reply) = 200 -> snd reply = written s tid (set_updatedAt t now))
  /\ (status (fst reply) <> 200 -> snd reply = s).
Proof.
  intros reply. subst reply.
  destruct (Ticket_save_cases s tid t now) as [[_ ->] | [_ ->]];
    simpl; split; try reflexivity; try discriminate.
  intros H. by destruct H.
Qed.

Lemma writes_payload_V3 : writes_payload TicketsV3.updateTicket.
Proof.
  intros s actor tid b now t Ht reply. subst reply.
  unfold TicketsV3.updateTicket, Ticket_findById. rewrite Ht. cbn [found bind].
  destruct (Project_findById s (Ticket.projectId t)) as [p |]; cbn [found bind];
    [| simpl; split; [discriminate | reflexivity]].
  destruct (Ticket.createdBy t) as [c |]; cbn [deref bind];
    [| simpl; split; [discriminate | reflexivity]].
  destruct (_ && _ && _); cbn [reject_if bind];
    [simpl; split; [discriminate | reflexivity] |].
  apply update_tail_store.
Qed.

Lemma writes_payload_V2 : writes_payload TicketsV2.updateTicket.
Proof.
  intros s actor tid b now t Ht reply. subst reply.
  unfold TicketsV2.updateTicket, Ticket_findById. rewrite Ht. cbn [found bind].
  destruct (Project_findById s (Ticket.projectId t)) as [p |]; cbn [deref bind];
    [| simpl; split; [discriminate | reflexivity]].
  destruct (_ && _); cbn [reject_if bind];
    [simpl; split; [discriminate | reflexivity] |].
  apply update_tail_store.
Qed.

Lemma writes_payload_V1 : writes_payload TicketsV1.updateTicket.
Proof.
  intros s actor tid b now t Ht reply. subst reply.
  unfold TicketsV1.updateTicket, Ticket_findById. rewrite Ht. cbn [found bind].
  destruct (Project_findById s (Ticket.projectId t)) as [p |]; cbn [deref bind];
    [| simpl; split; [discriminate | reflexivity]].
  destruct (_ && _); cbn [reject_if bind];
    [simpl; split; [discriminate | reflexivity] |].
  apply save_tail_store.
Qed.

(** C7, what the handlers do with a payload.  [Object.assign] writes
    every key of the payload onto the ticket, and nothing keeps
    [projectId] and [createdBy] out of it: an update that is answered with
    200 has stored the ticket with the payload's value at every path that
    the payload names, these two among them, and with its former value at
    the others; [updatedAt] is the time of the request.  An update with any
    other answer leaves the store as it was. *)
Theorem update_writes_payload (s : Store) (actor tid : string) (b : TicketBody)
    (now : Z) (t : Ticket.t) (Ht : tickets s !! tid = Some t) :
  let t' := set_updatedAt (Ticket_assign t b now) now in
  let keep {A} (new old : option A) :=
    match new with Some v => Some v | None => old end in
  (forall update,
     update = TicketsV3.updateTicket \/ update = TicketsV2.updateTicket
     \/ update = TicketsV1.updateTicket ->
     (status (fst (update s actor tid b now)) = 200 ->
      tickets (snd (update s actor tid b now)) !! tid = Some t')
     /\ (status (fst (update s actor tid b now)) <> 200 ->
         snd (update s actor tid b now) = s))
  /\ Ticket.projectId t' = keep (b_projectId b) (Ticket.projectId t)
  /\ Ticket.createdBy t' = keep (b_createdBy b) (Ticket.createdBy t)
  /\ Ticket.title t' = keep (trim <$> b_title b) (Ticket.title t)
  /\ Ticket.description t' = keep (b_description b) (Ticket.description t)
  /\ Ticket.priority t' = default (Ticket.priority t) (b_priority b)
  /\ Ticket.status t' = default (Ticket.status t) (b_status b)
  /\ Ticket.type t' = default (Ticket.type t) (b_type b)
  /\ Ticket.tags t' = default (Ticket.tags t) (map trim <$> b_tags b)
  /\ Ticket.assignee t' = keep (b_assignee b) (Ticket.assignee t)
  /\ Ticket.reporter t' = keep (b_reporter b) (Ticket.reporter t)
  /\ Ticket.comments t'
     = default (Ticket.comments t) (map (Comment_of_body now) <$> b_comments b)
  /\ Ticket.createdAt t' = default (Ticket.createdAt t) (b_createdAt b)
  /\ Ticket.updatedAt t' = now.
Proof.
  intros t' keep. split; [| repeat split].
  intros update Hupdate.
  assert (Hw : writes_payload update).
  { destruct Hupdate as [-> | [-> | ->]];
      [apply writes_payload_V3 | apply writes_payload_V2 | apply writes_payload_V1]. }
  destruct (Hw s actor tid b now t Ht) as [H200 Hother].
  split; [| exact Hother].
  intros H. rewrite (H200 H). apply lookup_insert_eq.
Qed.

Lemma update_writes_payload_witness :
  exists t' : Ticket.t,
    tickets (snd (TicketsV3.updateTicket demo "u1" "t1" takeover_body 200)) !! "t1"
    = Some t'
    /\ Ticket.createdBy t' = Some "u2"
    /\ Ticket.projectId t' = Some "p2"
    /\ Ticket.title t' = Some "Login fails".
Proof.
  destruct (update_writes_payload demo "u1" "t1" takeover_body 200 login_bug
              eq_refl) as (Hall & Hpid & Hcb & Htitle & _).
  destruct (Hall TicketsV3.updateTicket (or_introl eq_refl)) as [H200 _].
  eexists. split; [apply H200; reflexivity |].
  split; [exact Hcb | split; [exact Hpid | exact Htitle]].
Defined.

(** The rule of the design does not hold of the handlers: the creator of
    [sprint] sends a payload with another [createdBy] and another
    [projectId], and the stored ticket takes both. *)
Lemma update_overwrites_creator :
  ~ immutable_rule_of_design TicketsV3.updateTicket
  /\ ~ immutable_rule_of_design TicketsV2.updateTicket
  /\ ~ immutable_rule_of_design TicketsV1.updateTicket.
Proof.
  repeat split; intros H;
    destruct (H demo "u1" "t1" takeover_body 200 login_bug
                (set_updatedAt (Ticket_assign login_bug takeover_body 200) 200)
                eq_refl eq_refl) as [Hpid _];
    discriminate Hpid.
Qed.

(** ** Principals named in a ticket *)

Lemma isValidProjectPrincipal_spec (uid : string) (p : Project.t) :
  isValidProjectPrincipal uid p = true
  <-> uid = Project.createdBy p \/ uid ∈ Project.teamMembers p.
Proof.
  unfold isValidProjectPrincipal.
  rewrite negb_true_iff, andb_false_iff, !negb_false_iff.
  rewrite eqb_true_sym, includes_true. tauto.
Qed.

Lemma checkPrincipal_fault (s : Store) (p : Project.t) (uid m1 m2 : string) :
  checkPrincipal s p uid m1 m2
  = match principal_fault s p uid with
    | None => Return tt
    | Some code =>
        Respond (json code (BMessage (if Z.eqb code 404 then m1 else m2)))
    end.
Proof.
  unfold checkPrincipal, principal_fault, isValidProjectPrincipal. run_handler.
  destruct (User_findById s uid); [| reflexivity].
  by destruct (_ && _).
Qed.

Lemma checkIfGiven_fault (s : Store) (p : Project.t) (v : option string)
    (m1 m2 : string) :
  checkIfGiven s p v m1 m2
  = match optional_fault s p (or_null v) with
    | None => Return tt
    | Some code =>
        Respond (json code (BMessage (if Z.eqb code 404 then m1 else m2)))
    end.
Proof.
  unfold checkIfGiven, or_null. destruct v as [uid |]; [| reflexivity].
  destruct (String.eqb uid ""); simpl; [reflexivity |].
  apply checkPrincipal_fault.
Qed.

Lemma or_null_idem (v : option string) : or_null (or_null v) = or_null v.
Proof.
  unfold or_null. destruct v as [x |]; [| reflexivity].
  destruct (String.eqb x "") eqn:E; [reflexivity | by rewrite E].
Qed.

Lemma principal_fault_spec (s : Store) (p : Project.t) (uid : string) :
  (principal_fault s p uid = Some 404 <-> User_findById s uid = None)
  /\ (principal_fault s p uid = Some 400
      <-> is_Some (User_findById s uid)
          /\ ~ (uid = Project.createdBy p \/ uid ∈ Project.teamMembers p))
  /\ (principal_fault s p uid = None
      <-> is_Some (User_findById s uid)
          /\ (uid = Project.createdBy p \/ uid ∈ Project.teamMembers p)).
Proof.
  unfold principal_fault. rewrite <- isValidProjectPrincipal_spec.
  destruct (User_findById s uid) as [u |].
  - destruct (isValidProjectPrincipal uid p); repeat split;
      try discriminate; eauto; try (intros [_ H]; congruence).
  - repeat split; try discriminate; try (intros [[u Hu] _]; discriminate).
Qed.

Lemma first_fault_codes (s : Store) (p : Project.t) (a r : option string)
    (code : Z) :
  first_fault s p a r = Some code -> code = 404 \/ code = 400.
Proof.
  assert (Hone : forall v, optional_fault s p v = Some code ->
                           code = 404 \/ code = 400).
  { intros [uid |]; simpl; [| discriminate]. unfold principal_fault.
    destruct (User_findById s uid); [destruct (isValidProjectPrincipal uid p) |];
      intros [= <-]; auto. }
  unfold first_fault. destruct (optional_fault s p a) eqn:Ea.
  - intros [= <-]. by apply (Hone a).
  - apply Hone.
Qed.

(** The two guards in a row, as a function of the first fault. *)
Lemma guards_fault {A} (s : Store) (p : Project.t) (a r : option string)
    (a1 a2 r1 r2 : string) (k : Outcome A) :
  (checkIfGiven s p a a1 a2 ;;; checkIfGiven s p r r1 r2 ;;; k)
  = match first_fault s p (or_null a) (or_null r) with
    | None => k
    | Some code =>
        Respond (json code (BMessage
          (match optional_fault s p (or_null a) with
           | Some c => if Z.eqb c 404 then a1 else a2
           | None => if Z.eqb code 404 then r1 else r2
           end)))
    end.
Proof.
  rewrite !checkIfGiven_fault. unfold first_fault.
  destruct (optional_fault s p (or_null a)); [reflexivity |]. simpl.
  by destruct (optional_fault s p (or_null r)).
Qed.

Lemma create_guards_fault {A} (s : Store) (p : Project.t) (a : option string)
    (r a1 a2 r1 r2 : string) (k : Outcome A) :
  (checkIfGiven s p (or_null a) a1 a2 ;;; checkPrincipal s p r r1 r2 ;;; k)
  = match first_fault s p (or_null a) (Some r) with
    | None => k
    | Some code =>
        Respond (json code (BMessage
          (match optional_fault s p (or_null a) with
           | Some c => if Z.eqb c 404 then a1 else a2
           | None => if Z.eqb code 404 then r1 else r2
           end)))
    end.
Proof.
  rewrite checkIfGiven_fault, checkPrincipal_fault, or_null_idem.
  unfold first_fault.
  destruct (optional_fault s p (or_null a)); [reflexivity |]. simpl.
  by destruct (principal_fault s p r).
Qed.

(** C4.  On create the reporter is the acting user unless the body names
    one, and the assignee may be missing.  A named assignee or reporter is
    looked up and tested against the project's creator and team, the
    assignee first: a user that does not exist gives 404, a user outside
    the project 400, and the store is not written.  The same holds for the
    principals named in an update payload.  Without a fault a valid
    candidate is stored with these principals. *)
Theorem principal_validation (s : Store) (actor newId tid : string)
    (b u : TicketBody) (now : Z) (pid : string) (p : Project.t)
    (Hp : projects s !! pid = Some p) :
  let reporterId := or_else (b_reporter b) actor in
  let assigneeId := or_null (b_assignee b) in
  let candidate :=
    Ticket_new (with_principals b assigneeId (Some reporterId) (Some actor)) now in
  (b_reporter b = None -> reporterId = actor)
  /\ (b_assignee b = None -> assigneeId = None)
  /\ (forall uid,
        (principal_fault s p uid = Some 404 <-> User_findById s uid = None)
        /\ (principal_fault s p uid = Some 400
            <-> is_Some (User_findById s uid)
                /\ ~ (uid = Project.createdBy p \/ uid ∈ Project.teamMembers p))
        /\ (principal_fault s p uid = None
            <-> is_Some (User_findById s uid)
                /\ (uid = Project.createdBy p \/ uid ∈ Project.teamMembers p)))
  /\ (b_projectId b = Some pid -> canAccessProject actor p = true ->
      forall code, first_fault s p assigneeId (Some reporterId) = Some code ->
        (code = 404 \/ code = 400)
        /\ status (fst (TicketsV3.createTicket s actor newId b now)) = code
        /\ snd (TicketsV3.createTicket s actor newId b now) = s
        /\ status (fst (TicketsV2.createTicket s actor newId b now)) = code
        /\ snd (TicketsV2.createTicket s actor newId b now) = s)
  /\ (b_projectId b = Some pid -> canAccessProject actor p = true ->
      first_fault s p assigneeId (Some reporterId) = None ->
      Ticket_valid candidate = true ->
        TicketsV3.createTicket s actor newId b now
        = (json 201 (BTicket (set_updatedAt candidate now)),
           written s newId (set_updatedAt candidate now))
        /\ TicketsV2.createTicket s actor newId b now
           = (json 201 (BTicket (set_updatedAt candidate now)),
              written s newId (set_updatedAt candidate now))
        /\ Ticket.reporter candidate = Some reporterId
        /\ Ticket.assignee candidate = assigneeId
        /\ Ticket.createdBy candidate = Some actor)
  /\ (forall t c code,
        tickets s !! tid = Some t ->
        Ticket.projectId t = Some pid ->
        Ticket.createdBy t = Some c ->
        first_fault s p (or_null (b_assignee u)) (or_null (b_reporter u))
        = Some code ->
        (code = 404 \/ code = 400)
        /\ (canMutateTicket actor p t = true ->
            status (fst (TicketsV3.updateTicket s actor tid u now)) = code
            /\ snd (TicketsV3.updateTicket s actor tid u now) = s)
        /\ (canAccessProject actor p = true ->
            status (fst (TicketsV2.updateTicket s actor tid u now)) = code
            /\ snd (TicketsV2.updateTicket s actor tid u now) = s)).
Proof.
  intros reporterId assigneeId candidate.
  split; [intros Hr; subst reporterId; by rewrite Hr |].
  split; [intros Ha; subst assigneeId; by rewrite Ha |].
  split; [intros uid; apply principal_fault_spec |].
  split; [| split].
  - intros Hb Hacc code Hfault.
    split; [by apply first_fault_codes in Hfault |].
    unfold TicketsV3.createTicket, TicketsV2.createTicket.
    rewrite Hb. cbn [Project_findById]. rewrite Hp. cbn [found bind].
    rewrite access_guard, access_guard', Hacc. cbn [negb reject_if bind].
    fold reporterId assigneeId. subst assigneeId.
    rewrite !create_guards_fault, Hfault. simpl. auto.
  - intros Hb Hacc Hfault Hvalid.
    unfold TicketsV3.createTicket, TicketsV2.createTicket.
    rewrite Hb. cbn [Project_findById]. rewrite Hp. cbn [found bind].
    rewrite access_guard, access_guard', Hacc. cbn [negb reject_if bind].
    fold reporterId assigneeId. fold candidate. subst assigneeId.
    rewrite !create_guards_fault, Hfault.
    unfold Ticket_save. fold candidate. rewrite Hvalid. simpl. auto.
  - intros t c code Ht Htp Hc Hfault.
    split; [by apply first_fault_codes in Hfault |].
    unfold TicketsV3.updateTicket, TicketsV2.updateTicket, Ticket_findById.
    rewrite Ht. cbn [found bind]. rewrite Htp. cbn [Project_findById].
    rewrite Hp, Hc. cbn [found deref bind].
    rewrite (mutate_guard _ _ _ _ Hc), access_guard.
    split; intros ->; cbn [negb reject_if bind];
      rewrite !guards_fault, Hfault; simpl; auto.
Qed.

Lemma principal_validation_witness :
  TicketsV3.createTicket demo "u2" "t2" (report_body (Some "u3") None) 300
  = (json 400 (BMessage "Assignee must be a member of the project team."), demo)
  /\ status (fst (TicketsV3.createTicket demo "u2" "t2"
                    (report_body None (Some "u9")) 300)) = 404
  /\ status (fst (TicketsV3.updateTicket demo "u3" "t1"
                    (principals_body (Some "u1") (Some "u3")) 300)) = 400
  /\ (exists t',
        tickets (snd (TicketsV3.createTicket demo "u2" "t2"
                        (report_body None None) 300)) !! "t2" = Some t'
        /\ Ticket.reporter t' = Some "u2"
        /\ Ticket.assignee t' = None
        /\ Ticket.title t' = Some "Crash on save"
        /\ Ticket.priority t' = "Medium").
Proof.
  pose proof (fun actor b u => principal_validation demo actor "t2" "t1" b u 300
                "p1" sprint eq_refl) as H.
  destruct (H "u2" (report_body (Some "u3") None) empty_body)
    as (_ & _ & _ & Hbad & _).
  destruct (Hbad eq_refl eq_refl 400 eq_refl) as (_ & Hst & Hsame & _).
  destruct (H "u2" (report_body None (Some "u9")) empty_body)
    as (_ & _ & _ & Hgone & _).
  destruct (Hgone eq_refl eq_refl 404 eq_refl) as (_ & Hst404 & _).
  destruct (H "u3" empty_body (principals_body (Some "u1") (Some "u3")))
    as (_ & _ & _ & _ & _ & Hupd).
  destruct (Hupd login_bug "u3" 400 eq_refl eq_refl eq_refl eq_refl)
    as (_ & Hv3 & _).
  destruct (Hv3 eq_refl) as (Hst400 & _).
  destruct (H "u2" (report_body None None) empty_body)
    as (_ & _ & _ & _ & Hgood & _).
  destruct (Hgood eq_refl eq_refl eq_refl eq_refl) as (Hcreated & _).
  split; [reflexivity |].
  split; [exact Hst404 |].
  split; [exact Hst400 |].
  eexists. rewrite Hcreated. split; [apply lookup_insert_eq |].
  repeat split.
Defined.

(** ** The comment log *)

Lemma Ticket_valid_snoc (t : Ticket.t) (c : Comment.t) :
  Ticket_valid (set_comments t (Ticket.comments t ++ [c]))
  = Ticket_valid t && Comment_valid c.
Proof.
  unfold Ticket_valid. cbn [set_comments Ticket.title Ticket.description
    Ticket.priority Ticket.status Ticket.type Ticket.assignee Ticket.reporter
    Ticket.projectId Ticket.createdBy Ticket.comments].
  rewrite forallb_app. cbn [forallb]. rewrite andb_true_r.
  by rewrite !andb_assoc.
Qed.

Lemma Ticket_valid_updatedAt (t : Ticket.t) (now : Z) :
  Ticket_valid (set_updatedAt t now) = Ticket_valid t.
Proof. reflexivity. Qed.

Lemma Comment_valid_request (r : CommentRequest) :
  r_actor r <> "" -> r_text r <> "" -> Comment_valid (to_comment r) = true.
Proof.
  intros Ha Hx. unfold Comment_valid, to_comment, required, truthy. simpl.
  apply String.eqb_neq in Ha, Hx. by rewrite Ha, Hx.
Qed.

(** One request that passes every test. *)
Lemma addComment_accepted (s : Store) (tid pid : string) (t : Ticket.t)
    (p : Project.t) (r : CommentRequest) :
  tickets s !! tid = Some t ->
  Ticket.projectId t = Some pid ->
  projects s !! pid = Some p ->
  Ticket_valid t = true ->
  canAccessProject (r_actor r) p = true ->
  r_actor r <> "" -> r_text r <> "" ->
  let t1 := set_updatedAt
              (set_comments t (Ticket.comments t ++ [to_comment r])) (r_now r) in
  let reply :=
    (json 201 (BComment (Some (mkCommentView (populate s (Some (r_actor r)))
                                 (Some (r_text r)) (r_now r)))),
     written s tid t1) in
  TicketsV3.addComment s (r_actor r) tid (Some (r_text r)) (r_now r) = reply
  /\ TicketsV2.addComment s (r_actor r) tid (Some (r_text r)) (r_now r) = reply.
Proof.
  intros Ht Htp Hp Hvalid Hacc Ha Hx t1 reply.
  unfold TicketsV3.addComment, TicketsV2.addComment, Ticket_findById.
  rewrite Ht. cbn [found bind]. rewrite Htp. cbn [Project_findById].
  rewrite Hp. cbn [found deref bind].
  rewrite access_guard, access_guard', Hacc. cbn [negb reject_if bind].
  fold (to_comment r). unfold Ticket_save.
  rewrite Ticket_valid_snoc, Hvalid, Comment_valid_request by done.
  cbn [andb bind snd tickets]. rewrite lookup_insert_eq. cbn [deref bind].
  cbn [set_updatedAt Ticket.comments set_comments].
  rewrite last_snoc. by split.
Qed.

(** Whatever the answer, the log of the ticket keeps its entries and grows
    by at most the one new comment. *)
Lemma addComment_log (s : Store) (actor tid : string) (text : option string)
    (now : Z) (t t' : Ticket.t) :
  tickets s !! tid = Some t ->
  tickets (snd (TicketsV3.addComment s actor tid text now)) !! tid = Some t' ->
  Ticket.comments t' = Ticket.comments t
  \/ Ticket.comments t' = Ticket.comments t ++ [Comment.mk (Some actor) text now].
Proof.
  intros Ht. unfold TicketsV3.addComment, Ticket_findById.
  rewrite Ht. cbn [found bind].
  destruct (Project_findById s (Ticket.projectId t)) as [p |]; cbn [found bind];
    [| simpl; rewrite Ht; intros [= <-]; by left].
  destruct (_ && _); cbn [reject_if bind];
    [simpl; rewrite Ht; intros [= <-]; by left |].
  destruct (Ticket_save_cases s tid
              (set_comments t (Ticket.comments t ++ [Comment.mk (Some actor) text now]))
              now) as [[_ ->] | [_ ->]]; cbn [bind snd tickets].
  - rewrite lookup_insert_eq. cbn [deref bind handle snd tickets].
    rewrite lookup_insert_eq. intros [= <-]. by right.
  - simpl. rewrite Ht. intros [= <-]. by left.
Qed.

Lemma post_comments_log (reqs : list CommentRequest) :
  forall (s : Store) (tid pid : string) (t : Ticket.t) (p : Project.t),
    tickets s !! tid = Some t ->
    Ticket.projectId t = Some pid ->
    projects s !! pid = Some p ->
    Ticket_valid t = true ->
    Forall (fun r => canAccessProject (r_actor r) p = true
                     /\ r_actor r <> "" /\ r_text r <> "") reqs ->
    exists t',
      tickets (post_comments s tid reqs) !! tid = Some t'
      /\ Ticket.comments t' = Ticket.comments t ++ (to_comment <$> reqs).
Proof.
  induction reqs as [| r reqs IH]; intros s tid pid t p Ht Htp Hp Hvalid Hreqs.
  - exists t. split; [exact Ht | by rewrite app_nil_r].
  - apply Forall_cons in Hreqs as [(Hacc & Ha & Hx) Hreqs].
    destruct (addComment_accepted s tid pid t p r Ht Htp Hp Hvalid Hacc Ha Hx)
      as [Hstep _].
    unfold post_comments. cbn [foldl]. rewrite Hstep. cbn [snd].
    set (t1 := set_updatedAt _ _).
    destruct (IH (written s tid t1) tid pid t1 p) as (t' & Hlook & Hlog); auto.
    + apply lookup_insert_eq.
    + subst t1. rewrite Ticket_valid_updatedAt, Ticket_valid_snoc, Hvalid.
      by rewrite Comment_valid_request.
    + exists t'. split; [exact Hlook |].
      rewrite Hlog. subst t1. cbn [set_updatedAt set_comments Ticket.comments].
      by rewrite <- app_assoc.
Qed.

(** C8.  An accepted comment request writes the ticket with exactly one
    more entry at the end of its log, written by the actor and stamped with
    the clock reading of the request, and is answered with that entry
    alone, its author resolved to name and e-mail.  No request removes or
    reorders entries.  After [N] accepted requests on an empty log the log
    has [N] entries in the order of the requests, and their timestamps are
    the clock readings, non-decreasing when the clock is. *)
Theorem comment_log_append (s : Store) (tid pid : string) (t : Ticket.t)
    (p : Project.t) (reqs : list CommentRequest)
    (Ht : tickets s !! tid = Some t)
    (Htp : Ticket.projectId t = Some pid)
    (Hp : projects s !! pid = Some p)
    (Hvalid : Ticket_valid t = true)
    (Hreqs : Forall (fun r => canAccessProject (r_actor r) p = true
                              /\ r_actor r <> "" /\ r_text r <> "") reqs) :
  (forall r, r ∈ reqs ->
     let t1 := set_updatedAt
                 (set_comments t (Ticket.comments t ++ [to_comment r])) (r_now r) in
     let reply :=
       (json 201 (BComment (Some (mkCommentView (populate s (Some (r_actor r)))
                                    (Some (r_text r)) (r_now r)))),
        written s tid t1) in
     TicketsV3.addComment s (r_actor r) tid (Some (r_text r)) (r_now r) = reply
     /\ TicketsV2.addComment s (r_actor r) tid (Some (r_text r)) (r_now r) = reply
     /\ (forall u, User_findById s (r_actor r) = Some u ->
           populate s (Some (r_actor r))
           = Some (mkSummary (User._id u) (User.name u) (User.email u))))
  /\ (forall actor text now t',
        tickets (snd (TicketsV3.addComment s actor tid text now)) !! tid = Some t' ->
        Ticket.comments t' = Ticket.comments t
        \/ Ticket.comments t'
           = Ticket.comments t ++ [Comment.mk (Some actor) text now])
  /\ (exists t',
        tickets (post_comments s tid reqs) !! tid = Some t'
        /\ Ticket.comments t' = Ticket.comments t ++ (to_comment <$> reqs)
        /\ (Ticket.comments t = [] ->
            length (Ticket.comments t') = length reqs
            /\ Comment.author <$> Ticket.comments t' = (Some ∘ r_actor) <$> reqs
            /\ Comment.text <$> Ticket.comments t' = (Some ∘ r_text) <$> reqs
            /\ Comment.timestamp <$> Ticket.comments t' = r_now <$> reqs
            /\ (Sorted Z.le (r_now <$> reqs) ->
                Sorted Z.le (Comment.timestamp <$> Ticket.comments t')))).
Proof.
  split; [| split].
  - intros r Hr t1 reply.
    rewrite Forall_forall in Hreqs. destruct (Hreqs r Hr) as (Hacc & Ha & Hx).
    destruct (addComment_accepted s tid pid t p r Ht Htp Hp Hvalid Hacc Ha Hx)
      as [H3 H2].
    split; [exact H3 | split; [exact H2 |]].
    intros u Hu. unfold populate. by rewrite Hu.
  - intros actor text now t'. by apply addComment_log.
  - destruct (post_comments_log reqs s tid pid t p Ht Htp Hp Hvalid Hreqs)
      as (t' & Hlook & Hlog).
    exists t'. split; [exact Hlook | split; [exact Hlog |]].
    intros Hempty. rewrite Hlog, Hempty. cbn [app].
    rewrite length_fmap, <- !list_fmap_compose.
    repeat split; auto.
Qed.

Lemma comment_log_append_witness :
  exists t',
    tickets (post_comments demo "t1" standup) !! "t1" = Some t'
    /\ length (Ticket.comments t') = 3%nat
    /\ Comment.timestamp <$> Ticket.comments t' = [210; 210; 250]
    /\ Sorted Z.le (Comment.timestamp <$> Ticket.comments t').
Proof.
  assert (Hreqs : Forall (fun r => canAccessProject (r_actor r) sprint = true
                                   /\ r_actor r <> "" /\ r_text r <> "") standup).
  { repeat constructor; discriminate. }
  destruct (comment_log_append demo "t1" "p1" login_bug sprint standup
              eq_refl eq_refl eq_refl eq_refl Hreqs)
    as (_ & _ & t' & Hlook & _ & Hrest).
  destruct (Hrest eq_refl) as (Hlen & _ & _ & Hts & Hsorted).
  exists t'. split; [exact Hlook |]. split; [exact Hlen |].
  split; [exact Hts |]. apply Hsorted. simpl.
  repeat first [apply Sorted_nil | apply HdRel_nil
               | apply Sorted_cons | apply HdRel_cons]; lia.
Defined.

(** ** Event relay *)

Section RelayFacts.
Import Relay.

Lemma members_join (st : State) (c room R : string) :
  members (join st c room) R
  = if decide (room = R) then {[c]} ∪ members st R else members st R.
Proof.
  unfold members at 1, join. cbn [rooms].
  destruct (decide (room = R)) as [-> | Hne].
  - by rewrite lookup_insert_eq.
  - by rewrite lookup_insert_ne.
Qed.

Lemma members_leave_all (st : State) (c R : string) :
  members (leave_all st c) R = members st R ∖ {[c]}.
Proof.
  unfold members, leave_all. cbn [rooms]. rewrite lookup_fmap.
  destruct (rooms st !! R); simpl; [reflexivity |].
  by rewrite empty_difference_L.
Qed.

Lemma members_init (c R : string) : c ∉ members init R.
Proof.
  unfold members, init. cbn [rooms]. rewrite lookup_empty. simpl.
  apply not_elem_of_empty.
Qed.

Lemma elem_of_emit_to (st : State) (room : string) (data d : Message) (x : string) :
  (x, d) ∈ emit_to st room data <-> d = data /\ x ∈ members st room.
Proof.
  unfold emit_to. rewrite list_elem_of_fmap. split.
  - intros (y & [= -> ->] & Hy). by rewrite elem_of_elements in Hy.
  - intros [-> Hx]. exists x. by rewrite elem_of_elements.
Qed.

(** Only [JoinProject c R] puts [c] into room [R]. *)
Lemma step_stays_out (st : State) (e : Event) (c R : string) :
  e <> JoinProject c R -> c ∉ members st R -> c ∉ members (step st e) R.
Proof.
  intros Hne Hout. destruct e as [x | x pid | x data | x]; cbn [step].
  - exact Hout.
  - case_bool_decide; [| exact Hout]. rewrite members_join.
    case_decide; [| exact Hout]. subst pid.
    rewrite elem_of_union, elem_of_singleton. intros [-> | Hin]; [| by apply Hout].
    by apply Hne.
  - by case_bool_decide.
  - rewrite members_leave_all, elem_of_difference. intros [Hin _]. by apply Hout.
Qed.

(** Only [Disconnect c] takes [c] out of a room. *)
Lemma step_stays_in (st : State) (e : Event) (c R : string) :
  e <> Disconnect c -> c ∈ members st R -> c ∈ members (step st e) R.
Proof.
  intros Hne Hin. destruct e as [x | x pid | x data | x]; cbn [step].
  - exact Hin.
  - case_bool_decide; [| exact Hin]. rewrite members_join.
    case_decide; [| exact Hin]. subst pid. by apply elem_of_union_r.
  - by case_bool_decide.
  - rewrite members_leave_all, elem_of_difference, elem_of_singleton.
    split; [exact Hin |]. intros ->. by apply Hne.
Qed.

(** A delivery is in the outbox from before the step, or the step is a
    broadcast to a room that holds the channel. *)
Lemma step_outbox (st : State) (e : Event) (c : string) (d : Message) :
  (c, d) ∈ outbox (step st e) ->
  (c, d) ∈ outbox st \/ c ∈ members st (projectId d).
Proof.
  destruct e as [x | x pid | x data | x]; cbn [step]; auto.
  - case_bool_decide; auto.
  - case_bool_decide; auto. cbn [outbox]. rewrite elem_of_app.
    intros [Hold | Hnew]; auto.
    apply elem_of_emit_to in Hnew as [-> Hnew]. auto.
Qed.

Lemma run_stays_out (evs : list Event) (c R : string) :
  JoinProject c R ∉ evs ->
  forall st, c ∉ members st R -> c ∉ members (run st evs) R.
Proof.
  induction evs as [| e evs IH]; intros Hnojoin st Hout; [exact Hout |].
  apply not_elem_of_cons in Hnojoin as [Hne Hnojoin]. cbn [run].
  apply (IH Hnojoin). apply step_stays_out; [congruence | exact Hout].
Qed.

Lemma run_outbox_old (evs : list Event) (c R : string) :
  JoinProject c R ∉ evs ->
  forall st d,
    projectId d = R -> c ∉ members st R ->
    (c, d) ∈ outbox (run st evs) -> (c, d) ∈ outbox st.
Proof.
  induction evs as [| e evs IH]; intros Hnojoin st d Hd Hout Hin; [exact Hin |].
  apply not_elem_of_cons in Hnojoin as [Hne Hnojoin]. cbn [run] in Hin.
  apply (IH Hnojoin) in Hin;
    [| exact Hd | apply step_stays_out; [congruence | exact Hout]].
  apply step_outbox in Hin as [Hin | Hin]; [exact Hin |].
  rewrite Hd in Hin. contradiction.
Qed.

End RelayFacts.

(** C9.  A broadcast to room [R] appends to the outbox one delivery for
    each channel that is in [R] at that moment, the sender included, and
    nothing else; no other event delivers anything, so a later join
    replays nothing.  A channel is in [R] from its [join_project] until its
    disconnect.  A channel that never joined [R], or that disconnected and
    did not join again, is outside [R] and receives no broadcast to [R]. *)
Theorem relay_delivery (st : Relay.State) (evs : list Relay.Event) (c R : string)
    (Hnojoin : Relay.JoinProject c R ∉ evs) :
  (forall sender data x, sender ∈ Relay.connected st ->
     Relay.outbox (Relay.step st (Relay.SendMessage sender data))
     = Relay.outbox st ++ Relay.emit_to st (Relay.projectId data) data
     /\ ((x, data) ∈ Relay.emit_to st (Relay.projectId data) data
         <-> x ∈ Relay.members st (Relay.projectId data)))
  /\ (forall e, (forall sender data, e <> Relay.SendMessage sender data) ->
        Relay.outbox (Relay.step st e) = Relay.outbox st)
  /\ (forall x, x ∈ Relay.connected st ->
        x ∈ Relay.members (Relay.step st (Relay.JoinProject x R)) R)
  /\ (forall x e, e <> Relay.Disconnect x -> x ∈ Relay.members st R ->
        x ∈ Relay.members (Relay.step st e) R)
  /\ ((c ∉ Relay.members (Relay.run Relay.init evs) R)
      /\ (forall d, Relay.projectId d = R ->
            (c, d) ∉ Relay.outbox (Relay.run Relay.init evs)))
  /\ (let before := Relay.step st (Relay.Disconnect c) in
      let after := Relay.run before evs in
      (c ∉ Relay.members after R)
      /\ (forall sender d, Relay.projectId d = R ->
            ((c, d) ∉ Relay.emit_to after R d)
            /\ ((c, d) ∈ Relay.outbox
                           (Relay.step after (Relay.SendMessage sender d)) ->
                (c, d) ∈ Relay.outbox before))).
Proof.
  split; [| split; [| split; [| split; [| split]]]].
  - intros sender data x Hconn. cbn [Relay.step].
    rewrite bool_decide_eq_true_2 by done. split; [reflexivity |].
    rewrite elem_of_emit_to. tauto.
  - intros e Hother. destruct e as [x | x pid | x data | x]; cbn [Relay.step];
      try reflexivity.
    + by case_bool_decide.
    + by destruct (Hother x data).
  - intros x Hconn. cbn [Relay.step]. rewrite bool_decide_eq_true_2 by done.
    rewrite members_join. rewrite decide_True by done.
    apply elem_of_union_l. by apply elem_of_singleton.
  - intros x e. apply step_stays_in.
  - split.
    + apply run_stays_out; [exact Hnojoin | apply members_init].
    + intros d Hd Hin.
      apply (run_outbox_old evs c R Hnojoin Relay.init d Hd) in Hin;
        [| apply members_init].
      cbn [Relay.init Relay.outbox] in Hin. by apply elem_of_nil in Hin.
  - intros before after.
    assert (Hgone : c ∉ Relay.members before R).
    { subst before. cbn [Relay.step].
      rewrite members_leave_all, elem_of_difference, elem_of_singleton. tauto. }
    assert (Hout : c ∉ Relay.members after R)
      by (by apply run_stays_out).
    split; [exact Hout |]. intros sender d Hd. split.
    + rewrite elem_of_emit_to. tauto.
    + intros Hin. apply step_outbox in Hin as [Hin | Hin];
        [| rewrite Hd in Hin; contradiction].
      by apply (run_outbox_old evs c R Hnojoin before d Hd Hgone).
Qed.

Lemma relay_delivery_witness :
  Relay.outbox (Relay.run Relay.init session) = [("a", ticket_updated)]
  /\ ("b", ticket_updated) ∉ Relay.outbox (Relay.run Relay.init session).
Proof.
  assert (Hnojoin : Relay.JoinProject "b" "P1" ∉ session).
  { unfold session. rewrite !not_elem_of_cons.
    repeat split; try discriminate. apply not_elem_of_nil. }
  destruct (relay_delivery Relay.init session "b" "P1" Hnojoin)
    as (_ & _ & _ & _ & [_ Hnever] & _).
  split; [vm_compute; reflexivity | apply Hnever; reflexivity].
Defined.

(** * Further properties of the routes *)

(** ** Queries *)

Lemma elem_of_List_filter {A} (f : A -> bool) (l : list A) (x : A) :
  x ∈ List.filter f l <-> x ∈ l /\ f x = true.
Proof. rewrite !list_elem_of_In. apply filter_In. Qed.

Lemma Project_find_accessible_spec (s : Store) (actor pid : string)
    (p : Project.t) :
  (pid, p) ∈ Project_find_accessible s actor
  <-> projects s !! pid = Some p /\ canAccessProject actor p = true.
Proof.
  unfold Project_find_accessible. rewrite elem_of_List_filter.
  rewrite elem_of_map_to_list. cbn [snd].
  unfold canAccessProject, isCreator, isTeamMember.
  by destruct (String.eqb _ _), (includes _ _).
Qed.

Lemma Ticket_find_project_spec (s : Store) (pid : string) (t : Ticket.t) :
  t ∈ Ticket_find_project s pid
  <-> (exists tid, tickets s !! tid = Some t) /\ Ticket.projectId t = Some pid.
Proof.
  unfold Ticket_find_project. rewrite elem_of_List_filter, list_elem_of_fmap.
  split.
  - intros [([tid t'] & -> & Hin) Hpid]. apply elem_of_map_to_list in Hin.
    split; [by exists tid |]. cbn [snd] in *.
    destruct (Ticket.projectId t') as [i |]; [| discriminate].
    apply String.eqb_eq in Hpid. by subst i.
  - intros [[tid Ht] Hpid]. split.
    + exists (tid, t). split; [reflexivity | by apply elem_of_map_to_list].
    + rewrite Hpid. apply String.eqb_refl.
Qed.

Lemma Ticket_find_in_spec (s : Store) (ids : list string) (t : Ticket.t) :
  t ∈ Ticket_find_in s ids
  <-> (exists tid, tickets s !! tid = Some t)
      /\ (exists pid, Ticket.projectId t = Some pid /\ pid ∈ ids).
Proof.
  unfold Ticket_find_in. rewrite elem_of_List_filter, list_elem_of_fmap.
  split.
  - intros [([tid t'] & -> & Hin) Hpid]. apply elem_of_map_to_list in Hin.
    split; [by exists tid |]. cbn [snd] in *.
    destruct (Ticket.projectId t') as [i |]; [| discriminate].
    exists i. split; [reflexivity | by apply includes_true].
  - intros [[tid Ht] (pid & Hpid & Hin)]. split.
    + exists (tid, t). split; [reflexivity | by apply elem_of_map_to_list].
    + rewrite Hpid. by apply includes_true.
Qed.

(** ** Projects *)

(** X1.  A project that passes the validators is stored with the actor
    as creator and as only team member, whatever [createdBy] and
    [teamMembers] the body carries.  The project list shows it to the
    actor and to nobody else, and so does the documented
    [GET /api/projects/:id] for an actor whose user exists. *)
Theorem create_project_owner (accepts : Project.t -> bool) (s : Store)
    (actor newId : string) (b : NewProjectBody)
    (Hok : accepts (Project.mk (np_title b) actor [actor]) = true) :
  let p := Project.mk (np_title b) actor [actor] in
  let s' := Project_save s newId p in
  ProjectAdminV1.createProject accepts s actor newId b = (json 201 (BProject p), s')
  /\ ProjectAdminV2.createProject accepts s actor newId b
     = (json 201 (BProject p), s')
  /\ projects s' !! newId = Some p
  /\ (newId, p) ∈ snd (ProjectAdminV2.listProjects s' actor)
  /\ (forall other, other <> actor ->
        (newId, p) ∉ snd (ProjectAdminV2.listProjects s' other))
  /\ (is_Some (User_findById s actor) ->
      ProjectsV2.getProject s' actor newId = (json 200 (BProject p), s')
      /\ (forall other, other <> actor ->
            ProjectsV2.getProject s' other newId
            = (json 403 (BMessage
                 "Access denied: You are not authorized to view this project."),
               s'))).
Proof.
  intros p s'.
  assert (Hlook : projects s' !! newId = Some p) by apply lookup_insert_eq.
  assert (Hacc : canAccessProject actor p = true).
  { apply canAccessProject_spec. by left. }
  unfold ProjectAdminV1.createProject, ProjectAdminV2.createProject,
    Project_validated_save. rewrite Hok. cbn [bind handle].
  split; [reflexivity |]. split; [reflexivity |]. split; [exact Hlook |].
  split; [by apply Project_find_accessible_spec |].
  assert (Hden : forall other, other <> actor ->
                   canAccessProject other p = false).
  { intros other Hother.
    apply not_true_iff_false. rewrite canAccessProject_spec. subst p.
    cbn [Project.createdBy Project.teamMembers].
    rewrite list_elem_of_singleton. tauto. }
  split.
  { intros other Hother. cbn [ProjectAdminV2.listProjects snd].
    rewrite Project_find_accessible_spec, (Hden _ Hother).
    intros [_ H]. discriminate. }
  intros Huser. split.
  - rewrite (getProject_populated s' actor newId p Hlook Huser Huser).
    by rewrite Hacc.
  - intros other Hother. destruct Huser as [u Hu].
    unfold ProjectsV2.getProject. rewrite Hlook. cbn [found bind].
    unfold populate at 1. change (User_findById s' (Project.createdBy p))
      with (User_findById s actor). rewrite Hu. cbn [deref bind s_id].
    rewrite (findById_id _ _ _ Hu).
    assert (String.eqb actor other = false) as ->
      by (apply String.eqb_neq; congruence).
    assert (Hmem : existsb (fun m => String.eqb (s_id m) other)
                     (omap (fun m => populate s' (Some m)) (Project.teamMembers p))
                   = false).
    { apply not_true_iff_false. rewrite populated_member. subst p.
      cbn [Project.teamMembers]. rewrite list_elem_of_singleton. tauto. }
    rewrite Hmem. reflexivity.
Qed.

Lemma create_project_owner_witness :
  exists p,
    projects (snd (ProjectAdminV2.createProject titled demo "u3" "p9"
                     (mkNewProject "Roadmap" (Some "u1") (Some ["u1"; "u2"]))))
      !! "p9" = Some p
    /\ Project.createdBy p = "u3" /\ Project.teamMembers p = ["u3"]
    /\ status (fst (ProjectsV2.getProject (Project_save demo "p9" p) "u3" "p9"))
       = 200
    /\ status (fst (ProjectsV2.getProject (Project_save demo "p9" p) "u1" "p9"))
       = 403.
Proof.
  destruct (create_project_owner titled demo "u3" "p9"
              (mkNewProject "Roadmap" (Some "u1") (Some ["u1"; "u2"])) eq_refl)
    as (_ & Hcreate & _ & _ & _ & Hread).
  destruct Hread as [Hown Hother]; [by eexists |].
  eexists. rewrite Hcreate. split; [apply lookup_insert_eq |].
  split; [reflexivity |]. split; [reflexivity |].
  split; [by rewrite Hown |]. rewrite (Hother "u1"); [reflexivity | discriminate].
Defined.

(** X2.  The project list and the documented single read agree.  In a
    store where the creator of every project and the actor are users that
    exist, [GET /api/projects] shows a project to the actor exactly when
    [GET /api/projects/:id] answers the actor with it; the list holds the
    stored projects that the actor created or is a member of, each once. *)
Theorem list_projects_agrees (s : Store) (actor pid : string) (p : Project.t)
    (Hcreators : forall q r, projects s !! q = Some r ->
                   is_Some (User_findById s (Project.createdBy r)))
    (Hactor : is_Some (User_findById s actor)) :
  ((pid, p) ∈ snd (ProjectAdminV2.listProjects s actor)
   <-> ProjectsV2.getProject s actor pid = (json 200 (BProject p), s))
  /\ ((pid, p) ∈ snd (ProjectAdminV2.listProjects s actor)
      <-> projects s !! pid = Some p
          /\ (actor = Project.createdBy p \/ actor ∈ Project.teamMembers p))
  /\ snd (ProjectAdminV1.listProjects s actor)
     = snd (ProjectAdminV2.listProjects s actor)
  /\ fst (ProjectAdminV1.listProjects s actor) = 200
  /\ NoDup (fst <$> snd (ProjectAdminV2.listProjects s actor)).
Proof.
  cbn [ProjectAdminV1.listProjects ProjectAdminV2.listProjects fst snd].
  rewrite Project_find_accessible_spec, <- canAccessProject_spec.
  split; [| split; [reflexivity | split; [reflexivity | split; [reflexivity |]]]].
  - split.
    + intros [Hp Hacc].
      rewrite (getProject_populated s actor pid p Hp (Hcreators _ _ Hp) Hactor).
      by rewrite Hacc.
    + destruct (projects s !! pid) as [q |] eqn:Hq.
      * rewrite (getProject_populated s actor pid q Hq (Hcreators _ _ Hq) Hactor).
        destruct (canAccessProject actor q) eqn:Hacc; [| discriminate].
        intros [= ->]. by split.
      * unfold ProjectsV2.getProject. rewrite Hq. simpl. discriminate.
  - unfold Project_find_accessible.
    pose proof (NoDup_fst_map_to_list (projects s)) as Hnd.
    induction (map_to_list (projects s)) as [| kp l IH]; [constructor |].
    apply NoDup_cons in Hnd as [Hnotin Hnd]. cbn [List.filter].
    destruct (_ || _); [| by apply IH].
    rewrite fmap_cons. apply NoDup_cons. split; [| by apply IH].
    intros Hin. apply Hnotin. apply list_elem_of_fmap in Hin as (y & -> & Hy).
    apply list_elem_of_fmap. exists y. split; [reflexivity |].
    apply elem_of_List_filter in Hy. tauto.
Qed.

Lemma list_projects_agrees_witness :
  ("p1", sprint) ∈ snd (ProjectAdminV2.listProjects demo "u2")
  /\ ProjectsV2.getProject demo "u2" "p1" = (json 200 (BProject sprint), demo).
Proof.
  assert (Hcreators : forall q r, projects demo !! q = Some r ->
                        is_Some (User_findById demo (Project.createdBy r))).
  { intros q r Hq. unfold demo in Hq. cbn [projects] in Hq.
    apply lookup_singleton_Some in Hq as [_ <-]. by eexists. }
  assert (Hactor : is_Some (User_findById demo "u2")) by (by eexists).
  destruct (list_projects_agrees demo "u2" "p1" sprint Hcreators Hactor)
    as (Hagree & Hlist & _).
  assert (Hin : ("p1", sprint) ∈ snd (ProjectAdminV2.listProjects demo "u2")).
  { apply Hlist. split; [reflexivity |]. right. apply includes_true. reflexivity. }
  split; [exact Hin | by apply Hagree].
Defined.

(** X3.  Only the creator updates a project; anyone else gets 403 and the
    store is not written.  The creator's body is assigned as a whole: an
    accepted body that names another [createdBy] hands the project over,
    and the former creator's next update is answered with 403. *)
Theorem update_project_owner (accepts : Project.t -> bool) (s : Store)
    (actor pid : string) (b : ProjectBody) (p : Project.t)
    (Hp : projects s !! pid = Some p) :
  (actor <> Project.createdBy p ->
     ProjectAdminV1.updateProject accepts s actor pid b
     = (json 403 (BMessage "Only project creator can update project details"), s)
     /\ ProjectAdminV2.updateProject accepts s actor pid b
        = (json 403 (BMessage
            "Access denied: Only the project creator can update project details."), s))
  /\ (actor = Project.createdBy p ->
      (accepts (Project_assign p b) = false ->
         snd (ProjectAdminV2.updateProject accepts s actor pid b) = s
         /\ status (fst (ProjectAdminV2.updateProject accepts s actor pid b)) = 400)
      /\ (accepts (Project_assign p b) = true ->
          let s' := Project_save s pid (Project_assign p b) in
          ProjectAdminV1.updateProject accepts s actor pid b
          = (json 200 (BProject (Project_assign p b)), s')
          /\ ProjectAdminV2.updateProject accepts s actor pid b
             = (json 200 (BProject (Project_assign p b)), s')
          /\ (forall other b', pb_createdBy b = Some other -> other <> actor ->
                status (fst (ProjectAdminV2.updateProject accepts s' actor pid b'))
                = 403
                /\ status (fst (ProjectsV2.removeMember s' actor pid actor)) = 403
                /\ status (fst (ProjectsV2.deleteProject s' actor pid)) = 403))).
Proof.
  unfold ProjectAdminV1.updateProject, ProjectAdminV2.updateProject,
    Project_validated_save.
  rewrite Hp. cbn [found bind]. split.
  - intros Hne. assert (String.eqb (Project.createdBy p) actor = false) as ->
      by (apply String.eqb_neq; congruence).
    by split.
  - intros ->. rewrite String.eqb_refl. cbn [negb reject_if bind]. split.
    + intros ->. by split.
    + intros ->. cbn [bind handle]. split; [reflexivity |].
      split; [reflexivity |]. intros other b' Hcb Hne.
      unfold ProjectsV2.removeMember, ProjectsV2.deleteProject.
      cbn [Project_save projects]. rewrite lookup_insert_eq. cbn [found bind].
      assert (Hq : Project.createdBy (Project_assign p b) = other)
        by (unfold Project_assign; by rewrite Hcb).
      rewrite !Hq.
      assert (String.eqb other (Project.createdBy p) = false) as ->
        by (by apply String.eqb_neq).
      by repeat split.
Qed.

Lemma update_project_owner_witness :
  status (fst (ProjectAdminV2.updateProject titled demo "u2" "p1"
                 (mkProjectBody (Some "Mine") None None))) = 403
  /\ status (fst (ProjectAdminV2.updateProject titled
                    (snd (ProjectAdminV2.updateProject titled demo "u1" "p1"
                            (mkProjectBody None (Some "u2") None)))
                    "u1" "p1" (mkProjectBody None (Some "u1") None))) = 403.
Proof.
  destruct (update_project_owner titled demo "u2" "p1"
              (mkProjectBody (Some "Mine") None None) sprint eq_refl)
    as [Hother _].
  destruct (update_project_owner titled demo "u1" "p1"
              (mkProjectBody None (Some "u2") None) sprint eq_refl)
    as [_ Howner].
  destruct (Howner eq_refl) as [_ Hok].
  destruct (Hok eq_refl) as (_ & Hupd & Hlocked).
  split.
  - destruct Hother as [_ ->]; [discriminate | reflexivity].
  - rewrite Hupd. cbn [snd].
    destruct (Hlocked "u2" (mkProjectBody None (Some "u1") None) eq_refl)
      as (H403 & _); [discriminate | exact H403].
Defined.

(** ** Team membership, composed *)

Lemma remove_last (l : list string) (x : string) :
  x ∉ l -> filter (fun member => negb (String.eqb member x)) (l ++ [x]) = l.
Proof.
  intros Hx. rewrite filter_app, (remove_absent _ _ Hx).
  rewrite filter_cons_False, filter_nil, app_nil_r; [reflexivity |].
  rewrite String.eqb_refl. simpl. tauto.
Qed.

Lemma Project_save_twice (s : Store) (pid : string) (p q : Project.t) :
  Project_save (Project_save s pid p) pid q = Project_save s pid q.
Proof. unfold Project_save. cbn [users projects tickets]. by rewrite insert_insert_eq. Qed.

Lemma set_teamMembers_same (p : Project.t) :
  set_teamMembers p (Project.teamMembers p) = p.
Proof. by destruct p. Qed.

(** X4.  Adding a user who is not on the team and removing that user
    again gives back the store the creator started from. *)
Theorem add_then_remove (s : Store) (actor pid : string) (email : option string)
    (p : Project.t) (u : User.t)
    (Hp : projects s !! pid = Some p)
    (Howner : actor = Project.createdBy p)
    (Hu : User_findOne_email s email = Some u)
    (Hnew : User._id u ∉ Project.teamMembers p)
    (Hother : User._id u <> Project.createdBy p) :
  snd (ProjectsV1.removeMember (snd (ProjectsV1.addMember s actor pid email))
         actor pid (User._id u)) = s
  /\ snd (ProjectsV2.removeMember (snd (ProjectsV2.addMember s actor pid email))
            actor pid (User._id u)) = s
  /\ status (fst (ProjectsV2.removeMember
                    (snd (ProjectsV2.addMember s actor pid email))
                    actor pid (User._id u))) = 200.
Proof.
  subst actor.
  assert (Hadd : forall m1 m2 m3 m4,
    handle 400 None s (
      project <- found (projects s !! pid) m1 ;;
      reject_if (negb (String.eqb (Project.createdBy project)
                         (Project.createdBy p))) 403 m2 ;;;
      user <- found (User_findOne_email s email) m3 ;;
      reject_if (includes (Project.teamMembers project) (User._id user)) 400 m4 ;;;
      let project' :=
        set_teamMembers project (Project.teamMembers project ++ [User._id user]) in
      Return (json 200 (BProject project'), Project_save s pid project'))
    = (json 200 (BProject (set_teamMembers p (Project.teamMembers p ++ [User._id u]))),
       Project_save s pid
         (set_teamMembers p (Project.teamMembers p ++ [User._id u])))).
  { intros. rewrite Hp. cbn [found bind]. rewrite String.eqb_refl, Hu.
    cbn [negb reject_if found bind].
    apply includes_false in Hnew. by rewrite Hnew. }
  unfold ProjectsV1.addMember, ProjectsV2.addMember. rewrite !Hadd. cbn [snd].
  unfold ProjectsV1.removeMember, ProjectsV2.removeMember.
  set (q := set_teamMembers p (Project.teamMembers p ++ [User._id u])).
  assert (Hq : projects (Project_save s pid q) !! pid = Some q)
    by apply lookup_insert_eq.
  rewrite Hq. cbn [found bind].
  change (Project.createdBy q) with (Project.createdBy p).
  change (Project.teamMembers q) with (Project.teamMembers p ++ [User._id u]).
  rewrite String.eqb_refl. cbn [negb reject_if bind].
  apply String.eqb_neq in Hother. rewrite Hother.
  cbn [reject_if bind handle snd fst].
  rewrite (remove_last _ _ Hnew).
  change (set_teamMembers q (Project.teamMembers p))
    with (set_teamMembers p (Project.teamMembers p)).
  rewrite set_teamMembers_same, Project_save_twice, (Project_save_same _ _ _ Hp).
  by repeat split.
Qed.

Lemma add_then_remove_witness :
  snd (ProjectsV2.removeMember
         (snd (ProjectsV2.addMember demo "u1" "p1" (Some "carol@devtrack.io")))
         "u1" "p1" "u3") = demo.
Proof.
  destruct (add_then_remove demo "u1" "p1" (Some "carol@devtrack.io") sprint carol
              eq_refl eq_refl eq_refl) as (_ & H & _).
  - rewrite <- includes_false. reflexivity.
  - discriminate.
  - exact H.
Defined.

(** X5.  Team membership is what opens and closes a project's tickets: a
    user outside the project is refused the ticket list, gets it once the
    creator has added them, and a member who is removed is refused again,
    for the list and for commenting. *)
Theorem membership_controls_access (s : Store) (actor pid : string)
    (p : Project.t) (Hp : projects s !! pid = Some p)
    (Howner : actor = Project.createdBy p) :
  (forall email u,
     User_findOne_email s email = Some u ->
     User._id u ∉ Project.teamMembers p ->
     User._id u <> Project.createdBy p ->
     let s1 := snd (ProjectsV2.addMember s actor pid email) in
     status (fst (TicketsV3.getProjectTickets s (User._id u) pid)) = 403
     /\ TicketsV3.getProjectTickets s1 (User._id u) pid
        = (json 200 (BTickets (Ticket_find_project s pid)), s1))
  /\ (forall m,
        m ∈ Project.teamMembers p -> m <> Project.createdBy p ->
        let s2 := snd (ProjectsV2.removeMember s actor pid m) in
        status (fst (TicketsV3.getProjectTickets s m pid)) = 200
        /\ status (fst (TicketsV3.getProjectTickets s2 m pid)) = 403
        /\ (forall tid t text now,
              tickets s !! tid = Some t -> Ticket.projectId t = Some pid ->
              status (fst (TicketsV3.addComment s2 m tid text now)) = 403
              /\ snd (TicketsV3.addComment s2 m tid text now) = s2)).
Proof.
  subst actor. split.
  - intros email u Hu Hnew Hother s1. subst s1.
    unfold ProjectsV2.addMember, TicketsV3.getProjectTickets.
    rewrite Hp. cbn [found bind]. rewrite String.eqb_refl, Hu.
    cbn [negb reject_if found bind].
    pose proof Hnew as Hinc. apply includes_false in Hinc. rewrite Hinc.
    cbn [reject_if bind handle snd fst Project_save projects].
    rewrite lookup_insert_eq. cbn [found bind].
    cbn [set_teamMembers Project.createdBy Project.teamMembers].
    assert (String.eqb (Project.createdBy p) (User._id u) = false) as ->
      by (apply String.eqb_neq; congruence).
    rewrite ?Hinc.
    assert (includes (Project.teamMembers p ++ [User._id u]) (User._id u) = true)
      as ->.
    { apply includes_true, elem_of_app. right. by apply list_elem_of_singleton. }
    by split.
  - intros m Hm Hne s2. subst s2.
    unfold ProjectsV2.removeMember, TicketsV3.getProjectTickets,
      TicketsV3.addComment, Ticket_findById.
    rewrite Hp. cbn [found bind]. rewrite String.eqb_refl.
    cbn [negb reject_if bind].
    assert (String.eqb m (Project.createdBy p) = false) as Hmc
      by (by apply String.eqb_neq).
    rewrite Hmc. cbn [reject_if bind handle snd fst Project_save projects tickets].
    rewrite lookup_insert_eq. cbn [found bind].
    cbn [set_teamMembers Project.createdBy Project.teamMembers].
    rewrite String.eqb_sym in Hmc. rewrite Hmc.
    apply includes_true in Hm. rewrite Hm.
    assert (includes (filter (fun member => negb (String.eqb member m))
                        (Project.teamMembers p)) m = false) as Hgone.
    { apply includes_false. rewrite remove_elem_of. tauto. }
    rewrite Hgone. split; [reflexivity |]. split; [reflexivity |].
    intros tid t text now Ht Htp. rewrite Ht. cbn [found bind].
    rewrite Htp. cbn [Project_findById projects Project_save].
    rewrite ?lookup_insert_eq.
    cbn [found bind set_teamMembers Project.createdBy Project.teamMembers].
    rewrite ?Hmc, ?Hgone. by split.
Qed.

Lemma membership_controls_access_witness :
  status (fst (TicketsV3.getProjectTickets demo "u3" "p1")) = 403
  /\ status (fst (TicketsV3.getProjectTickets
                    (snd (ProjectsV2.addMember demo "u1" "p1"
                            (Some "carol@devtrack.io"))) "u3" "p1")) = 200
  /\ status (fst (TicketsV3.getProjectTickets
                    (snd (ProjectsV2.removeMember demo "u1" "p1" "u2"))
                    "u2" "p1")) = 403.
Proof.
  destruct (membership_controls_access demo "u1" "p1" sprint eq_refl eq_refl)
    as [Hadd Hrem].
  destruct (Hadd (Some "carol@devtrack.io") carol eq_refl) as [Hbefore Hafter].
  - rewrite <- includes_false. reflexivity.
  - discriminate.
  - destruct (Hrem "u2") as (_ & Hgone & _).
    + apply includes_true. reflexivity.
    + discriminate.
    + split; [exact Hbefore |].
      split; [exact (f_equal (fun r => status (fst r)) Hafter) | exact Hgone].
Defined.

(** ** Ticket lists *)

(** X6.  [GET /api/tickets] answers 200 with exactly the stored tickets
    whose project is stored and has the actor as creator or team member,
    and does not write. *)
Theorem list_tickets_accessible (s : Store) (actor : string) :
  exists ts,
    TicketListV3.listTickets s actor = (json 200 (BTickets ts), s)
    /\ TicketListV2.listTickets s actor = (json 200 (BTickets ts), s)
    /\ forall t,
         t ∈ ts
         <-> exists tid pid p,
               tickets s !! tid = Some t
               /\ Ticket.projectId t = Some pid
               /\ projects s !! pid = Some p
               /\ (actor = Project.createdBy p \/ actor ∈ Project.teamMembers p).
Proof.
  eexists. split; [reflexivity |]. split; [reflexivity |].
  intros t. rewrite Ticket_find_in_spec. split.
  - intros [[tid Ht] (pid & Hpid & Hin)].
    apply list_elem_of_fmap in Hin as ([pid' p] & -> & Hin).
    apply Project_find_accessible_spec in Hin as [Hp Hacc].
    exists tid, pid', p. by rewrite <- canAccessProject_spec.
  - intros (tid & pid & p & Ht & Hpid & Hp & Hacc).
    split; [by exists tid |]. exists pid. split; [exact Hpid |].
    apply list_elem_of_fmap. exists (pid, p). split; [reflexivity |].
    apply Project_find_accessible_spec. by rewrite canAccessProject_spec.
Qed.

(** X7.  For an actor with access, [GET /api/tickets/project/:projectId]
    lists exactly the stored tickets of that project, and each of them is
    also in the actor's [GET /api/tickets]. *)
Theorem project_tickets_listed (s : Store) (actor pid : string) (p : Project.t)
    (Hp : projects s !! pid = Some p)
    (Hacc : canAccessProject actor p = true) :
  TicketsV3.getProjectTickets s actor pid
  = (json 200 (BTickets (Ticket_find_project s pid)), s)
  /\ (forall t,
        t ∈ Ticket_find_project s pid
        <-> (exists tid, tickets s !! tid = Some t)
            /\ Ticket.projectId t = Some pid)
  /\ (forall t,
        t ∈ Ticket_find_project s pid ->
        t ∈ Ticket_find_in s (fst <$> Project_find_accessible s actor)).
Proof.
  split; [| split].
  - unfold TicketsV3.getProjectTickets. rewrite Hp. cbn [found bind].
    by rewrite access_guard', Hacc.
  - intros t. apply Ticket_find_project_spec.
  - intros t. rewrite Ticket_find_project_spec, Ticket_find_in_spec.
    intros [Hex Hpid]. split; [exact Hex |]. exists pid. split; [exact Hpid |].
    apply list_elem_of_fmap. exists (pid, p). split; [reflexivity |].
    by apply Project_find_accessible_spec.
Qed.

Lemma project_tickets_listed_witness :
  TicketsV3.getProjectTickets demo "u2" "p1" = (json 200 (BTickets [login_bug]), demo)
  /\ login_bug ∈ Ticket_find_in demo (fst <$> Project_find_accessible demo "u2").
Proof.
  destruct (project_tickets_listed demo "u2" "p1" sprint eq_refl eq_refl)
    as (Hget & _ & Hin).
  split; [exact Hget |]. apply Hin. apply list_elem_of_In. left. reflexivity.
Defined.

(** ** Effects of the ticket routes *)

Lemma may_effect_bind {A} (s : Store) (m : Outcome A)
    (k : A -> Outcome (Response * Store)) :
  (forall a, may_effect s (k a)) -> may_effect s (bind m k).
Proof. intros H. destruct m; simpl; auto. Qed.

Lemma may_effect_handle (s : Store) (code : Z) (generic : option string)
    (m : Outcome (Response * Store)) :
  may_effect s m -> TicketEffect s (snd (handle code generic s m)).
Proof. destruct m; simpl; auto using effect_none. Qed.

Lemma may_effect_save (s : Store) (tid : string) (t : Ticket.t) (now : Z)
    (k : Ticket.t * Store -> Outcome (Response * Store)) :
  (forall r, snd r = written s tid (set_updatedAt t now) ->
             Ticket_valid t = true -> may_effect s (k r)) ->
  may_effect s (bind (Ticket_save s tid t now) k).
Proof.
  intros H. unfold Ticket_save. destruct (Ticket_valid t) eqn:Hv; simpl; auto.
Qed.

Ltac effect_steps :=
  repeat first
    [ apply may_effect_save; intros [? ?] ? ?; simpl in *; subst
    | apply may_effect_bind; intros ? ].

Lemma TicketEffect_frame (s s' : Store) :
  TicketEffect s s' -> users s' = users s /\ projects s' = projects s.
Proof. by intros [| tid t Hv | tid]. Qed.

Lemma TicketEffect_valid (s s' : Store) :
  TicketEffect s s' -> store_valid s -> store_valid s'.
Proof.
  intros [| tid t Hv | tid] Hs; [exact Hs | |]; intros tid' t'; simpl.
  - destruct (decide (tid = tid')) as [-> | Hne].
    + rewrite lookup_insert_eq. by intros [= <-].
    + rewrite lookup_insert_ne by done. apply Hs.
  - intros H. apply lookup_delete_Some in H as [_ H]. by apply (Hs tid').
Qed.

Lemma effect_createTicket (s : Store) (actor newId : string) (b : TicketBody)
    (now : Z) :
  TicketEffect s (snd (TicketsV3.createTicket s actor newId b now))
  /\ TicketEffect s (snd (TicketsV2.createTicket s actor newId b now))
  /\ TicketEffect s (snd (TicketsV1.createTicket s actor newId b now)).
Proof.
  repeat split; apply may_effect_handle; effect_steps;
    by apply effect_write.
Qed.

Lemma effect_updateTicket (s : Store) (actor tid : string) (b : TicketBody)
    (now : Z) :
  TicketEffect s (snd (TicketsV3.updateTicket s actor tid b now))
  /\ TicketEffect s (snd (TicketsV2.updateTicket s actor tid b now))
  /\ TicketEffect s (snd (TicketsV1.updateTicket s actor tid b now)).
Proof.
  repeat split; apply may_effect_handle; effect_steps;
    by apply effect_write.
Qed.

Lemma effect_deleteTicket (s : Store) (actor tid : string) :
  TicketEffect s (snd (TicketsV3.deleteTicket s actor tid))
  /\ TicketEffect s (snd (TicketsV2.deleteTicket s actor tid))
  /\ TicketEffect s (snd (TicketsV1.deleteTicket s actor tid)).
Proof.
  repeat split; apply may_effect_handle; effect_steps; apply effect_delete.
Qed.

Lemma effect_addComment (s : Store) (actor tid : string) (text : option string)
    (now : Z) :
  TicketEffect s (snd (TicketsV3.addComment s actor tid text now))
  /\ TicketEffect s (snd (TicketsV2.addComment s actor tid text now)).
Proof.
  repeat split; apply may_effect_handle; effect_steps;
    by apply effect_write.
Qed.

Lemma effect_assignTicket (s : Store) (actor tid : string)
    (assigneeId : option string) (now : Z) :
  TicketEffect s (snd (AssignV2.assignTicket s actor tid assigneeId now))
  /\ TicketEffect s (snd (AssignV1.assignTicket s actor tid assigneeId now)).
Proof.
  repeat split; apply may_effect_handle; effect_steps;
    by apply effect_write.
Qed.

(** X8.  The schema is an invariant of the ticket routes: if every
    stored ticket passes the validators, so does every stored ticket after
    any create, update, assign, comment or delete request, whatever it is
    answered with. *)
Theorem ticket_routes_keep_schema (s : Store) (Hs : store_valid s)
    (actor tid : string) (b : TicketBody) (text assigneeId : option string)
    (now : Z) :
  store_valid (snd (TicketsV3.createTicket s actor tid b now))
  /\ store_valid (snd (TicketsV2.createTicket s actor tid b now))
  /\ store_valid (snd (TicketsV1.createTicket s actor tid b now))
  /\ store_valid (snd (TicketsV3.updateTicket s actor tid b now))
  /\ store_valid (snd (TicketsV2.updateTicket s actor tid b now))
  /\ store_valid (snd (TicketsV1.updateTicket s actor tid b now))
  /\ store_valid (snd (AssignV2.assignTicket s actor tid assigneeId now))
  /\ store_valid (snd (AssignV1.assignTicket s actor tid assigneeId now))
  /\ store_valid (snd (TicketsV3.addComment s actor tid text now))
  /\ store_valid (snd (TicketsV2.addComment s actor tid text now))
  /\ store_valid (snd (TicketsV3.deleteTicket s actor tid))
  /\ store_valid (snd (TicketsV2.deleteTicket s actor tid))
  /\ store_valid (snd (TicketsV1.deleteTicket s actor tid)).
Proof.
  destruct (effect_createTicket s actor tid b now) as (? & ? & ?).
  destruct (effect_updateTicket s actor tid b now) as (? & ? & ?).
  destruct (effect_assignTicket s actor tid assigneeId now) as (? & ?).
  destruct (effect_addComment s actor tid text now) as (? & ?).
  destruct (effect_deleteTicket s actor tid) as (? & ? & ?).
  repeat split; eapply TicketEffect_valid; eauto.
Qed.

Lemma ticket_routes_keep_schema_witness :
  store_valid (snd (TicketsV3.updateTicket demo "u1" "t1"
                      (mkBody None None None (Some "Urgent") None None None
                         None None None) 300))
  /\ snd (TicketsV3.updateTicket demo "u1" "t1"
            (mkBody None None None (Some "Urgent") None None None
               None None None) 300) = demo.
Proof.
  assert (Hdemo : store_valid demo).
  { intros tid t Ht. unfold demo in Ht. cbn [tickets] in Ht.
    apply lookup_singleton_Some in Ht as [_ <-]. reflexivity. }
  destruct (ticket_routes_keep_schema demo Hdemo "u1" "t1"
              (mkBody None None None (Some "Urgent") None None None
                 None None None) None None 300)
    as (_ & _ & _ & Hupd & _).
  split; [exact Hupd | reflexivity].
Defined.

Lemma project_routes_frame (accepts : Project.t -> bool) (s : Store)
    (actor id other : string) (pb : ProjectBody) (nb : NewProjectBody)
    (v : option string) :
  let untouched (s' : Store) := users s' = users s /\ tickets s' = tickets s in
  untouched (snd (ProjectAdminV2.createProject accepts s actor id nb))
  /\ untouched (snd (ProjectAdminV2.updateProject accepts s actor id pb))
  /\ untouched (snd (ProjectsV2.addMember s actor id v))
  /\ untouched (snd (ProjectsV2.removeMember s actor id other))
  /\ untouched (snd (ProjectsV2.deleteProject s actor id)).
Proof.
  intros untouched. subst untouched.
  unfold ProjectAdminV2.createProject, ProjectAdminV2.updateProject,
    ProjectsV2.addMember, ProjectsV2.removeMember, ProjectsV2.deleteProject,
    Project_validated_save.
  split; [by destruct (accepts _) |].
  destruct (projects s !! id) as [p |]; simpl; [| by repeat split].
  destruct (String.eqb (Project.createdBy p) actor); simpl; [| by repeat split].
  split; [by destruct (accepts _) |].
  split; [| split; [| by split]].
  - destruct (User_findOne_email s v) as [u |]; simpl; [| by split].
    by destruct (includes _ _).
  - by destruct (String.eqb other _).
Qed.

(** X9.  The routes keep to their own collection.  No ticket route
    writes a user or a project; no project route writes a user or a
    ticket, so removing a member or deleting a project leaves the tickets,
    their assignees and their reporters as they were. *)
Theorem routes_keep_to_their_collection (accepts : Project.t -> bool)
    (s : Store) (actor id other : string) (b : TicketBody) (pb : ProjectBody)
    (nb : NewProjectBody) (text v : option string) (now : Z) :
  let untouched_by_tickets (s' : Store) :=
    users s' = users s /\ projects s' = projects s in
  let untouched_by_projects (s' : Store) :=
    users s' = users s /\ tickets s' = tickets s in
  untouched_by_tickets (snd (TicketsV3.createTicket s actor id b now))
  /\ untouched_by_tickets (snd (TicketsV1.createTicket s actor id b now))
  /\ untouched_by_tickets (snd (TicketsV3.updateTicket s actor id b now))
  /\ untouched_by_tickets (snd (TicketsV1.updateTicket s actor id b now))
  /\ untouched_by_tickets (snd (AssignV2.assignTicket s actor id v now))
  /\ untouched_by_tickets (snd (TicketsV3.addComment s actor id text now))
  /\ untouched_by_tickets (snd (TicketsV3.deleteTicket s actor id))
  /\ untouched_by_projects (snd (ProjectAdminV2.createProject accepts s actor id nb))
  /\ untouched_by_projects (snd (ProjectAdminV2.updateProject accepts s actor id pb))
  /\ untouched_by_projects (snd (ProjectsV2.addMember s actor id v))
  /\ untouched_by_projects (snd (ProjectsV2.removeMember s actor id other))
  /\ untouched_by_projects (snd (ProjectsV2.deleteProject s actor id)).
Proof.
  intros untouched_by_tickets untouched_by_projects.
  destruct (effect_createTicket s actor id b now) as (? & _ & ?).
  destruct (effect_updateTicket s actor id b now) as (? & _ & ?).
  destruct (effect_assignTicket s actor id v now) as (? & _).
  destruct (effect_addComment s actor id text now) as (? & _).
  destruct (effect_deleteTicket s actor id) as (? & _ & _).
  do 7 (split; [by apply TicketEffect_frame |]).
  apply (project_routes_frame accepts s actor id other pb nb v).
Qed.

(** ** Creating and reading a ticket *)

Lemma canAccess_principal (actor : string) (p : Project.t) :
  canAccessProject actor p = isValidProjectPrincipal actor p.
Proof.
  unfold canAccessProject, isValidProjectPrincipal, isCreator, isTeamMember.
  by destruct (String.eqb _ _), (includes _ _).
Qed.

(** X10.  A ticket filed with a title, a description and a project only,
    by an actor of that project who is a known user, is stored with
    priority Medium, status To Do, type Task, no tags, no assignee, the
    actor as reporter and creator, an empty comment log and both time
    stamps at the clock reading; reading it back returns that ticket. *)
Theorem create_then_get (s : Store) (actor newId pid title description : string)
    (now : Z) (p : Project.t) (ua : User.t)
    (Hp : projects s !! pid = Some p)
    (Hacc : canAccessProject actor p = true)
    (Hua : User_findById s actor = Some ua)
    (Hactor : actor <> "") (Hpid : pid <> "")
    (Htitle : trim title <> "") (Hdesc : description <> "") :
  let b := mkBody (Some pid) (Some title) (Some description) None None None
             None None None None in
  let t := Ticket.mk (Some (trim title)) (Some description) "Medium" "To Do"
             "Task" [] None (Some actor) (Some pid) (Some actor) [] now now in
  TicketsV3.createTicket s actor newId b now
  = (json 201 (BTicket t), written s newId t)
  /\ TicketsV2.createTicket s actor newId b now
     = (json 201 (BTicket t), written s newId t)
  /\ TicketsV3.getTicket (written s newId t) actor newId
     = (json 200 (BTicket t), written s newId t)
  /\ t ∈ Ticket_find_project (written s newId t) pid.
Proof.
  intros b t.
  assert (Hcheck : forall m1 m2, checkPrincipal s p actor m1 m2 = Return tt).
  { intros. rewrite checkPrincipal_fault. unfold principal_fault.
    by rewrite Hua, <- canAccess_principal, Hacc. }
  assert (Hvalid : Ticket_valid t = true).
  { unfold Ticket_valid, required, truthy, castable. subst t.
    cbn [Ticket.title Ticket.description Ticket.priority Ticket.status
         Ticket.type Ticket.assignee Ticket.reporter Ticket.projectId
         Ticket.createdBy Ticket.comments forallb].
    apply String.eqb_neq in Hactor, Hpid, Htitle, Hdesc.
    by rewrite Hactor, Hpid, Htitle, Hdesc. }
  assert (Hcreate : forall m1 m2 m3 m4 m5 m6 g,
    handle 400 None s (
      project <- found (Project_findById s (b_projectId b)) m1 ;;
      reject_if (g project) 403 m2 ;;;
      checkIfGiven s project (or_null (b_assignee b)) m3 m4 ;;;
      checkPrincipal s project (or_else (b_reporter b) actor) m5 m6 ;;;
      r <- Ticket_save s newId
             (Ticket_new (with_principals b (or_null (b_assignee b))
                            (Some (or_else (b_reporter b) actor)) (Some actor))
                         now) now ;;
      Return (json 201 (BTicket (fst r)), snd r))
    = if g p then (json 403 (BMessage m2), s)
      else (json 201 (BTicket t), written s newId t)).
  { intros. subst b. unfold mkBody. cbn [b_projectId Project_findById].
    rewrite Hp.
    cbn [found bind b_assignee b_reporter or_null or_else checkIfGiven].
    destruct (g p); [reflexivity |]. cbn [reject_if bind]. rewrite Hcheck.
    cbn [bind]. unfold Ticket_save.
    change (Ticket_new _ now) with t. by rewrite Hvalid. }
  split; [| split; [| split]].
  - unfold TicketsV3.createTicket.
    rewrite (Hcreate _ _ _ _ _ _
               (fun project => negb (String.eqb (Project.createdBy project) actor)
                               && negb (includes (Project.teamMembers project) actor))).
    by rewrite access_guard', Hacc.
  - unfold TicketsV2.createTicket.
    rewrite (Hcreate _ _ _ _ _ _
               (fun project => negb (includes (Project.teamMembers project) actor)
                               && negb (String.eqb (Project.createdBy project) actor))).
    by rewrite access_guard, Hacc.
  - unfold TicketsV3.getTicket, Ticket_findById, written. cbn [tickets projects].
    rewrite lookup_insert_eq. cbn [found bind].
    change (Ticket.projectId t) with (Some pid). cbn [Project_findById projects].
    rewrite Hp. cbn [deref bind]. by rewrite access_guard', Hacc.
  - apply Ticket_find_project_spec. split; [| reflexivity].
    exists newId. apply lookup_insert_eq.
Qed.

Lemma create_then_get_witness :
  exists t,
    TicketsV3.getTicket
      (snd (TicketsV3.createTicket demo "u2" "t7"
              (mkBody (Some "p1") (Some " Dark mode ") (Some "Please") None None
                 None None None None None) 400)) "u2" "t7"
    = (json 200 (BTicket t), written demo "t7" t)
    /\ Ticket.priority t = "Medium" /\ Ticket.status t = "To Do"
    /\ Ticket.type t = "Task" /\ Ticket.title t = Some "Dark mode".
Proof.
  destruct (create_then_get demo "u2" "t7" "p1" " Dark mode " "Please" 400
              sprint bob eq_refl eq_refl eq_refl)
    as (Hcreate & _ & Hget & _); try discriminate.
  eexists. rewrite Hcreate. cbn [snd]. split; [exact Hget |].
  repeat split.
Defined.

Lemma first_fault_None (s : Store) (p : Project.t) (a : option string)
    (r : string) :
  first_fault s p a (Some r) = None ->
  principal_fault s p r = None
  /\ (forall x, a = Some x -> principal_fault s p x = None).
Proof.
  unfold first_fault. destruct a as [x |]; simpl.
  - destruct (principal_fault s p x) eqn:Hx; [discriminate |].
    intros Hr. split; [exact Hr |]. by intros ? [= <-].
  - intros Hr. split; [exact Hr | discriminate].
Qed.

(** What a 201 of the guarded create routes says about the stored
    ticket. *)
Lemma created_sound (s : Store) (actor newId : string) (b : TicketBody)
    (now : Z) (m1 m2 m3 m4 m5 m6 : string) (g : Project.t -> bool) :
  (forall p, g p = negb (canAccessProject actor p)) ->
  let reply :=
    handle 400 None s (
      project <- found (Project_findById s (b_projectId b)) m1 ;;
      reject_if (g project) 403 m2 ;;;
      checkIfGiven s project (or_null (b_assignee b)) m3 m4 ;;;
      checkPrincipal s project (or_else (b_reporter b) actor) m5 m6 ;;;
      r <- Ticket_save s newId
             (Ticket_new (with_principals b (or_null (b_assignee b))
                            (Some (or_else (b_reporter b) actor)) (Some actor))
                         now) now ;;
      Return (json 201 (BTicket (fst r)), snd r)) in
  status (fst reply) = 201 ->
  exists pid p t,
    b_projectId b = Some pid
    /\ projects s !! pid = Some p
    /\ canAccessProject actor p = true
    /\ snd reply = written s newId t
    /\ Ticket_valid t = true
    /\ Ticket.projectId t = Some pid
    /\ Ticket.createdBy t = Some actor
    /\ (exists r, Ticket.reporter t = Some r
                  /\ principal_fault s p r = None)
    /\ (forall a, Ticket.assignee t = Some a -> principal_fault s p a = None).
Proof.
  intros Hg reply. subst reply.
  destruct (b_projectId b) as [pid |] eqn:Hb; cbn [Project_findById];
    [| simpl; discriminate].
  destruct (projects s !! pid) as [p |] eqn:Hp; cbn [found bind];
    [| simpl; discriminate].
  rewrite Hg. destruct (canAccessProject actor p) eqn:Hacc;
    cbn [negb reject_if bind]; [| simpl; discriminate].
  rewrite create_guards_fault.
  destruct (first_fault s p (or_null (b_assignee b))
              (Some (or_else (b_reporter b) actor))) as [code |] eqn:Hfault.
  - apply first_fault_codes in Hfault. simpl. intros ->.
    destruct Hfault; discriminate.
  - apply first_fault_None in Hfault as [Hr Ha].
    match goal with
    | |- context [Ticket_save s newId ?t now] =>
        destruct (Ticket_save_cases s newId t now) as [[Hv ->] | [_ ->]]
    end; [| simpl; discriminate].
    intros _. cbn [bind handle snd fst].
    eexists pid, p, _. repeat split; eauto.
Qed.

(** X11.  A ticket that the guarded create routes answer with 201 is
    stored under the new identifier, passes the validators, belongs to a
    stored project the actor may access, has the actor as creator, and
    its reporter and assignee (if any) are known users who are creator or
    team member of that project. *)
Theorem created_ticket_principals (s : Store) (actor newId : string)
    (b : TicketBody) (now : Z)
    (H201 : status (fst (TicketsV3.createTicket s actor newId b now)) = 201) :
  exists pid p t,
    b_projectId b = Some pid
    /\ projects s !! pid = Some p
    /\ (actor = Project.createdBy p \/ actor ∈ Project.teamMembers p)
    /\ TicketsV3.createTicket s actor newId b now
       = (json 201 (BTicket t), written s newId t)
    /\ TicketsV2.createTicket s actor newId b now
       = (json 201 (BTicket t), written s newId t)
    /\ Ticket_valid t = true
    /\ Ticket.projectId t = Some pid
    /\ Ticket.createdBy t = Some actor
    /\ (exists r, Ticket.reporter t = Some r
                  /\ is_Some (User_findById s r)
                  /\ (r = Project.createdBy p \/ r ∈ Project.teamMembers p))
    /\ (forall a, Ticket.assignee t = Some a ->
                  is_Some (User_findById s a)
                  /\ (a = Project.createdBy p \/ a ∈ Project.teamMembers p)).
Proof.
  pose proof (created_sound s actor newId b now
    "Project not found for this ticket."
    "Access denied: You are not authorized to create tickets in this project."
    "Assignee user not found." "Assignee must be a member of the project team."
    "Reporter user not found." "Reporter must be a member of the project team."
    (fun project => negb (String.eqb (Project.createdBy project) actor)
                    && negb (includes (Project.teamMembers project) actor))
    (access_guard' actor)) as Hsound.
  cbv zeta in Hsound. specialize (Hsound H201).
  destruct Hsound as (pid & p & t & Hb & Hp & Hacc & Hs' & Hv & Htp & Hc & Hr & Ha).
  exists pid, p, t.
  assert (Hsave : Ticket_save s newId
            (Ticket_new (with_principals b (or_null (b_assignee b))
                           (Some (or_else (b_reporter b) actor)) (Some actor))
                        now) now
          = Return (t, written s newId t)
          /\ first_fault s p (or_null (b_assignee b))
               (Some (or_else (b_reporter b) actor)) = None).
  { revert H201 Hs'. unfold TicketsV3.createTicket.
    rewrite Hb. cbn [Project_findById]. rewrite Hp. cbn [found bind].
    rewrite access_guard', Hacc. cbn [negb reject_if bind].
    rewrite create_guards_fault.
    destruct (first_fault s p (or_null (b_assignee b))
                (Some (or_else (b_reporter b) actor))) as [code |] eqn:Hfault.
    - apply first_fault_codes in Hfault. simpl. intros ->.
      destruct Hfault; discriminate.
    - match goal with
      | |- context [Ticket_save s newId ?t0 now] =>
          destruct (Ticket_save_cases s newId t0 now) as [[Hv0 Hsv] | [_ Hsv]]
      end; rewrite Hsv; [| simpl; discriminate].
      cbn [bind handle snd fst]. intros _ Heq. split; [| reflexivity].
      unfold written in Heq. injection Heq as Heq.
      apply (f_equal (fun m => m !! newId)) in Heq.
      rewrite !lookup_insert_eq in Heq. by injection Heq as ->. }
  destruct Hsave as [Hsave Hfault].
  split; [exact Hb |]. split; [exact Hp |].
  split; [by apply canAccessProject_spec |].
  split; [| split].
  - unfold TicketsV3.createTicket.
    rewrite Hb. cbn [Project_findById]. rewrite Hp. cbn [found bind].
    rewrite access_guard', Hacc. cbn [negb reject_if bind].
    by rewrite create_guards_fault, Hfault, Hsave.
  - unfold TicketsV2.createTicket.
    rewrite Hb. cbn [Project_findById]. rewrite Hp. cbn [found bind].
    rewrite access_guard, Hacc. cbn [negb reject_if bind].
    by rewrite create_guards_fault, Hfault, Hsave.
  - split; [exact Hv |]. split; [exact Htp |]. split; [exact Hc |]. split.
    + destruct Hr as (r & Hr & Hok). exists r. split; [exact Hr |].
      by apply principal_fault_spec.
    + intros a Hassignee. by apply principal_fault_spec, Ha.
Qed.

Lemma created_ticket_principals_witness :
  exists t,
    tickets (snd (TicketsV3.createTicket demo "u2" "t2"
                    (report_body (Some "u1") None) 300)) !! "t2" = Some t
    /\ Ticket.reporter t = Some "u2" /\ Ticket.assignee t = Some "u1".
Proof.
  destruct (created_ticket_principals demo "u2" "t2"
              (report_body (Some "u1") None) 300 eq_refl)
    as (pid & p & t & _ & _ & _ & Hcreate & _).
  eexists. split; [vm_compute; reflexivity | split; reflexivity].
Defined.

(** ** Deleting, assigning, commenting *)

(** X12.  Once a ticket is deleted, every route on its identifier answers
    404 and writes nothing: reading, updating, commenting and a second
    delete.  The other tickets are not touched. *)
Theorem deleted_ticket_gone (s : Store) (actor tid : string) (t : Ticket.t)
    (pid c : string) (p : Project.t)
    (Ht : tickets s !! tid = Some t)
    (Htp : Ticket.projectId t = Some pid)
    (Hp : projects s !! pid = Some p)
    (Hc : Ticket.createdBy t = Some c)
    (Hdel : canDeleteTicket actor p t = true) :
  let s' := snd (TicketsV3.deleteTicket s actor tid) in
  s' = Ticket_deleteOne s tid
  /\ (forall tid', tid' <> tid -> tickets s' !! tid' = tickets s !! tid')
  /\ (forall anyone b text now,
        TicketsV3.getTicket s' anyone tid
        = (json 404 (BMessage "Ticket not found."), s')
        /\ TicketsV3.updateTicket s' anyone tid b now
           = (json 404 (BMessage "Ticket not found."), s')
        /\ TicketsV3.addComment s' anyone tid text now
           = (json 404 (BMessage "Ticket not found."), s')
        /\ TicketsV3.deleteTicket s' anyone tid
           = (json 404 (BMessage "Ticket not found."), s')).
Proof.
  intros s'.
  assert (Hs' : s' = Ticket_deleteOne s tid).
  { subst s'. unfold TicketsV3.deleteTicket, Ticket_findById.
    rewrite Ht. cbn [found bind]. rewrite Htp. cbn [Project_findById].
    rewrite Hp, Hc. cbn [found deref bind].
    by rewrite (delete_guard _ _ _ _ Hc), Hdel. }
  split; [exact Hs' |]. rewrite Hs'. split.
  - intros tid' Hne. cbn [Ticket_deleteOne tickets]. by rewrite lookup_delete_ne.
  - intros anyone b text now.
    unfold TicketsV3.getTicket, TicketsV3.updateTicket, TicketsV3.addComment,
      TicketsV3.deleteTicket, Ticket_findById.
    cbn [Ticket_deleteOne tickets]. rewrite lookup_delete_eq. by repeat split.
Qed.

Lemma deleted_ticket_gone_witness :
  status (fst (TicketsV3.getTicket (snd (TicketsV3.deleteTicket demo "u3" "t1"))
                 "u1" "t1")) = 404.
Proof.
  destruct (deleted_ticket_gone demo "u3" "t1" login_bug "p1" "u3" sprint
              eq_refl eq_refl eq_refl eq_refl eq_refl) as (_ & _ & Hgone).
  destruct (Hgone "u1" empty_body None 0) as (-> & _). reflexivity.
Defined.




(** X14.  A comment request is refused without a write when the actor is
    not creator or member of the ticket's project (403, also for the
    ticket's own creator) and when the text is missing or empty (400). *)
Theorem comment_refused (s : Store) (actor tid : string) (text : option string)
    (now : Z) (t : Ticket.t) (pid : string) (p : Project.t)
    (Ht : tickets s !! tid = Some t)
    (Htp : Ticket.projectId t = Some pid)
    (Hp : projects s !! pid = Some p) :
  (canAccessProject actor p = false ->
     TicketsV3.addComment s actor tid text now
     = (json 403 (BMessage
         "Access denied: You are not authorized to comment on this ticket."), s)
     /\ TicketsV2.addComment s actor tid text now
        = (json 403 (BMessage "Access denied: Not a member of this project."), s))
  /\ (canAccessProject actor p = true -> text = None \/ text = Some "" ->
        TicketsV3.addComment s actor tid text now
        = (json 400 (BMessage "Ticket validation failed"), s)
        /\ TicketsV2.addComment s actor tid text now
           = (json 400 (BMessage "Ticket validation failed"), s)).
Proof.
  unfold TicketsV3.addComment, TicketsV2.addComment, Ticket_findById.
  rewrite Ht. cbn [found bind]. rewrite Htp. cbn [Project_findById].
  rewrite Hp. cbn [found deref bind]. rewrite access_guard, access_guard'.
  split; intros ->; cbn [negb reject_if bind]; [by split |].
  intros Htext. unfold Ticket_save. rewrite Ticket_valid_snoc.
  assert (Comment_valid (Comment.mk (Some actor) text now) = false) as ->.
  { unfold Comment_valid, required, truthy. cbn [Comment.author Comment.text].
    destruct Htext as [-> | ->]; apply andb_false_r. }
  rewrite andb_false_r. by split.
Qed.

Lemma comment_refused_witness :
  TicketsV3.addComment demo "u3" "t1" (Some "Any news?") 600
  = (json 403 (BMessage
      "Access denied: You are not authorized to comment on this ticket."), demo)
  /\ TicketsV3.addComment demo "u2" "t1" (Some "") 600
     = (json 400 (BMessage "Ticket validation failed"), demo).
Proof.
  pose proof (fun actor text => comment_refused demo actor "t1" text 600
                login_bug "p1" sprint eq_refl eq_refl eq_refl) as H.
  destruct (H "u3" (Some "Any news?")) as [Hdenied _].
  destruct (H "u2" (Some "")) as [_ Hempty].
  split; [apply Hdenied; reflexivity | apply Hempty; auto].
Defined.

(** ** Validation on update *)

Lemma update_tail_valid (s : Store) (p : Project.t) (t : Ticket.t)
    (tid : string) (b : TicketBody) (now : Z) (a1 a2 r1 r2 : string) :
  status (fst (handle 400 None s (
    checkIfGiven s p (b_assignee b) a1 a2 ;;;
    checkIfGiven s p (b_reporter b) r1 r2 ;;;
    r <- Ticket_save s tid (Ticket_assign t b now) now ;;
    Return (json 200 (BTicket (fst r)), snd r)))) = 200 ->
  Ticket_valid (Ticket_assign t b now) = true.
Proof.
  destruct (checkIfGiven_cases s p (b_assignee b) a1 a2) as [-> | [-> | ->]];
    simpl; try discriminate.
  destruct (checkIfGiven_cases s p (b_reporter b) r1 r2) as [-> | [-> | ->]];
    simpl; try discriminate.
  destruct (Ticket_save_cases s tid (Ticket_assign t b now) now)
    as [[Hv ->] | [_ ->]]; simpl; [done | discriminate].
Qed.

Lemma update_200_valid (s : Store) (actor tid : string) (b : TicketBody)
    (now : Z) (t : Ticket.t) :
  tickets s !! tid = Some t ->
  (status (fst (TicketsV3.updateTicket s actor tid b now)) = 200
   \/ status (fst (TicketsV2.updateTicket s actor tid b now)) = 200
   \/ status (fst (TicketsV1.updateTicket s actor tid b now)) = 200) ->
  Ticket_valid (Ticket_assign t b now) = true.
Proof.
  intros Ht.
  unfold TicketsV3.updateTicket, TicketsV2.updateTicket, TicketsV1.updateTicket,
    Ticket_findById.
  rewrite Ht. cbn [found bind].
  destruct (Project_findById s (Ticket.projectId t)) as [p |];
    cbn [found deref bind]; [| simpl; intros [H | [H | H]]; discriminate].
  intros [H | [H | H]]; revert H.
  - destruct (Ticket.createdBy t) as [c |]; cbn [deref bind];
      [| simpl; discriminate].
    destruct (_ && _ && _); cbn [reject_if bind]; [simpl; discriminate |].
    apply update_tail_valid.
  - destruct (_ && _); cbn [reject_if bind]; [simpl; discriminate |].
    apply update_tail_valid.
  - destruct (_ && _); cbn [reject_if bind]; [simpl; discriminate |].
    destruct (Ticket_save_cases s tid (Ticket_assign t b now) now)
      as [[Hv ->] | [_ ->]]; simpl; [done | discriminate].
Qed.

Lemma Ticket_valid_fields (t : Ticket.t) :
  Ticket_valid t = true ->
  required (Ticket.title t) = true
  /\ includes priorities (Ticket.priority t) = true
  /\ includes statuses (Ticket.status t) = true
  /\ includes types (Ticket.type t) = true.
Proof.
  unfold Ticket_valid. intros Hv.
  repeat (apply andb_prop in Hv as [Hv ?]). auto.
Qed.

(** X15.  An update whose payload would leave the ticket outside the
    schema is never answered with 200 and writes nothing: a priority,
    status or type outside the enumeration, or a title that is blank
    after trimming. *)
Theorem update_rejects_invalid (s : Store) (actor tid : string) (b : TicketBody)
    (now : Z) (t : Ticket.t) (Ht : tickets s !! tid = Some t)
    (Hbad : (exists v, b_priority b = Some v /\ v ∉ priorities)
            \/ (exists v, b_status b = Some v /\ v ∉ statuses)
            \/ (exists v, b_type b = Some v /\ v ∉ types)
            \/ (exists v, b_title b = Some v /\ trim v = "")) :
  Ticket_valid (Ticket_assign t b now) = false
  /\ (status (fst (TicketsV3.updateTicket s actor tid b now)) <> 200
      /\ snd (TicketsV3.updateTicket s actor tid b now) = s)
  /\ (status (fst (TicketsV2.updateTicket s actor tid b now)) <> 200
      /\ snd (TicketsV2.updateTicket s actor tid b now) = s)
  /\ (status (fst (TicketsV1.updateTicket s actor tid b now)) <> 200
      /\ snd (TicketsV1.updateTicket s actor tid b now) = s).
Proof.
  assert (Hinvalid : Ticket_valid (Ticket_assign t b now) = false).
  { apply not_true_iff_false. intros Hvalid.
    apply Ticket_valid_fields in Hvalid as (Hti & Hpr & Hst & Hty).
    unfold Ticket_assign in *.
    cbn [Ticket.title Ticket.priority Ticket.status Ticket.type] in *.
    destruct Hbad as [(v & Hb & Hv) | [(v & Hb & Hv) | [(v & Hb & Hv) | (v & Hb & Hv)]]];
      rewrite Hb in *; simpl in *.
    - by apply Hv, includes_true.
    - by apply Hv, includes_true.
    - by apply Hv, includes_true.
    - rewrite Hv in Hti. discriminate. }
  split; [exact Hinvalid |].
  assert (Hnot : forall update,
            writes_payload update ->
            (status (fst (update s actor tid b now)) = 200 ->
             Ticket_valid (Ticket_assign t b now) = true) ->
            status (fst (update s actor tid b now)) <> 200
            /\ snd (update s actor tid b now) = s).
  { intros update Hw Hv.
    assert (status (fst (update s actor tid b now)) <> 200) as Hne
      by (intros H; apply Hv in H; congruence).
    split; [exact Hne |]. by apply (Hw s actor tid b now t Ht). }
  split; [| split]; apply Hnot;
    try apply writes_payload_V3; try apply writes_payload_V2;
    try apply writes_payload_V1; intros H;
    apply (update_200_valid s actor tid b now t Ht); auto.
Qed.

Lemma update_rejects_invalid_witness :
  snd (TicketsV3.updateTicket demo "u1" "t1"
         (mkBody None None None None (Some "Closed") None None None None None)
         700) = demo
  /\ snd (TicketsV1.updateTicket demo "u1" "t1"
            (mkBody None (Some (nbsp ++ " " ++ bom)%string) None None None None
               None None None None) 700) = demo.
Proof.
  destruct (update_rejects_invalid demo "u1" "t1"
              (mkBody None None None None (Some "Closed") None None None None
                 None) 700 login_bug eq_refl) as (_ & [_ Hstatus] & _).
  { right. left. exists "Closed". split; [reflexivity |].
    rewrite <- includes_false. reflexivity. }
  destruct (update_rejects_invalid demo "u1" "t1"
              (mkBody None (Some (nbsp ++ " " ++ bom)%string) None None None None
                 None None None None) 700 login_bug eq_refl)
    as (_ & _ & _ & [_ Htitle]).
  { right. right. right. eexists. split; reflexivity. }
  split; [exact Hstatus | exact Htitle].
Defined.

(** ** The first create route *)

(** X16.  The create route of src/routes/tickets.js spreads the body into
    the document: a valid candidate is stored with the assignee and the
    reporter of the body as they are, without any lookup or membership
    test, and a body without a reporter is answered with 400 because the
    actor is not filled in for it. *)
Theorem first_create_unchecked (s : Store) (actor newId : string)
    (b : TicketBody) (now : Z) (pid : string) (p : Project.t)
    (Hb : b_projectId b = Some pid)
    (Hp : projects s !! pid = Some p)
    (Hacc : canAccessProject actor p = true) :
  let candidate := Ticket_spread b actor now in
  (Ticket_valid candidate = true ->
     TicketsV1.createTicket s actor newId b now
     = (json 201 (BTicket (set_updatedAt candidate now)),
        written s newId (set_updatedAt candidate now))
     /\ Ticket.assignee candidate = b_assignee b
     /\ Ticket.reporter candidate = b_reporter b
     /\ Ticket.createdBy candidate = Some actor)
  /\ (b_reporter b = None ->
        TicketsV1.createTicket s actor newId b now
        = (json 400 (BMessage "Ticket validation failed"), s)).
Proof.
  intros candidate.
  unfold TicketsV1.createTicket. rewrite Hb. cbn [Project_findById].
  rewrite Hp. cbn [found bind]. rewrite access_guard, Hacc.
  cbn [negb reject_if bind]. fold candidate. unfold Ticket_save. split.
  - intros ->. by repeat split.
  - intros Hr.
    assert (Ticket_valid candidate = false) as ->; [| reflexivity].
    unfold Ticket_valid. subst candidate.
    cbn [Ticket_spread Ticket.reporter].
    rewrite Hr. cbn [required truthy]. by rewrite !andb_false_r.
Qed.

Lemma first_create_unchecked_witness :
  status (fst (TicketsV1.createTicket demo "u2" "t3"
                 (report_body (Some "u9") (Some "u3")) 800)) = 201
  /\ status (fst (TicketsV3.createTicket demo "u2" "t3"
                    (report_body (Some "u9") (Some "u3")) 800)) = 404
  /\ status (fst (TicketsV1.createTicket demo "u2" "t3"
                    (report_body None None) 800)) = 400.
Proof.
  destruct (first_create_unchecked demo "u2" "t3"
              (report_body (Some "u9") (Some "u3")) 800 "p1" sprint
              eq_refl eq_refl eq_refl) as [Hstored _].
  destruct (first_create_unchecked demo "u2" "t3" (report_body None None) 800
              "p1" sprint eq_refl eq_refl eq_refl) as [_ Hmissing].
  destruct (Hstored eq_refl) as (-> & _).
  rewrite (Hmissing eq_refl). repeat split.
Defined.

(** ** Requests that fail *)





(** ** The [trim] setter *)

Lemma append_String (d : ascii) (o x : string) :
  (String d o ++ x)%string = String d (o ++ x)%string.
Proof. reflexivity. Qed.

Lemma trim_left_unfold (x : string) :
  trim_left x = match space_width x with
                | O => x
                | S _ => trim_left (skip (space_width x) x)
                end.
Proof.
  destruct x as [| c1 [| c2 [| c3 r]]]; cbn [trim_left space_width];
    try reflexivity.
  - destruct (is_space c1); reflexivity.
  - destruct (is_space c1); [reflexivity |].
    destruct (is_space2 c1 c2); reflexivity.
  - destruct (is_space c1); [reflexivity |].
    destruct (is_space2 c1 c2); [reflexivity |].
    destruct (is_space3 c1 c2 c3); reflexivity.
Qed.

Lemma blank_unfold (x : string) :
  blank x = match space_width x with
            | O => match x with EmptyString => true | String _ _ => false end
            | S _ => blank (skip (space_width x) x)
            end.
Proof.
  unfold blank. rewrite trim_left_unfold at 1.
  destruct (space_width x); reflexivity.
Qed.

(** The white-space character at the head of a string is decided by the
    bytes it takes. *)
Lemma space_width_app (x w : string) :
  space_width x <> 0%nat ->
  space_width (x ++ w) = space_width x
  /\ skip (space_width x) (x ++ w) = (skip (space_width x) x ++ w)%string
  /\ (String.length (skip (space_width x) x) < String.length x)%nat.
Proof.
  destruct x as [| c1 [| c2 [| c3 r]]]; rewrite ?append_String;
    cbn [space_width]; [done | | |].
  - destruct (is_space c1); [| done]. intros _. cbn [skip String.length].
    repeat split. lia.
  - destruct (is_space c1).
    { intros _. cbn [skip String.length]. repeat split. lia. }
    destruct (is_space2 c1 c2); [| done].
    intros _. cbn [skip String.length]. repeat split. lia.
  - destruct (is_space c1).
    { intros _. cbn [skip String.length]. repeat split. lia. }
    destruct (is_space2 c1 c2).
    { intros _. cbn [skip String.length]. repeat split. lia. }
    destruct (is_space3 c1 c2 c3); [| done].
    intros _. cbn [skip String.length]. repeat split. lia.
Qed.

Lemma blank_app (x w : string) :
  blank x = true -> blank w = true -> blank (x ++ w) = true.
Proof.
  remember (String.length x) as n eqn:Hn. revert x Hn.
  induction n as [n IH] using lt_wf_ind. intros x Hn Hx Hw.
  rewrite blank_unfold in Hx.
  destruct (space_width x) as [| k] eqn:Hk.
  - destruct x; [exact Hw | discriminate].
  - destruct (space_width_app x w) as (Hwidth & Hskip & Hlen);
      [by rewrite Hk |].
    rewrite blank_unfold, Hwidth, Hskip, Hk. rewrite Hk in Hlen.
    apply (IH (String.length (skip (S k) x))); [lia | reflexivity | done | done].
Qed.

(** [trim_right] cuts a suffix of white space. *)
Lemma trim_right_split (x : string) :
  exists w, x = (trim_right x ++ w)%string /\ blank w = true.
Proof.
  induction x as [| c r IH]; [by exists EmptyString |].
  cbn [trim_right]. destruct (blank (String c r)) eqn:Hb.
  - by exists (String c r).
  - destruct IH as (w & Hw & Hbw). exists w. split; [| exact Hbw].
    rewrite append_String. by rewrite <- Hw.
Qed.

Lemma blank_trim_right (c : ascii) (r : string) :
  blank (String c r) = false -> blank (String c (trim_right r)) = false.
Proof.
  intros Hb. apply not_true_is_false. intros H.
  destruct (trim_right_split r) as (w & Hw & Hbw).
  pose proof (blank_app _ _ H Hbw) as Hall.
  rewrite append_String, <- Hw in Hall. congruence.
Qed.

Lemma trim_left_starts (x : string) : starts_space (trim_left x) = false.
Proof.
  remember (String.length x) as n eqn:Hn. revert x Hn.
  induction n as [n IH] using lt_wf_ind. intros x Hn.
  rewrite trim_left_unfold. destruct (space_width x) as [| k] eqn:Hk.
  - unfold starts_space. by rewrite Hk.
  - destruct (space_width_app x EmptyString) as (_ & _ & Hlen);
      [by rewrite Hk |].
    rewrite Hk in Hlen.
    apply (IH (String.length (skip (S k) x))); [lia | reflexivity].
Qed.

Lemma trim_right_ends (x : string) : ends_space (trim_right x) = false.
Proof.
  induction x as [| c r IH]; [reflexivity |]. cbn [trim_right].
  destruct (blank (String c r)) eqn:Hb; [reflexivity |].
  cbn [ends_space]. by rewrite IH, (blank_trim_right _ _ Hb).
Qed.

Lemma trim_right_starts (x : string) :
  starts_space x = false -> starts_space (trim_right x) = false.
Proof.
  intros Hs. destruct (trim_right_split x) as (w & Hx & _).
  unfold starts_space in *.
  destruct (space_width (trim_right x)) as [| k] eqn:Hk; [reflexivity |].
  destruct (space_width_app (trim_right x) w) as (Hwidth & _);
    [by rewrite Hk |].
  rewrite <- Hx, Hk in Hwidth. by rewrite Hwidth in Hs.
Qed.

Lemma trim_left_id (x : string) : starts_space x = false -> trim_left x = x.
Proof.
  unfold starts_space. intros Hs. rewrite trim_left_unfold.
  by destruct (space_width x).
Qed.

Lemma trim_right_id (x : string) : ends_space x = false -> trim_right x = x.
Proof.
  induction x as [| c r IH]; [reflexivity |]. cbn [ends_space trim_right].
  intros He. apply orb_false_elim in He as [Hb He]. by rewrite Hb, IH.
Qed.

Lemma trim_spec (x : string) :
  starts_space (trim x) = false /\ ends_space (trim x) = false.
Proof.
  unfold trim. split; [| apply trim_right_ends].
  apply trim_right_starts, trim_left_starts.
Qed.

Lemma trim_id (x : string) :
  starts_space x = false -> ends_space x = false -> trim x = x.
Proof.
  intros Hs He. unfold trim. rewrite (trim_left_id _ Hs). by apply trim_right_id.
Qed.

Lemma append_assoc (x y z : string) :
  ((x ++ y) ++ z)%string = (x ++ (y ++ z))%string.
Proof.
  induction x as [| c r IH]; [reflexivity |].
  by rewrite !append_String, IH.
Qed.

(** The white-space character at the head of a string, cut off. *)
Lemma space_head (x : string) :
  space_width x <> 0%nat ->
  exists pre, x = (pre ++ skip (space_width x) x)%string /\ blank pre = true.
Proof.
  destruct x as [| c1 [| c2 [| c3 r]]]; cbn [space_width]; [done | | |].
  - destruct (is_space c1) eqn:H1; [| done]. intros _.
    exists (String c1 EmptyString). split; [reflexivity |].
    unfold blank. cbn [trim_left]. by rewrite H1.
  - destruct (is_space c1) eqn:H1.
    { intros _. exists (String c1 EmptyString). split; [reflexivity |].
      unfold blank. cbn [trim_left]. by rewrite H1. }
    destruct (is_space2 c1 c2) eqn:H2; [| done]. intros _.
    exists (String c1 (String c2 EmptyString)). split; [reflexivity |].
    unfold blank. cbn [trim_left]. by rewrite H1, H2.
  - destruct (is_space c1) eqn:H1.
    { intros _. exists (String c1 EmptyString). split; [reflexivity |].
      unfold blank. cbn [trim_left]. by rewrite H1. }
    destruct (is_space2 c1 c2) eqn:H2.
    { intros _. exists (String c1 (String c2 EmptyString)).
      split; [reflexivity |]. unfold blank. cbn [trim_left]. by rewrite H1, H2. }
    destruct (is_space3 c1 c2 c3) eqn:H3; [| done]. intros _.
    exists (String c1 (String c2 (String c3 EmptyString))).
    split; [reflexivity |]. unfold blank. cbn [trim_left]. by rewrite H1, H2, H3.
Qed.

(** [trim_left] cuts a prefix of white space. *)
Lemma trim_left_split (x : string) :
  exists l, x = (l ++ trim_left x)%string /\ blank l = true.
Proof.
  remember (String.length x) as n eqn:Hn. revert x Hn.
  induction n as [n IH] using lt_wf_ind. intros x Hn.
  rewrite trim_left_unfold. destruct (space_width x) as [| k] eqn:Hk.
  - by exists EmptyString.
  - destruct (space_width_app x EmptyString) as (_ & _ & Hlen);
      [by rewrite Hk |].
    destruct (space_head x) as (pre & Hx & Hpre); [by rewrite Hk |].
    rewrite Hk in Hlen, Hx.
    destruct (IH (String.length (skip (S k) x))
                 ltac:(lia) (skip (S k) x) eq_refl) as (l & Hl & Hbl).
    exists (pre ++ l)%string. split; [| by apply blank_app].
    rewrite append_assoc, <- Hl. exact Hx.
Qed.

(** X18.  The [trim] setter of the schema cuts white space only, a
    prefix and a suffix of it, leaves none at either end and changes
    nothing when applied again; so the title and the tags of a ticket that
    is built from a body or assigned from a payload are trimmed, and
    sending a stored title back does not change it. *)
Theorem stored_text_is_trimmed (x : string) (b : TicketBody) (t : Ticket.t)
    (now : Z) :
  (exists l r, x = (l ++ trim x ++ r)%string /\ blank l = true /\ blank r = true)
  /\ starts_space (trim x) = false
  /\ ends_space (trim x) = false
  /\ trim (trim x) = trim x
  /\ (forall v, Ticket.title (Ticket_new b now) = Some v -> trim v = v)
  /\ (forall tag, tag ∈ Ticket.tags (Ticket_new b now) -> trim tag = tag)
  /\ (forall v, b_title b = Some v ->
        Ticket.title (Ticket_assign t b now) = Some (trim v)
        /\ Ticket.title (Ticket_assign (Ticket_assign t b now) b now)
           = Ticket.title (Ticket_assign t b now)).
Proof.
  assert (Hidem : forall y, trim (trim y) = trim y).
  { intros y. destruct (trim_spec y). by apply trim_id. }
  destruct (trim_spec x) as [Hs He].
  split.
  { destruct (trim_left_split x) as (l & Hl & Hbl).
    destruct (trim_right_split (trim_left x)) as (r & Hr & Hbr).
    exists l, r. unfold trim. by rewrite <- Hr. }
  split; [exact Hs |]. split; [exact He |]. split; [apply Hidem |].
  split; [| split].
  - intros v. cbn [Ticket_new Ticket.title].
    destruct (b_title b) as [w |]; [| discriminate].
    simpl. intros [= <-]. apply Hidem.
  - intros tag. cbn [Ticket_new Ticket.tags]. rewrite list_elem_of_In, in_map_iff.
    intros (w & <- & _). apply Hidem.
  - intros v Hv. unfold Ticket_assign. cbn [Ticket.title]. rewrite Hv.
    by split.
Qed.

(** [trim] on white space outside ASCII. *)
Lemma trim_unicode :
  trim (nbsp ++ " Dark mode" ++ bom ++ nbsp)%string = "Dark mode"
  /\ trim (nbsp ++ bom)%string = "".
Proof. split; reflexivity. Qed.

(** ** Accounts *)

Lemma Auth_findOne_Some (accounts : list Auth.Account) (e : string)
    (a : Auth.Account) :
  Auth.findOne_email accounts e = Some a ->
  a ∈ accounts /\ User.email (Auth.user a) = e.
Proof.
  unfold Auth.findOne_email. intros H. apply find_some in H as [Hin Heq].
  split; [by apply list_elem_of_In | by apply String.eqb_eq].
Qed.

Lemma Auth_findOne_None (accounts : list Auth.Account) (e : string) :
  Auth.findOne_email accounts e = None
  <-> forall a, a ∈ accounts -> User.email (Auth.user a) <> e.
Proof.
  unfold Auth.findOne_email. split.
  - intros H a Ha. apply list_elem_of_In in Ha.
    by apply String.eqb_neq, (find_none _ _ H).
  - intros H. induction accounts as [| a l IH]; [reflexivity |].
    simpl. destruct (String.eqb_spec (User.email (Auth.user a)) e) as [Heq | _].
    + exfalso. apply (H a); [left | done].
    + apply IH. intros a' Ha'. apply H. by right.
Qed.

(** X19.  Registration never touches the accounts that exist: it answers
    400 and stores nothing exactly when some account has the e-mail
    address of the body, and otherwise appends at most one account, which
    it does exactly when it answers 201. *)
Theorem register_keeps_accounts
    (save : string -> string -> string -> string -> option Auth.Account)
    (sign : string -> string -> string)
    (accounts : list Auth.Account) (r : Auth.Registration) :
  let reply := Auth.register save sign accounts r in
  ((exists a, a ∈ accounts /\ User.email (Auth.user a) = Auth.r_email r)
   <-> reply = (Auth.Message 400 "User already exists with this email.", accounts))
  /\ (exists l, snd reply = accounts ++ l /\ (length l <= 1)%nat)
  /\ (Auth.code_of (fst reply) = 201 <-> snd reply <> accounts)
  /\ (forall a, snd reply = accounts ++ [a] ->
        save (Auth.r_name r) (Auth.r_email r) (Auth.r_password r)
             (or_else (Auth.r_role r) "Team Member") = Some a
        /\ fst reply = Auth.session sign 201 a).
Proof.
  intros reply. subst reply. unfold Auth.register.
  destruct (Auth.findOne_email accounts (Auth.r_email r)) as [a0 |] eqn:Hfind.
  - apply Auth_findOne_Some in Hfind as [Hin Heq].
    split; [split; [by intros _ | intros _; exists a0; by split] |].
    split; [exists []; split; [by rewrite app_nil_r | simpl; lia] |].
    split; [split; [discriminate | intros Hne; by destruct Hne] |].
    intros a Heq'. cbn [snd] in Heq'.
    apply (f_equal length) in Heq'. rewrite length_app in Heq'. simpl in Heq'. lia.
  - pose proof (proj1 (Auth_findOne_None _ _) Hfind) as Hnone.
    destruct (save _ _ _ _) as [a |] eqn:Hsave; cbn [fst snd].
    + split; [split; [intros (a0 & Hin & Heq); by destruct (Hnone a0 Hin) |
                      discriminate] |].
      split; [exists [a]; split; [reflexivity | simpl; lia] |].
      split.
      * split; [| reflexivity]. intros _ Heq.
        apply (f_equal length) in Heq. rewrite length_app in Heq. simpl in Heq. lia.
      * intros a' Heq. apply app_inv_head in Heq. injection Heq as <-. by split.
    + split; [split; [intros (a0 & Hin & Heq); by destruct (Hnone a0 Hin) |
                      discriminate] |].
      split; [exists []; split; [by rewrite app_nil_r | simpl; lia] |].
      split; [split; [discriminate | intros Hne; by destruct Hne] |].
      intros a Heq. apply (f_equal length) in Heq.
      rewrite length_app in Heq. simpl in Heq. lia.
Qed.

(** X20.  A login that fails says the same thing whether the e-mail
    address is unknown or the password is wrong: 401 with one message and
    no token.  It succeeds, with a token signed for the account's
    identifier and address, exactly when the first account with that
    address accepts the password. *)
Theorem login_failure_uniform (comparePassword : Auth.Account -> string -> bool)
    (sign : string -> string -> string)
    (accounts : list Auth.Account) (email password : string) :
  let denied :=
    Auth.Message 401 "Invalid credentials. Please check your email and password." in
  let reply := Auth.login comparePassword sign accounts email password in
  ((forall a, a ∈ accounts -> User.email (Auth.user a) <> email) -> reply = denied)
  /\ (forall a, Auth.findOne_email accounts email = Some a ->
        comparePassword a password = false -> reply = denied)
  /\ (forall a, Auth.findOne_email accounts email = Some a ->
        comparePassword a password = true -> reply = Auth.session sign 200 a)
  /\ (reply = denied
      \/ exists a, a ∈ accounts /\ User.email (Auth.user a) = email
                   /\ comparePassword a password = true
                   /\ reply = Auth.session sign 200 a).
Proof.
  intros denied reply. subst reply. unfold Auth.login.
  split; [| split; [| split]].
  - intros Hnone. apply Auth_findOne_None in Hnone. by rewrite Hnone.
  - by intros a -> ->.
  - by intros a -> ->.
  - destruct (Auth.findOne_email accounts email) as [a |] eqn:Hfind; [| by left].
    destruct (comparePassword a password) eqn:Hcmp; [| by left].
    right. exists a. apply Auth_findOne_Some in Hfind as [Hin Heq]. auto.
Qed.

Lemma find_none_app {A} (f : A -> bool) (l l' : list A) :
  find f l = None -> find f (l ++ l') = find f l'.
Proof.
  induction l as [| x l IH]; [reflexivity |]. simpl.
  destruct (f x); [discriminate | exact IH].
Qed.

(** X21.  For a user model that stores the address it is given and
    accepts the password it hashed: registering a free address and then
    logging in with the same address and password opens a session for the
    same account, and registering that address again is refused. *)
Theorem register_then_login
    (save : string -> string -> string -> string -> option Auth.Account)
    (comparePassword : Auth.Account -> string -> bool)
    (sign : string -> string -> string)
    (accounts : list Auth.Account) (r : Auth.Registration) (a : Auth.Account)
    (Hfree : forall a0, a0 ∈ accounts ->
                        User.email (Auth.user a0) <> Auth.r_email r)
    (Hsave : save (Auth.r_name r) (Auth.r_email r) (Auth.r_password r)
                  (or_else (Auth.r_role r) "Team Member") = Some a)
    (Hmail : User.email (Auth.user a) = Auth.r_email r)
    (Hhash : comparePassword a (Auth.r_password r) = true) :
  Auth.register save sign accounts r = (Auth.session sign 201 a, accounts ++ [a])
  /\ Auth.login comparePassword sign (accounts ++ [a])
       (Auth.r_email r) (Auth.r_password r) = Auth.session sign 200 a
  /\ (forall r', Auth.r_email r' = Auth.r_email r ->
        Auth.register save sign (accounts ++ [a]) r'
        = (Auth.Message 400 "User already exists with this email.",
           accounts ++ [a])).
Proof.
  assert (Hnone : Auth.findOne_email accounts (Auth.r_email r) = None)
    by (by apply Auth_findOne_None).
  assert (Hfound : Auth.findOne_email (accounts ++ [a]) (Auth.r_email r) = Some a).
  { unfold Auth.findOne_email in *. rewrite (find_none_app _ _ _ Hnone). simpl.
    rewrite Hmail. by rewrite String.eqb_refl. }
  split; [| split].
  - unfold Auth.register. by rewrite Hnone, Hsave.
  - unfold Auth.login. by rewrite Hfound, Hhash.
  - intros r' Hr'. unfold Auth.register. by rewrite Hr', Hfound.
Qed.

Lemma register_then_login_witness :
  Auth.login toy_compare toy_sign
    (snd (Auth.register toy_save toy_sign staff
            (Auth.mkRegistration "Bob" "bob@devtrack.io" "builder" None)))
    "bob@devtrack.io" "builder"
  = Auth.Session 200 "token:id:bob@devtrack.io" "id:bob@devtrack.io" "Bob"
      "bob@devtrack.io" "Team Member".
Proof.
  assert (Hfree : forall a0, a0 ∈ staff ->
                    User.email (Auth.user a0) <> "bob@devtrack.io").
  { intros a0 Ha0. apply list_elem_of_singleton in Ha0. subst a0. discriminate. }
  destruct (register_then_login toy_save toy_compare toy_sign staff
              (Auth.mkRegistration "Bob" "bob@devtrack.io" "builder" None)
              (Auth.mkAccount (User.mk "id:bob@devtrack.io" "Bob" "bob@devtrack.io")
                 "Team Member" "hash:builder")
              Hfree eq_refl eq_refl eq_refl)
    as (Hreg & Hlogin & _).
  rewrite Hreg. exact Hlogin.
Defined.

(** ** Allowed origins *)

Section CorsFacts.
Import Cors.

Lemma append_nonempty (o : string) (c : ascii) (w : string) :
  (o ++ String c w)%string <> "".
Proof.
  destruct o as [| d o]; [| rewrite append_String; discriminate].
  change (EmptyString ++ String c w)%string with (String c w). discriminate.
Qed.

Lemma append_cons (o : string) (c : ascii) (w : string) :
  (o ++ String c w)%string = ((o ++ String c EmptyString) ++ w)%string.
Proof.
  induction o as [| d o IH]; [reflexivity |]. rewrite !append_String.
  f_equal. exact IH.
Qed.

Lemma split_comma_plain (x y : string) :
  no_comma x = true ->
  split_comma (x ++ String "," y)%string = x :: split_comma y.
Proof.
  induction x as [| c x IH]; [reflexivity |]. cbn [no_comma].
  intros H. apply andb_prop in H as [Hc Hx]. apply negb_true_iff in Hc.
  rewrite append_String. cbn [split_comma]. by rewrite Hc, (IH Hx).
Qed.

Lemma split_comma_single (x : string) :
  no_comma x = true -> split_comma x = [x].
Proof.
  induction x as [| c x IH]; [reflexivity |]. cbn [no_comma].
  intros H. apply andb_prop in H as [Hc Hx]. apply negb_true_iff in Hc.
  cbn [split_comma]. by rewrite Hc, (IH Hx).
Qed.

Lemma no_comma_slash (o : string) :
  no_comma (o ++ "/")%string = no_comma o.
Proof.
  induction o as [| c o IH]; [reflexivity |]. rewrite append_String.
  cbn [no_comma]. by rewrite IH.
Qed.

Lemma strip_slash_added (o : string) : strip_slash (o ++ "/")%string = o.
Proof.
  induction o as [| c o IH]; [reflexivity |]. rewrite append_String.
  assert (Hshape : exists d r, (o ++ "/")%string = String d r).
  { destruct o as [| d o']; [by exists "/"%char, EmptyString |].
    rewrite append_String. eauto. }
  destruct Hshape as (d & r & Hshape). cbn [strip_slash].
  rewrite Hshape, <- Hshape. by rewrite IH.
Qed.

(** A slash is part of no white-space character. *)
Lemma is_space2_slash (c : ascii) : is_space2 c "/" = false.
Proof. exact (andb_false_r _). Qed.

Lemma is_space3_slash (c1 c2 : ascii) : is_space3 c1 c2 "/" = false.
Proof.
  unfold is_space3. cbv zeta. change (nat_of_ascii "/") with 47%nat.
  generalize (nat_of_ascii c1) (nat_of_ascii c2). intros n1 n2.
  destruct (Nat.eqb n1 225), (Nat.eqb n1 226), (Nat.eqb n1 227),
    (Nat.eqb n1 239), (Nat.eqb n2 154), (Nat.eqb n2 128), (Nat.eqb n2 129),
    (Nat.eqb n2 187); reflexivity.
Qed.

Lemma space_width_slash (o : string) :
  space_width (o ++ "/")%string = space_width o.
Proof.
  destruct o as [| c1 [| c2 [| c3 r]]]; rewrite ?append_String;
    [reflexivity | | | reflexivity].
  - change (EmptyString ++ "/")%string with "/". cbn [space_width].
    by rewrite is_space2_slash.
  - change (EmptyString ++ "/")%string with "/". cbn [space_width].
    by rewrite is_space3_slash.
Qed.

Lemma blank_slash (o : string) : blank (o ++ "/")%string = false.
Proof.
  remember (String.length o) as n eqn:Hn. revert o Hn.
  induction n as [n IH] using lt_wf_ind. intros o Hn.
  rewrite blank_unfold, space_width_slash.
  destruct (space_width o) as [| k] eqn:Hk.
  - destruct o; reflexivity.
  - destruct (space_width_app o "/") as (_ & Hskip & Hlen); [by rewrite Hk |].
    rewrite Hk in Hskip, Hlen. rewrite Hskip.
    apply (IH (String.length (skip (S k) o))); [lia | reflexivity].
Qed.

Lemma ends_space_slash (o : string) : ends_space (o ++ "/")%string = false.
Proof.
  induction o as [| c o IH]; [reflexivity |]. rewrite append_String.
  cbn [ends_space]. rewrite IH, <- append_String. by rewrite blank_slash.
Qed.

Lemma trim_slash (o : string) :
  starts_space o = false -> trim (o ++ "/")%string = (o ++ "/")%string.
Proof.
  intros Hs. apply trim_id; [| apply ends_space_slash].
  unfold starts_space in *. by rewrite space_width_slash.
Qed.

(** The entries that [split(',')] finds in a spelled list. *)
Lemma split_comma_spell (os : list string) :
  os <> [] -> Forall (fun o => plain o = true) os ->
  exists first rest,
    os = first :: rest
    /\ split_comma (spell os)
       = (first ++ "/")%string
         :: ((fun o => String " " (o ++ "/"))%string <$> rest).
Proof.
  induction os as [| o os IH]; [done |]. intros _ Hplain.
  apply Forall_cons in Hplain as [Ho Hos]. exists o, os. split; [reflexivity |].
  unfold plain in Ho. apply andb_prop in Ho as [Hc _].
  destruct os as [| o' os'].
  - cbn [spell fmap list_fmap]. apply split_comma_single. by rewrite no_comma_slash.
  - destruct (IH ltac:(done) Hos) as (first & rest & [= <- <-] & Hsplit).
    change (spell (o :: o' :: os'))
      with (o ++ String "/" (String "," (String " " (spell (o' :: os')))))%string.
    rewrite append_cons, split_comma_plain by (by rewrite no_comma_slash).
    cbn [split_comma Ascii.eqb Bool.eqb]. by rewrite Hsplit.
Qed.

End CorsFacts.

(** X22.  Origins written into [FRONTEND_URL] with a slash at the end and
    ", " between them are allowed in their bare form by the latest
    server: the list it reads is the list that was written.  The version
    before it only trims and keeps the slash, so with the same setting its
    callback lets through exactly the entries with their slash, and a
    bare origin only if it equals one of those; requests without an origin
    pass in any case. *)
Theorem configured_origins (os : list string)
    (Hne : os <> [])
    (Hplain : Forall (fun o => Cors.plain o = true) os) :
  Cors.allowedOrigins (Some (Cors.spell os)) = os
  /\ Cors.allowedOrigins_trimmed (Some (Cors.spell os))
     = (fun o => (o ++ "/")%string) <$> os
  /\ (forall o, o <> "" ->
        Cors.originAllowed (Cors.allowedOrigins_trimmed (Some (Cors.spell os)))
          (Some o) = true
        <-> exists o', o' ∈ os /\ o = (o' ++ "/")%string)
  /\ (forall allowed,
        Cors.originAllowed allowed None = true
        /\ Cors.originAllowed allowed (Some "") = true).
Proof.
  destruct (split_comma_spell os Hne Hplain) as (first & rest & -> & Hsplit).
  assert (Hspelled : String.eqb (Cors.spell (first :: rest)) "" = false).
  { apply String.eqb_neq. destruct rest as [| o' rest']; apply append_nonempty. }
  assert (Hstart : Forall (fun o => starts_space o = false) (first :: rest)).
  { eapply Forall_impl; [exact Hplain |]. intros o Ho. unfold Cors.plain in Ho.
    apply andb_prop in Ho as [_ Ho]. by apply negb_true_iff. }
  apply Forall_cons in Hstart as [Hfirst Hrest].
  assert (Htrimmed : map trim (Cors.split_comma (Cors.spell (first :: rest)))
                     = (fun o => (o ++ "/")%string) <$> (first :: rest)).
  { rewrite Hsplit. cbn [map fmap list_fmap]. rewrite (trim_slash _ Hfirst).
    f_equal. clear -Hrest. induction rest as [| o rest IH]; [reflexivity |].
    apply Forall_cons in Hrest as [Ho Hrest]. cbn [map fmap list_fmap].
    f_equal; [| by apply IH].
    change (trim (String " " (o ++ "/")%string)) with (trim (o ++ "/")%string).
    by apply trim_slash. }
  split; [| split; [| split]].
  - unfold Cors.allowedOrigins. rewrite Hspelled.
    rewrite <- (map_map trim Cors.strip_slash), Htrimmed.
    clear. induction (first :: rest) as [| o l IH]; [reflexivity |].
    cbn [map fmap list_fmap]. by rewrite strip_slash_added, IH.
  - unfold Cors.allowedOrigins_trimmed. by rewrite Hspelled.
  - intros o Ho. unfold Cors.allowedOrigins_trimmed, Cors.originAllowed.
    rewrite Hspelled, Htrimmed. apply String.eqb_neq in Ho. rewrite Ho.
    rewrite includes_true, list_elem_of_fmap. split.
    + intros (o' & -> & Hin). by exists o'.
    + intros (o' & Hin & ->). by exists o'.
  - intros allowed. by split.
Qed.

Lemma configured_origins_witness :
  Cors.allowedOrigins
    (Some "https://dev-track-five.vercel.app/, http://localhost:3000/")
  = ["https://dev-track-five.vercel.app"; "http://localhost:3000"]
  /\ Cors.originAllowed
       (Cors.allowedOrigins_trimmed
          (Some "https://dev-track-five.vercel.app/, http://localhost:3000/"))
       (Some "http://localhost:3000") = false.
Proof.
  destruct (configured_origins
              ["https://dev-track-five.vercel.app"; "http://localhost:3000"])
    as (Hlatest & Hbefore & _).
  - discriminate.
  - repeat constructor.
  - split; [exact Hlatest |].
    change (Cors.spell ["https://dev-track-five.vercel.app"; "http://localhost:3000"])
      with "https://dev-track-five.vercel.app/, http://localhost:3000/" in Hbefore.
    rewrite Hbefore. reflexivity.
Defined.

(** ** Projects and users that are gone *)

(** X23.  The documented project read decides on the populated users.
    When the creator's user does not exist it answers 500 to everybody;
    when it does, an actor who is on the team but has no user of their own
    is refused like a stranger. *)
Theorem project_read_missing_users (s : Store) (actor pid : string)
    (p : Project.t) (Hp : projects s !! pid = Some p) :
  (User_findById s (Project.createdBy p) = None ->
     ProjectsV2.getProject s actor pid
     = (json 500 (BMessage "Server error. Could not fetch project details."), s))
  /\ (is_Some (User_findById s (Project.createdBy p)) ->
      actor <> Project.createdBy p ->
      User_findById s actor = None ->
      ProjectsV2.getProject s actor pid
      = (json 403 (BMessage
          "Access denied: You are not authorized to view this project."), s)).
Proof.
  unfold ProjectsV2.getProject. rewrite Hp. cbn [found bind]. split.
  - intros Hgone. unfold populate at 1. by rewrite Hgone.
  - intros [u Hu] Hne Hactor. unfold populate at 1. rewrite Hu.
    cbn [deref bind s_id]. rewrite (findById_id _ _ _ Hu).
    assert (String.eqb (Project.createdBy p) actor = false) as ->
      by (apply String.eqb_neq; congruence).
    assert (existsb (fun m => String.eqb (s_id m) actor)
              (omap (fun m => populate s (Some m)) (Project.teamMembers p))
            = false) as ->; [| reflexivity].
    apply not_true_iff_false. rewrite populated_member, Hactor.
    intros [_ [? ?]]. discriminate.
Qed.

Lemma project_read_missing_users_witness :
  status (fst (ProjectsV2.getProject
                 (mkStore [bob] (projects demo) (tickets demo)) "u2" "p1")) = 500
  /\ status (fst (ProjectsV2.getProject
                    (mkStore [alice] (projects demo) (tickets demo)) "u2" "p1"))
     = 403.
Proof.
  destruct (project_read_missing_users
              (mkStore [bob] (projects demo) (tickets demo)) "u2" "p1" sprint
              eq_refl) as [Hgone _].
  destruct (project_read_missing_users
              (mkStore [alice] (projects demo) (tickets demo)) "u2" "p1" sprint
              eq_refl) as [_ Hmember].
  rewrite (Hgone eq_refl).
  rewrite Hmember; [by split | by exists alice | discriminate | reflexivity].
Defined.

(** X24.  After its creator deleted a project, the project routes and the
    ticket routes that start from the project answer 404 for it.  Its
    tickets stay in the store, but no actor finds them in
    [GET /api/tickets] any more. *)
Theorem deleted_project_orphans (s : Store) (owner pid : string) (p : Project.t)
    (Hp : projects s !! pid = Some p)
    (Howner : owner = Project.createdBy p) :
  let s' := Project_deleteOne s pid in
  ProjectsV2.deleteProject s owner pid
  = (json 200 (BMessage "Project deleted successfully."), s')
  /\ ProjectsV1.deleteProject s owner pid = (json 200 (BMessage "Project deleted"), s')
  /\ (forall actor v b newId now,
        b_projectId b = Some pid ->
        status (fst (ProjectsV2.getProject s' actor pid)) = 404
        /\ status (fst (ProjectsV2.addMember s' actor pid v)) = 404
        /\ status (fst (ProjectsV2.deleteProject s' actor pid)) = 404
        /\ status (fst (TicketsV3.getProjectTickets s' actor pid)) = 404
        /\ status (fst (TicketsV3.createTicket s' actor newId b now)) = 404)
  /\ (forall actor tid t,
        tickets s !! tid = Some t -> Ticket.projectId t = Some pid ->
        tickets s' !! tid = Some t
        /\ t ∉ Ticket_find_in s' (fst <$> Project_find_accessible s' actor)).
Proof.
  intros s'. subst owner.
  assert (Hgone : projects s' !! pid = None) by apply lookup_delete_eq.
  unfold ProjectsV2.deleteProject, ProjectsV1.deleteProject.
  rewrite Hp. cbn [found bind]. rewrite String.eqb_refl. cbn [negb reject_if bind].
  split; [reflexivity |]. split; [reflexivity |]. split.
  - intros actor v b newId now Hb.
    unfold ProjectsV2.getProject, ProjectsV2.addMember, ProjectsV2.deleteProject,
      TicketsV3.getProjectTickets, TicketsV3.createTicket.
    rewrite Hb. cbn [Project_findById]. rewrite Hgone. by repeat split.
  - intros actor tid t Ht Htp. split; [exact Ht |].
    rewrite Ticket_find_in_spec. intros [_ (pid' & Hpid' & Hin)].
    rewrite Htp in Hpid'. injection Hpid' as <-.
    apply list_elem_of_fmap in Hin as ([pid' q] & Hfst & Hin).
    cbn [fst] in Hfst. subst pid'.
    apply Project_find_accessible_spec in Hin as [Hq _].
    rewrite Hgone in Hq. discriminate.
Qed.

Lemma deleted_project_orphans_witness :
  tickets (snd (ProjectsV2.deleteProject demo "u1" "p1")) !! "t1" = Some login_bug
  /\ TicketListV3.listTickets (snd (ProjectsV2.deleteProject demo "u1" "p1")) "u1"
     = (json 200 (BTickets []), snd (ProjectsV2.deleteProject demo "u1" "p1")).
Proof.
  destruct (deleted_project_orphans demo "u1" "p1" sprint eq_refl eq_refl)
    as (Hdel & _ & _ & Htickets).
  destruct (Htickets "u1" "t1" login_bug eq_refl eq_refl) as [Hstill _].
  rewrite Hdel. cbn [snd]. split; [exact Hstill | reflexivity].
Defined.

(** X25.  Adding and removing members keeps the team list in order: the
    creator stays the creator, stays on the list when they were on it, and
    a list without repetitions stays without repetitions, whatever the
    request is answered with. *)
Theorem team_list_invariant (s : Store) (actor pid other : string)
    (v : option string) (p : Project.t)
    (Hp : projects s !! pid = Some p)
    (Hin : Project.createdBy p ∈ Project.teamMembers p)
    (Hnodup : NoDup (Project.teamMembers p)) :
  let kept (s' : Store) :=
    exists p', projects s' !! pid = Some p'
               /\ Project.createdBy p' = Project.createdBy p
               /\ Project.createdBy p' ∈ Project.teamMembers p'
               /\ NoDup (Project.teamMembers p') in
  kept (snd (ProjectsV1.addMember s actor pid v))
  /\ kept (snd (ProjectsV2.addMember s actor pid v))
  /\ kept (snd (ProjectsV1.removeMember s actor pid other))
  /\ kept (snd (ProjectsV2.removeMember s actor pid other)).
Proof.
  intros kept.
  assert (Hsame : kept s) by (by exists p).
  assert (Hadded : forall u : User.t,
            includes (Project.teamMembers p) (User._id u) = false ->
            kept (Project_save s pid
                    (set_teamMembers p (Project.teamMembers p ++ [User._id u])))).
  { intros u Hu. apply includes_false in Hu. eexists.
    split; [apply lookup_insert_eq |]. cbn [set_teamMembers Project.createdBy
      Project.teamMembers]. split; [reflexivity |].
    split; [apply elem_of_app; by left |].
    apply NoDup_app. split; [exact Hnodup |].
    split; [| apply NoDup_singleton].
    intros x Hx Hx'. apply list_elem_of_singleton in Hx'. by subst x. }
  assert (Hremoved : String.eqb other (Project.createdBy p) = false ->
            kept (Project_save s pid
                    (set_teamMembers p
                       (filter (fun member => negb (String.eqb member other))
                               (Project.teamMembers p))))).
  { intros Hne. apply String.eqb_neq in Hne. eexists.
    split; [apply lookup_insert_eq |]. cbn [set_teamMembers Project.createdBy
      Project.teamMembers]. split; [reflexivity |].
    split; [apply remove_elem_of; split; [congruence | exact Hin] |].
    by apply NoDup_filter. }
  unfold ProjectsV1.addMember, ProjectsV2.addMember, ProjectsV1.removeMember,
    ProjectsV2.removeMember.
  rewrite Hp. cbn [found bind].
  destruct (String.eqb (Project.createdBy p) actor); cbn [negb reject_if bind];
    [| by repeat split].
  destruct (User_findOne_email s v) as [u |]; cbn [found bind].
  - destruct (includes (Project.teamMembers p) (User._id u)) eqn:Hu;
      destruct (String.eqb other (Project.createdBy p)) eqn:Ho;
      cbn [reject_if bind handle snd]; repeat split; auto.
  - destruct (String.eqb other (Project.createdBy p)) eqn:Ho;
      cbn [reject_if bind handle snd]; repeat split; auto.
Qed.

Lemma team_list_invariant_witness :
  exists p',
    projects (snd (ProjectsV2.addMember demo "u1" "p1" (Some "carol@devtrack.io")))
      !! "p1" = Some p'
    /\ NoDup (Project.teamMembers p').
Proof.
  destruct (team_list_invariant demo "u1" "p1" "u2" (Some "carol@devtrack.io")
              sprint eq_refl) as (_ & (p' & Hp' & _ & _ & Hnd) & _).
  - apply includes_true. reflexivity.
  - apply NoDup_ListNoDup. repeat constructor; simpl; intuition discriminate.
  - exists p'. by split.
Defined.
